(** * mcp-debug: the DAP session layer, embedded and verified

    A shallow embedding of the session protocol layer of
    [github.com/roasbeef/mcp-debug]: the retry helper, the session actor and
    its read loop, the session factory and the typed operation helpers that
    sit on top of the session's request/response primitive.

    Conventions.
    - Go [int] and [time.Duration] values are integers in [Z]; the only
      arithmetic that can leave the 64-bit range ([d.nextSessionID++]) is
      written with its wrap-around.
    - Go [error] values are terms of [error]; a nilable [error] result is an
      [option error] ([None] is [nil]).
    - A Go [select] takes one of its ready cases; which one is an input of the
      model (a scripted outcome), never a choice made by the model.
    - [log.Printf] calls produce no value the code reads back and are left out;
      where the code logs an absorbed event, the model records the event.  *)

From Stdlib Require Import ZArith Floats DecimalString DecimalZ.
From stdpp Require Import gmap strings list.

Local Open Scope Z_scope.

(** ** Go strings *)

Module strings.

(** [strings.HasSuffix(s, suffix)]:
    [len(s) >= len(suffix) && s[len(s)-len(suffix):] == suffix] *)
Definition HasSuffix (s suffix : string) : bool :=
  (String.length suffix <=? String.length s)%nat &&
  String.eqb
    (String.substring (String.length s - String.length suffix)
                      (String.length suffix) s)
    suffix.

(** [strings.Contains(s, substr)]: [substr] occurs at some offset of [s]. *)
Fixpoint Contains (s substr : string) : bool :=
  String.prefix substr s ||
  match s with
  | EmptyString => false
  | String _ s' => Contains s' substr
  end.

End strings.

(** ** Go errors *)

(** [io.EOF], [context.Canceled] and [context.DeadlineExceeded] are sentinel
    values compared by identity; [errorString] is what [errors.New] and a
    [fmt.Errorf] without [%w] build (and stands for errors of other
    libraries); [wrapError] is [fmt.wrapError]: the formatted text and the
    operand of [%w]. *)
Inductive error : Type :=
| io_EOF
| context_Canceled
| context_DeadlineExceeded
| errorString (s : string)
| wrapError (msg : string) (err : error).

(** [err.Error()] *)
Definition Error (e : error) : string :=
  match e with
  | io_EOF => "EOF"
  | context_Canceled => "context canceled"
  | context_DeadlineExceeded => "context deadline exceeded"
  | errorString s => s
  | wrapError msg _ => msg
  end.

(** [errors.Unwrap(err)] *)
Definition Unwrap (e : error) : option error :=
  match e with
  | wrapError _ err => Some err
  | _ => None
  end.

(** [fmt.Errorf(prefix + "%w", err)]: the operand is printed as with [%v] and
    kept as the wrapped error; a nil operand prints as [%!w(<nil>)] and
    nothing is wrapped ([fmt] then returns a plain [errorString]). *)
Definition Errorf_w (prefix : string) (err : option error) : error :=
  match err with
  | Some e => wrapError (prefix +:+ Error e) e
  | None => errorString (prefix +:+ "%!w(<nil>)")
  end.

(** [strconv]-style decimal rendering, the [%d] verb of [fmt]. *)
Definition fmt_d (n : Z) : string := NilZero.string_of_int (Z.to_int n).

(** [fn.Result[T]] of [lnd/fn]: a value or an error. *)
Inductive Result (T : Type) : Type :=
| Ok (v : T)
| Err (e : error).
Arguments Ok {T} v.
Arguments Err {T} e.

(** 64-bit two's complement wrap-around of Go's [int] on 64-bit targets. *)
Definition wrap64 (z : Z) : Z := (z + 2 ^ 63) mod 2 ^ 64 - 2 ^ 63.

Definition MaxInt64 : Z := 2 ^ 63 - 1.

(** ** The wire protocol: [github.com/google/go-dap]

    Only the message types the code under study builds or inspects are listed,
    with the fields it writes or reads; a field the code leaves out of a
    composite literal has Go's zero value and is not repeated here, except
    [Seq], which some helpers set. *)

Module dap.

Record ProtocolMessage : Type := { Seq : Z; Type' : string }.

Record Request : Type :=
  { Request_ProtocolMessage : ProtocolMessage; Command : string }.

Record InitializeRequestArguments : Type :=
  { ClientID : string; AdapterID : string;
    LinesStartAt1 : bool; ColumnsStartAt1 : bool }.

Record Source : Type := { Path : string }.

Record SourceBreakpoint : Type :=
  { Line : Z; Column : Z; Condition : string;
    HitCondition : string; LogMessage : string }.

Record SetBreakpointsArguments : Type :=
  { Source_ : Source; Breakpoints : list SourceBreakpoint }.

Record FunctionBreakpoint : Type :=
  { Name : string; FB_Condition : string; FB_HitCondition : string }.

Record SetFunctionBreakpointsArguments : Type :=
  { FB_Breakpoints : list FunctionBreakpoint }.

(** [json.RawMessage] arguments of a launch request, before
    [json.Marshal]: the values the code stores in its
    [map[string]interface{}] are strings, booleans and string slices. *)
Inductive JSON : Type :=
| JString (s : string)
| JBool (b : bool)
| JStrings (l : list string).

(** [ErrorResponse.Body.Error]; the helpers read [Format] and [Id]. The
    field is a pointer that a backend may leave out; an error response here
    is one that carries it. *)
Record ErrorMessage : Type := { Id : Z; Format : string }.

(** A decoded protocol message. Every value is a request, a response
    (implements [dap.ResponseMessage]) or an event (implements
    [dap.EventMessage]). *)
Inductive Message : Type :=
(* requests *)
| InitializeRequest (r : Request) (Arguments : InitializeRequestArguments)
| LaunchRequest (r : Request) (Arguments : gmap string JSON)
| ConfigurationDoneRequest (r : Request)
| SetBreakpointsRequest (r : Request) (Arguments : SetBreakpointsArguments)
| SetFunctionBreakpointsRequest (r : Request)
    (Arguments : SetFunctionBreakpointsArguments)
| ContinueRequest (r : Request) (ThreadId : Z)
| NextRequest (r : Request) (ThreadId : Z)
| StepInRequest (r : Request) (ThreadId : Z)
| StepOutRequest (r : Request) (ThreadId : Z)
| PauseRequest (r : Request) (ThreadId : Z)
(* responses *)
| InitializeResponse (SupportsConfigurationDoneRequest : bool)
| LaunchResponse
| ConfigurationDoneResponse
| SetBreakpointsResponse (verifiedLines : list Z)
| SetFunctionBreakpointsResponse
| ContinueResponse (AllThreadsContinued : bool)
| NextResponse
| StepInResponse
| StepOutResponse
| PauseResponse
| ErrorResponse (Body_Error : ErrorMessage)
(* events *)
| InitializedEvent
| OutputEvent (Output : string)
| StoppedEvent (ThreadId : Z) (Reason : string)
| TerminatedEvent
| ExitedEvent (ExitCode : Z)
| ThreadEvent (ThreadId : Z) (Reason : string).

(** [_, ok := m.(dap.ResponseMessage)] *)
Definition isResponseMessage (m : Message) : bool :=
  match m with
  | InitializeResponse _ | LaunchResponse | ConfigurationDoneResponse
  | SetBreakpointsResponse _ | SetFunctionBreakpointsResponse
  | ContinueResponse _ | NextResponse | StepInResponse | StepOutResponse
  | PauseResponse | ErrorResponse _ => true
  | _ => false
  end.

(** [_, ok := m.(dap.EventMessage)] *)
Definition isEventMessage (m : Message) : bool :=
  match m with
  | InitializedEvent | OutputEvent _ | StoppedEvent _ _ | TerminatedEvent
  | ExitedEvent _ | ThreadEvent _ _ => true
  | _ => false
  end.

(** What the [%T] verb prints for a message. *)
Definition typeName (m : Message) : string :=
  match m with
  | InitializeRequest _ _ => "*dap.InitializeRequest"
  | LaunchRequest _ _ => "*dap.LaunchRequest"
  | ConfigurationDoneRequest _ => "*dap.ConfigurationDoneRequest"
  | SetBreakpointsRequest _ _ => "*dap.SetBreakpointsRequest"
  | SetFunctionBreakpointsRequest _ _ => "*dap.SetFunctionBreakpointsRequest"
  | ContinueRequest _ _ => "*dap.ContinueRequest"
  | NextRequest _ _ => "*dap.NextRequest"
  | StepInRequest _ _ => "*dap.StepInRequest"
  | StepOutRequest _ _ => "*dap.StepOutRequest"
  | PauseRequest _ _ => "*dap.PauseRequest"
  | InitializeResponse _ => "*dap.InitializeResponse"
  | LaunchResponse => "*dap.LaunchResponse"
  | ConfigurationDoneResponse => "*dap.ConfigurationDoneResponse"
  | SetBreakpointsResponse _ => "*dap.SetBreakpointsResponse"
  | SetFunctionBreakpointsResponse => "*dap.SetFunctionBreakpointsResponse"
  | ContinueResponse _ => "*dap.ContinueResponse"
  | NextResponse => "*dap.NextResponse"
  | StepInResponse => "*dap.StepInResponse"
  | StepOutResponse => "*dap.StepOutResponse"
  | PauseResponse => "*dap.PauseResponse"
  | ErrorResponse _ => "*dap.ErrorResponse"
  | InitializedEvent => "*dap.InitializedEvent"
  | OutputEvent _ => "*dap.OutputEvent"
  | StoppedEvent _ _ => "*dap.StoppedEvent"
  | TerminatedEvent => "*dap.TerminatedEvent"
  | ExitedEvent _ => "*dap.ExitedEvent"
  | ThreadEvent _ _ => "*dap.ThreadEvent"
  end.

(** The [Command] field of a request message. *)
Definition requestCommand (m : Message) : option string :=
  match m with
  | InitializeRequest r _ | LaunchRequest r _ | ConfigurationDoneRequest r
  | SetBreakpointsRequest r _ | SetFunctionBreakpointsRequest r _
  | ContinueRequest r _ | NextRequest r _ | StepInRequest r _
  | StepOutRequest r _ | PauseRequest r _ => Some (Command r)
  | _ => None
  end.

End dap.

(** ** Actor messages ([dap_messages.go]) *)

Record DAPRequest : Type := { Request : dap.Message }.
Record DAPResponse : Type := { Response : dap.Message }.

(** ** Calling a session

    Every typed helper either returns at once or performs exactly one
    [session.Ask(ctx, dapReq).Await(ctx).Unpack()] and then runs the rest
    of its body on the result. [Return] and [Ask] are these two shapes;
    [k] is the code after [Unpack]. *)
Inductive Call (A : Type) : Type :=
| Return (a : A)
| Ask (req : DAPRequest) (k : Result DAPResponse -> A).
Arguments Return {A} a.
Arguments Ask {A} req k.

(** Running a helper against a session actor with state [S] whose message
    handler is [receive]. *)
Definition runCall {S A : Type}
    (receive : DAPRequest -> S -> Result DAPResponse * S)
    (c : Call A) (s : S) : A * S :=
  match c with
  | Return a => (a, s)
  | Ask req k => let '(res, s') := receive req s in (k res, s')
  end.

(** The request a helper hands to the session, if any. *)
Definition asked {A : Type} (c : Call A) : option dap.Message :=
  match c with
  | Return _ => None
  | Ask req _ => Some (Request req)
  end.

(** [MockSession] of the test suite: it records every request and answers
    from a table keyed by command name. *)
Record MockSession : Type :=
  { mock_responses : gmap string dap.Message;
    mock_requests : list dap.Message }.

Definition NewMockSession : MockSession :=
  {| mock_responses := ∅; mock_requests := [] |}.

Definition SetResponse (command : string) (response : dap.Message)
    (m : MockSession) : MockSession :=
  {| mock_responses := <[command := response]> (mock_responses m);
     mock_requests := mock_requests m |}.

Definition MockSession_Receive (msg : DAPRequest) (m : MockSession)
    : Result DAPResponse * MockSession :=
  let m' := {| mock_responses := mock_responses m;
               mock_requests := mock_requests m ++ [Request msg] |} in
  match dap.requestCommand (Request msg) with
  | None =>
      (Err (errorString ("unknown request type: " +:+
                         dap.typeName (Request msg))), m')
  | Some command =>
      match mock_responses m !! command with
      | Some response => (Ok {| Response := response |}, m')
      | None =>
          (Err (errorString ("no mock response for command: " +:+ command)),
           m')
      end
  end.

(** ** Configuration and breakpoint value types ([dap_types.go])

    Rocq record fields share one name space, so a field name used by two
    structs carries the struct's initials on all but one of them. *)

Record LaunchConfig : Type :=
  { Name : string; Program : string; Args : list string; Env : list string;
    WorkingDir : string; StopOnEntry : bool; BuildFlags : list string }.

Record BreakpointLocation : Type :=
  { File : string; Line : Z; Column : Z; Condition : string;
    HitCondition : string; LogMessage : string }.

Record FunctionBreakpoint : Type :=
  { FB_Name : string; FB_Condition : string; FB_HitCondition : string }.

(** The request header every helper builds: [Type: "request"], the command
    name, and [Seq] where the helper sets it (zero otherwise). *)
Definition request (seq : Z) (command : string) : dap.Request :=
  {| dap.Request_ProtocolMessage := {| dap.Seq := seq; dap.Type' := "request" |};
     dap.Command := command |}.

(** [fmt.Errorf("unexpected response type: %T", result.Response)] *)
Definition unexpectedResponseType (m : dap.Message) : error :=
  errorString ("unexpected response type: " +:+ dap.typeName m).

(** [fmt.Errorf("<op> failed: %s (id: %d)", Body.Error.Format, Body.Error.Id)] *)
Definition backendFailure (op : string) (e : dap.ErrorMessage) : error :=
  errorString (op +:+ " failed: " +:+ dap.Format e +:+ " (id: " +:+
               fmt_d (dap.Id e) +:+ ")").

(** ** Typed operation helpers: session setup ([dap_api.go]) *)

Definition InitializeSession (clientID : string) : Call (Result dap.Message) :=
  let req :=
    dap.InitializeRequest (request 1 "initialize")
      {| dap.ClientID := clientID; dap.AdapterID := "go";
         dap.LinesStartAt1 := true; dap.ColumnsStartAt1 := true |} in
  Ask {| Request := req |} (fun res =>
    match res with
    | Err err => Err err
    | Ok result =>
        match Response result with
        | dap.InitializeResponse _ as resp => Ok resp
        | other => Err (unexpectedResponseType other)
        end
    end).

Definition ConfigurationDone : Call (Result dap.Message) :=
  let req := dap.ConfigurationDoneRequest (request 3 "configurationDone") in
  Ask {| Request := req |} (fun res =>
    match res with
    | Err err => Err err
    | Ok result =>
        match Response result with
        | dap.ConfigurationDoneResponse as resp => Ok resp
        | other => Err (unexpectedResponseType other)
        end
    end).

Section Launch.

(** [os.Stat(path)]: the permission and mode bits of the file, or [None]
    when [Stat] returns an error. The file system is not part of the
    program, so it is an input. *)
Variable Stat : string -> option Z.

(** The mode derivation at the head of [LaunchProgram]. *)
Definition launchMode (config : LaunchConfig) : string :=
  let isTest :=
    strings.HasSuffix (Program config) "_test.go" ||
    strings.HasSuffix (Program config) ".test" ||
    match Args config with
    | [] => false
    | arg0 :: _ => strings.Contains arg0 "-test."
    end in
  if strings.HasSuffix (Program config) ".test" ||
     strings.Contains (Program config) "__debug_bin"
  then "exec"
  else if isTest || strings.HasSuffix (Program config) "_test.go"
  then "test"
  else if negb (strings.HasSuffix (Program config) ".go")
  then match Stat (Program config) with
       | Some fileMode =>
           if negb (Z.land fileMode 73 (* 0111 *) =? 0) then "exec" else "debug"
       | None => "debug"
       end
  else "debug".

(** The build-flag block: outside exec mode the debug flags are put in
    front unless some supplied flag already mentions them. *)
Definition launchBuildFlags (mode : string) (config : LaunchConfig)
    : list string :=
  let buildFlags := BuildFlags config in
  if negb (String.eqb mode "exec") then
    let hasDebugFlags :=
      existsb (fun flag => strings.Contains flag "-gcflags" ||
                           strings.Contains flag "-N -l") buildFlags in
    if negb hasDebugFlags
    then ["-gcflags"; "all=-N -l"] ++ buildFlags
    else buildFlags
  else buildFlags.

(** An optional key of the launch arguments: set only under [cond]. *)
Definition setIf (cond : bool) (key : string) (v : dap.JSON)
    (m : gmap string dap.JSON) : gmap string dap.JSON :=
  if cond then <[key := v]> m else m.

(** The [launchArgs] map as it stands when it is marshalled. *)
Definition launchArgs (config : LaunchConfig) : gmap string dap.JSON :=
  let mode := launchMode config in
  let m0 : gmap string dap.JSON :=
    <["program" := dap.JString (Program config)]>
    (<["mode" := dap.JString mode]>
    (<["request" := dap.JString "launch"]>
    (<["type" := dap.JString "go"]>
    (<["name" := dap.JString (Name config)]> ∅)))) in
  let m1 := setIf (0 <? length (Args config))%nat "args"
              (dap.JStrings (Args config)) m0 in
  let m2 := setIf (0 <? length (Env config))%nat "env"
              (dap.JStrings (Env config)) m1 in
  let m3 := setIf (negb (String.eqb (WorkingDir config) "")) "cwd"
              (dap.JString (WorkingDir config)) m2 in
  let m4 := setIf (StopOnEntry config) "stopOnEntry" (dap.JBool true) m3 in
  let buildFlags := launchBuildFlags mode config in
  setIf (0 <? length buildFlags)%nat "buildFlags"
    (dap.JStrings buildFlags) m4.

(** [LaunchProgram], the revision that derives the mode
    ([package debugger], second document of
    [src/debugger/dap_execution_test.go]). [json.Marshal] cannot fail on a
    map of strings, booleans and string slices, so the request carries the
    map itself. *)
Definition LaunchProgram (config : LaunchConfig) : Call (Result dap.Message) :=
  let req := dap.LaunchRequest (request 2 "launch") (launchArgs config) in
  Ask {| Request := req |} (fun res =>
    match res with
    | Err err => Err err
    | Ok result =>
        match Response result with
        | dap.LaunchResponse as resp => Ok resp
        | dap.ErrorResponse errResp => Err (backendFailure "launch" errResp)
        | other => Err (unexpectedResponseType other)
        end
    end).

End Launch.



(** ** Typed operation helpers: breakpoints ([dap_breakpoints.go]) *)

(** The single-file check: the loop over [breakpoints[1:]] that compares
    each [File] with the first one. *)
Definition sameFile (sourcePath : string) (rest : list BreakpointLocation)
    : bool :=
  forallb (fun bp => String.eqb (File bp) sourcePath) rest.

Definition toSourceBreakpoint (bp : BreakpointLocation) : dap.SourceBreakpoint :=
  {| dap.Line := Line bp; dap.Column := Column bp;
     dap.Condition := Condition bp; dap.HitCondition := HitCondition bp;
     dap.LogMessage := LogMessage bp |}.

Definition SetBreakpoints (breakpoints : list BreakpointLocation)
    : Call (Result dap.Message) :=
  match breakpoints with
  | [] => Return (Err (errorString "no breakpoints provided"))
  | first :: rest =>
      let sourcePath := File first in
      if negb (sameFile sourcePath rest)
      then Return (Err (errorString "all breakpoints must be for the same file"))
      else
        let sourceBreakpoints := map toSourceBreakpoint breakpoints in
        let req :=
          dap.SetBreakpointsRequest (request 0 "setBreakpoints")
            {| dap.Source_ := {| dap.Path := sourcePath |};
               dap.Breakpoints := sourceBreakpoints |} in
        Ask {| Request := req |} (fun res =>
          match res with
          | Err err => Err err
          | Ok result =>
              match Response result with
              | dap.SetBreakpointsResponse _ as resp => Ok resp
              | other => Err (unexpectedResponseType other)
              end
          end)
  end.

Definition toDapFunctionBreakpoint (bp : FunctionBreakpoint)
    : dap.FunctionBreakpoint :=
  {| dap.Name := FB_Name bp; dap.FB_Condition := FB_Condition bp;
     dap.FB_HitCondition := FB_HitCondition bp |}.

Definition SetFunctionBreakpoints (functionBreakpoints : list FunctionBreakpoint)
    : Call (Result dap.Message) :=
  let dapFunctionBreakpoints :=
    map toDapFunctionBreakpoint functionBreakpoints in
  let req :=
    dap.SetFunctionBreakpointsRequest (request 0 "setFunctionBreakpoints")
      {| dap.FB_Breakpoints := dapFunctionBreakpoints |} in
  Ask {| Request := req |} (fun res =>
    match res with
    | Err err => Err err
    | Ok result =>
        match Response result with
        | dap.SetFunctionBreakpointsResponse as resp => Ok resp
        | other => Err (unexpectedResponseType other)
        end
    end).

(** The convenience wrappers of [dap_api.go]. *)
Definition SetSourceBreakpoints (sourcePath : string) (lines : list Z)
    : Call (Result dap.Message) :=
  let breakpoints :=
    map (fun line =>
           {| File := sourcePath; Line := line; Column := 0; Condition := "";
              HitCondition := ""; LogMessage := "" |}) lines in
  SetBreakpoints breakpoints.

Definition SetSimpleFunctionBreakpoints (functionNames : list string)
    : Call (Result dap.Message) :=
  let breakpoints :=
    map (fun name =>
           {| FB_Name := name; FB_Condition := ""; FB_HitCondition := "" |})
        functionNames in
  SetFunctionBreakpoints breakpoints.

(** ** Typed operation helpers: execution control ([dap_execution.go]) *)

Definition Continue (threadID : Z) : Call (Result dap.Message) :=
  let req := dap.ContinueRequest (request 0 "continue") threadID in
  Ask {| Request := req |} (fun res =>
    match res with
    | Err err => Err err
    | Ok result =>
        match Response result with
        | dap.ContinueResponse _ as resp => Ok resp
        | dap.ErrorResponse errResp => Err (backendFailure "continue" errResp)
        | other => Err (unexpectedResponseType other)
        end
    end).

Definition Next (threadID : Z) : Call (Result dap.Message) :=
  let req := dap.NextRequest (request 0 "next") threadID in
  Ask {| Request := req |} (fun res =>
    match res with
    | Err err => Err err
    | Ok result =>
        match Response result with
        | dap.NextResponse as resp => Ok resp
        | other => Err (unexpectedResponseType other)
        end
    end).

Definition StepIn (threadID : Z) : Call (Result dap.Message) :=
  let req := dap.StepInRequest (request 0 "stepIn") threadID in
  Ask {| Request := req |} (fun res =>
    match res with
    | Err err => Err err
    | Ok result =>
        match Response result with
        | dap.StepInResponse as resp => Ok resp
        | other => Err (unexpectedResponseType other)
        end
    end).

Definition StepOut (threadID : Z) : Call (Result dap.Message) :=
  let req := dap.StepOutRequest (request 0 "stepOut") threadID in
  Ask {| Request := req |} (fun res =>
    match res with
    | Err err => Err err
    | Ok result =>
        match Response result with
        | dap.StepOutResponse as resp => Ok resp
        | other => Err (unexpectedResponseType other)
        end
    end).

Definition Pause (threadID : Z) : Call (Result dap.Message) :=
  let req := dap.PauseRequest (request 0 "pause") threadID in
  Ask {| Request := req |} (fun res =>
    match res with
    | Err err => Err err
    | Ok result =>
        match Response result with
        | dap.PauseResponse as resp => Ok resp
        | other => Err (unexpectedResponseType other)
        end
    end).

(** ** The session actor ([session.go])

    A session owns three channels of capacity one, written only by its read
    loop: [responses], [events] and [errors]. The read loop and the message
    handler are modelled one function each; what a [select] took, and what
    [dap.ReadProtocolMessage] and [dap.WriteProtocolMessage] returned, is
    scripted. *)

(** What the read loop put on a channel. *)
Inductive Push : Type :=
| PushResponse (m : dap.Message)
| PushEvent (m : dap.Message)
| PushError (err : error).

(** The outcome of a [select] between a channel send and [<-s.quit]. A send
    on [responses] or [events] may never become ready (nobody drains the
    channel and nobody stops the session). *)
Inductive SendOutcome : Type :=
| Sent
| QuitFired
| NeverReady.

(** One pass through the body of the read loop:
    - [QuitClosed]: the non-blocking [select] at the top took [<-s.quit];
    - [ReadFails err quitFirst]: [dap.ReadProtocolMessage] returned [err];
      [quitFirst] tells whether the [select] around [s.errors <- ...] took
      [<-s.quit]. The send itself is always ready: [errors] has capacity one,
      the read loop is its only sender and returns right after its first
      send (see [readLoop_pushes_at_most_one_error]);
    - [ReadMessage msg send]: a message was decoded; [send] is the outcome
      of the [select] that forwards it, when there is one. *)
Inductive ReadStep : Type :=
| QuitClosed
| ReadFails (err : error) (quitFirst : bool)
| ReadMessage (msg : dap.Message) (send : SendOutcome).

(** How a run of the read loop ends: it returned, it is blocked forever in a
    send, or the script is over and it is blocked in the next read. *)
Inductive LoopState : Type :=
| Returned
| BlockedInSend
| BlockedInRead.

(** [fmt.Errorf("error reading DAP message: %w", err)] *)
Definition readError (err : error) : error :=
  Errorf_w "error reading DAP message: " (Some err).

(** [Session.readLoop]. The two revisions of [session.go] (packages
    [debugger] and [mcpdebug]) differ only in logging. *)
Fixpoint readLoop (script : list ReadStep) : list Push * LoopState :=
  match script with
  | [] => ([], BlockedInRead)
  | QuitClosed :: _ => ([], Returned)
  | ReadFails err quitFirst :: _ =>
      match err with
      | io_EOF => ([], Returned)
      | _ =>
          if quitFirst then ([], Returned)
          else ([PushError (readError err)], Returned)
      end
  | ReadMessage msg send :: rest =>
      if dap.isResponseMessage msg then
        match send with
        | Sent => let '(pushes, st) := readLoop rest in
                  (PushResponse msg :: pushes, st)
        | QuitFired => ([], Returned)
        | NeverReady => ([], BlockedInSend)
        end
      else if dap.isEventMessage msg then
        match send with
        | Sent => let '(pushes, st) := readLoop rest in
                  (PushEvent msg :: pushes, st)
        | QuitFired => ([], Returned)
        | NeverReady => ([], BlockedInSend)
        end
      else readLoop rest
  end.

(** The case a [select] of [Session.Receive] took. [CtxDone err] is
    [<-actorCtx.Done()], with [err] the value of [actorCtx.Err()]. *)
Inductive Selected : Type :=
| RecvResponse (resp : dap.Message)
| RecvEvent (event : dap.Message)
| RecvError (err : error)
| CtxDone (err : error).

(** [fmt.Errorf("error writing DAP message: %w", err)] *)
Definition writeError (err : error) : error :=
  Errorf_w "error writing DAP message: " (Some err).

Module Session.

(** The wait loop of [Session.Receive] in package [debugger]: the events it
    absorbed, in order, and the result it returned; [None] when the script
    is over and the handler is still blocked in its [select]. Every arm of
    the switch over the event's type ends in [continue]. *)
Fixpoint awaitResponse (selected : list Selected)
    : list dap.Message * option (Result DAPResponse) :=
  match selected with
  | [] => ([], None)
  | RecvResponse resp :: _ => ([], Some (Ok {| Response := resp |}))
  | RecvEvent event :: rest =>
      let continue :=
        let '(absorbed, res) := awaitResponse rest in
        (event :: absorbed, res) in
      match event with
      | dap.OutputEvent _ => continue
      | dap.StoppedEvent _ _ => continue
      | dap.TerminatedEvent | dap.ExitedEvent _ => continue
      | _ => continue
      end
  | RecvError err :: _ => ([], Some (Err err))
  | CtxDone err :: _ => ([], Some (Err err))
  end.

(** [Session.Receive]: [written] is the result of
    [dap.WriteProtocolMessage(s.conn, msg.Request)]. *)
Definition Receive (written : option error) (selected : list Selected)
    : list dap.Message * option (Result DAPResponse) :=
  match written with
  | Some err => ([], Some (Err (writeError err)))
  | None => awaitResponse selected
  end.

End Session.

Module mcpdebug_Session.

(** [Session.Receive] of the root package: one [select], no loop; an event
    is returned as if it were the response. *)
Definition Receive (written : option error) (selected : list Selected)
    : option (Result DAPResponse) :=
  match written with
  | Some err => Some (Err (writeError err))
  | None =>
      match selected with
      | [] => None
      | RecvResponse resp :: _ => Some (Ok {| Response := resp |})
      | RecvEvent event :: _ => Some (Ok {| Response := event |})
      | RecvError err :: _ => Some (Err err)
      | CtxDone err :: _ => Some (Err err)
      end
  end.

End mcpdebug_Session.

(** What a handler received came out of the channels, and the read loop is
    their only writer: every receive is matched by a push. *)
Definition fedBy (pushes : list Push) (sel : Selected) : Prop :=
  match sel with
  | RecvResponse m => PushResponse m ∈ pushes
  | RecvEvent m => PushEvent m ∈ pushes
  | RecvError e => PushError e ∈ pushes
  | CtxDone _ => True
  end.

(** ** The session factory ([debugger.go])

    The [debugger] actor creates sessions and registers each one with the
    actor system under a fresh identifier. The actor system belongs to
    [lnd/actor]; of it the model keeps the table of registered actors, by
    identifier. The table stands for the system where a session is
    registered under an identifier that was free; what the library does
    with a second registration under a taken identifier is not modelled.
    [NewSession] starts a backend process and connects to it; its result is
    scripted. *)

Module debugger.

Section WithSession.

(** The session value [NewSession] returns. *)
Variable Session : Type.

Inductive DebuggerCommand : Type :=
| StartDebuggerCmd
| StopDebuggerCmd
| CreateSessionCmd.

Record debugger : Type :=
  { nextSessionID : Z; system : gmap string Session }.

(** [actor.ActorRef] of a registered session: its identifier and the
    session behind it. *)
Record ActorRef : Type := { ref_id : string; ref_session : Session }.

Inductive DebuggerResp : Type :=
| CreateSessionResp (session : ActorRef).

Definition newDebugger (sys : gmap string Session) : debugger :=
  {| nextSessionID := 0; system := sys |}.

(** [fmt.Sprintf("session-%d", n)] *)
Definition sessionName (n : Z) : string := "session-" +:+ fmt_d n.

(** The body shared, word for word, by the [*StartDebuggerCmd] and
    [*CreateSessionCmd] cases. *)
Definition createSession (newSession : Result Session) (d : debugger)
    : Result DebuggerResp * debugger :=
  match newSession with
  | Err err =>
      (Err (Errorf_w "could not create session: " (Some err)), d)
  | Ok session =>
      let next := wrap64 (nextSessionID d + 1) in
      let sessionID := sessionName next in
      let sys := <[sessionID := session]> (system d) in
      let sessionRef := {| ref_id := sessionID; ref_session := session |} in
      (Ok (CreateSessionResp sessionRef),
       {| nextSessionID := next; system := sys |})
  end.

Definition commandTypeName (cmd : DebuggerCommand) : string :=
  match cmd with
  | StartDebuggerCmd => "*mcpdebug.StartDebuggerCmd"
  | StopDebuggerCmd => "*mcpdebug.StopDebuggerCmd"
  | CreateSessionCmd => "*mcpdebug.CreateSessionCmd"
  end.

(** [debugger.Receive]. [newSession] is what [NewSession()] returns if
    the handler calls it. *)
Definition Receive (cmd : DebuggerCommand) (newSession : Result Session)
    (d : debugger) : Result DebuggerResp * debugger :=
  match cmd with
  | StartDebuggerCmd => createSession newSession d
  | CreateSessionCmd => createSession newSession d
  | _ =>
      (Err (errorString ("unknown command type: " +:+ commandTypeName cmd)),
       d)
  end.

(** The actor handles its mailbox one message at a time. *)
Fixpoint handleAll (mailbox : list (DebuggerCommand * Result Session))
    (d : debugger) : list (Result DebuggerResp) * debugger :=
  match mailbox with
  | [] => ([], d)
  | (cmd, newSession) :: rest =>
      let '(resp, d') := Receive cmd newSession d in
      let '(resps, d'') := handleAll rest d' in
      (resp :: resps, d'')
  end.

(** The identifiers handed out in a list of replies. *)
Definition createdIDs (resps : list (Result DebuggerResp)) : list string :=
  omap (fun r => match r with
                 | Ok (CreateSessionResp ref) => Some (ref_id ref)
                 | Err _ => None
                 end) resps.

End WithSession.

Arguments nextSessionID {Session} d.
Arguments system {Session} d.
Arguments ref_id {Session} a.
Arguments ref_session {Session} a.
Arguments CreateSessionResp {Session} session.
Arguments newDebugger {Session} sys.
Arguments createSession {Session} newSession d.
Arguments Receive {Session} cmd newSession d.
Arguments handleAll {Session} mailbox d.
Arguments createdIDs {Session} resps.

End debugger.

(** ** The retry helper ([retry.go]) *)

Module retry.

(** [time.Duration]: a signed 64-bit count of nanoseconds. *)
Definition Millisecond : Z := 1000000.

Record RetryConfig : Type :=
  { MaxAttempts : Z; InitialDelay : Z; MaxDelay : Z; Multiplier : float }.

Definition DefaultRetryConfig : RetryConfig :=
  {| MaxAttempts := 5;
     InitialDelay := 10 * Millisecond;
     MaxDelay := 500 * Millisecond;
     Multiplier := 2.0%float |}.

(** [float64(d)] for a 64-bit integer [d]: the nearest binary64 value,
    ties to even. *)
Definition float64_of_int64 (d : Z) : float :=
  SF2Prim (binary_normalize prec emax d 0 false).

(** [int64(f)]: the fraction is discarded. Go leaves the result open when
    the value does not fit (or is not a number); amd64 yields the least
    64-bit integer there, and so does the model. *)
Definition int64_of_float64 (f : float) : Z :=
  let truncated :=
    match Prim2SF f with
    | S754_zero _ => Some 0
    | S754_finite sign m e =>
        let magnitude :=
          if 0 <=? e then Z.pos m * 2 ^ e else Z.pos m / 2 ^ (- e) in
        Some (if sign then - magnitude else magnitude)
    | S754_infinity _ | S754_nan => None
    end in
  match truncated with
  | Some z => if (- 2 ^ 63 <=? z) && (z <? 2 ^ 63) then z else - 2 ^ 63
  | None => - 2 ^ 63
  end.

(** The delay update at the end of the loop body:
    [delay = time.Duration(float64(delay) * config.Multiplier)], then the
    cap at [config.MaxDelay]. *)
Definition nextDelay (config : RetryConfig) (delay : Z) : Z :=
  let scaled :=
    int64_of_float64 (float64_of_int64 delay * Multiplier config)%float in
  if MaxDelay config <? scaled then MaxDelay config else scaled.

(** What the environment does during one call: the result of the
    operation in each attempt, which [select]s find the context done, and
    the value of [ctx.Err()] once it is. Attempts are numbered from one,
    as in the loop. *)
Record Script : Type :=
  { operation : Z -> option error;
    doneBeforeAttempt : Z -> bool;
    doneDuringBackoff : Z -> bool;
    ctxErr : error }.

(** What a call does that can be seen from outside. A [Sleep] is a backoff
    wait that ran to the end of its timer. *)
Inductive Effect : Type :=
| Invoke (attempt : Z)
| Sleep (delay : Z).

(** [fmt.Errorf("operation failed after %d attempts, last error: %w", ...)] *)
Definition exhausted (config : RetryConfig) (lastErr : option error) : error :=
  Errorf_w ("operation failed after " +:+ fmt_d (MaxAttempts config) +:+
            " attempts, last error: ") lastErr.

(** The [for] loop of [RetryWithBackoff] and the [return] after it. The
    fuel bounds the number of passes; [None] is a run that needs more. The
    result is the returned [error] ([None] inside is [nil]). *)
Fixpoint retryLoop (config : RetryConfig) (env : Script) (fuel : nat)
    (attempt delay : Z) (lastErr : option error)
    : list Effect * option (option error) :=
  match fuel with
  | O => ([], None)
  | S fuel' =>
      if attempt <=? MaxAttempts config then
        if doneBeforeAttempt env attempt then ([], Some (Some (ctxErr env)))
        else
          match operation env attempt with
          | None => ([Invoke attempt], Some None)
          | Some err =>
              if attempt =? MaxAttempts config then
                ([Invoke attempt], Some (Some (exhausted config (Some err))))
              else if doneDuringBackoff env attempt then
                ([Invoke attempt], Some (Some (ctxErr env)))
              else
                let '(effects, res) :=
                  retryLoop config env fuel' (attempt + 1)
                    (nextDelay config delay) (Some err) in
                (Invoke attempt :: Sleep delay :: effects, res)
          end
      else ([], Some (Some (exhausted config lastErr)))
  end.

(** [RetryWithBackoff]. The loop counter never exceeds [MaxAttempts] (the
    [break] comes first), so it cannot overflow. *)
Definition RetryWithBackoff (config : RetryConfig) (env : Script)
    : list Effect * option (option error) :=
  retryLoop config env (S (Z.to_nat (MaxAttempts config))) 1
    (InitialDelay config) None.

(** The invocations among the effects. *)
Definition invocations (effects : list Effect) : list Z :=
  omap (fun e => match e with Invoke k => Some k | Sleep _ => None end)
       effects.

(** The completed backoff waits among the effects. *)
Definition sleeps (effects : list Effect) : list Z :=
  omap (fun e => match e with Sleep d => Some d | Invoke _ => None end)
       effects.

(** The delays of the first [n] backoff waits. *)
Fixpoint backoffDelays (config : RetryConfig) (n : nat) (delay : Z)
    : list Z :=
  match n with
  | O => []
  | S n' => delay :: backoffDelays config n' (nextDelay config delay)
  end.

(** Attempt [j] fails and the context stays live through its backoff. *)
Definition failsQuietly (env : Script) (j : Z) : Prop :=
  doneBeforeAttempt env j = false /\
  is_Some (operation env j) /\
  doneDuringBackoff env j = false.

(** The effects of [n] failed attempts in a row, from attempt [attempt] on
    with current delay [delay]: each invocation is followed by a wait of the
    current delay, and the delay is then updated. *)
Fixpoint failedAttempts (config : RetryConfig) (n : nat) (attempt delay : Z)
    : list Effect :=
  match n with
  | O => []
  | S n' =>
      Invoke attempt :: Sleep delay ::
      failedAttempts config n' (attempt + 1) (nextDelay config delay)
  end.

End retry.

(** ** Fake backends *)

(** A session that records each request it is handed and answers every one
    with [reply]. *)
Definition answering (reply : Result DAPResponse) (req : DAPRequest)
    (seen : list dap.Message) : Result DAPResponse * list dap.Message :=
  (reply, seen ++ [Request req]).

(** The arguments of a set-breakpoints request. *)
Definition setBreakpointsArguments (m : dap.Message)
    : option dap.SetBreakpointsArguments :=
  match m with
  | dap.SetBreakpointsRequest _ args => Some args
  | _ => None
  end.

(** ** Statements about requests *)

(** A source breakpoint of a request carries the fields of a location. *)
Definition carries (bp : BreakpointLocation) (sb : dap.SourceBreakpoint) : Prop :=
  dap.Line sb = Line bp /\ dap.Column sb = Column bp /\
  dap.Condition sb = Condition bp /\ dap.HitCondition sb = HitCondition bp /\
  dap.LogMessage sb = LogMessage bp.

(** A function breakpoint of a request carries the fields of a descriptor. *)
Definition carriesFunction (bp : FunctionBreakpoint)
    (fb : dap.FunctionBreakpoint) : Prop :=
  dap.Name fb = FB_Name bp /\ dap.FB_Condition fb = FB_Condition bp /\
  dap.FB_HitCondition fb = FB_HitCondition bp.

(** What a helper returns when the session call succeeds with [reply]. *)
Definition returnsOn {A : Type} (c : Call A) (reply : dap.Message) : A :=
  fst (runCall (answering (Ok {| Response := reply |})) c []).

(** ** Launch mode: the specification's reading

    This definition follows the words of the specification, not the code:
    the launch mode as a function of the target path's shape (and the test
    flags among the arguments) alone. Exec for a path that ends in the
    pre-built-binary suffix [.test], test for a path that ends in [_test.go]
    or a first argument that carries a [-test.] flag, debug for every other
    path. [LaunchProgram] is compared with it below. *)
Definition modeByShape (config : LaunchConfig) : string :=
  if strings.HasSuffix (Program config) ".test" then "exec"
  else if strings.HasSuffix (Program config) "_test.go" ||
          match Args config with
          | [] => false
          | arg0 :: _ => strings.Contains arg0 "-test."
          end
  then "test"
  else "debug".



(** A supplied flag counts as a debug flag when it mentions [-gcflags] or
    [-N -l]. *)
Definition isDebugFlag (flag : string) : bool :=
  strings.Contains flag "-gcflags" || strings.Contains flag "-N -l".

(** ** Sample inputs *)

Definition bp_main_10 : BreakpointLocation :=
  {| File := "main.go"; Line := 10; Column := 0; Condition := "";
     HitCondition := ""; LogMessage := "" |}.

Definition bp_util_20 : BreakpointLocation :=
  {| File := "util.go"; Line := 20; Column := 0; Condition := "x > 1";
     HitCondition := ""; LogMessage := "" |}.

Definition backendError : dap.ErrorMessage :=
  {| dap.Id := 2000; dap.Format := "could not find thread 7" |}.


Definition statExecutable (path : string) : option Z := Some 493 (* 0755 *).

(** A source file under a directory whose name carries the binary marker. *)
Definition markedTestFile : LaunchConfig :=
  {| Name := "pkg"; Program := "__debug_bin/pkg_test.go"; Args := [];
     Env := []; WorkingDir := ""; StopOnEntry := false; BuildFlags := [] |}.

Definition statMissing (path : string) : option Z := None.

(** A compiled test binary. *)
Definition testBinary : LaunchConfig :=
  {| Name := "pkg tests"; Program := "build/pkg.test"; Args := ["-test.v"];
     Env := []; WorkingDir := ""; StopOnEntry := false; BuildFlags := [] |}.

Definition mainPackage : LaunchConfig :=
  {| Name := "main"; Program := "cmd/main.go"; Args := ["-v"];
     Env := []; WorkingDir := ""; StopOnEntry := false;
     BuildFlags := ["-race"] |}.

Definition stoppedAtBreakpoint : dap.Message := dap.StoppedEvent 1 "breakpoint".

Definition programOutput : dap.Message := dap.OutputEvent "listening on :8080".

Definition brokenHeader : error := errorString "header format is not '^Content-Length: ([0-9]+)$'".

(** Three creation requests, the second of which cannot start its backend;
    a session is named by the port it is connected to. *)
Definition threeRequests : list (debugger.DebuggerCommand * Result Z) :=
  [(debugger.CreateSessionCmd, Ok 40001);
   (debugger.StartDebuggerCmd,
    Err (errorString "dlv: executable file not found in $PATH"));
   (debugger.CreateSessionCmd, Ok 40002)].

(** A dial that is refused twice and then accepted. *)
Definition refusedTwice : retry.Script :=
  {| retry.operation := fun attempt =>
       if attempt <? 3 then Some (errorString "connection refused") else None;
     retry.doneBeforeAttempt := fun _ => false;
     retry.doneDuringBackoff := fun _ => false;
     retry.ctxErr := context_Canceled |}.

(** A dial that is always refused. *)
Definition alwaysRefused : retry.Script :=
  {| retry.operation := fun _ => Some (errorString "connection refused");
     retry.doneBeforeAttempt := fun _ => false;
     retry.doneDuringBackoff := fun _ => false;
     retry.ctxErr := context_Canceled |}.

(** A dial that is refused, with a deadline that expires during the second
    backoff wait. *)
Definition deadlineInSecondBackoff : retry.Script :=
  {| retry.operation := fun _ => Some (errorString "connection refused");
     retry.doneBeforeAttempt := fun _ => false;
     retry.doneDuringBackoff := fun attempt => 2 <=? attempt;
     retry.ctxErr := context_DeadlineExceeded |}.

(** A dial under a context that is cancelled before the third attempt. *)
Definition cancelledBeforeThird : retry.Script :=
  {| retry.operation := fun _ => Some (errorString "connection refused");
     retry.doneBeforeAttempt := fun attempt => 3 <=? attempt;
     retry.doneDuringBackoff := fun _ => false;
     retry.ctxErr := context_Canceled |}.

(** ** The read loop and a waiting call, side by side

    [NewSession] makes [responses], [events] and [errors] with room for one
    value each and starts the read loop; a call that waits in
    [Session.Receive] runs beside it. What the transport delivers is the list
    of results of [dap.ReadProtocolMessage], in order; which goroutine moves
    next, and which ready case a [select] takes, is a list of turns.
    [s.quit] stays open: [Stop] is not called while the call waits. *)

Module channels.

(** The three channels of a session: what each buffer holds. *)
Record Channels : Type :=
  { responses : option dap.Message;
    events : option dap.Message;
    errors : option error }.

(** The channels as [NewSession] makes them. *)
Definition fresh : Channels :=
  {| responses := None; events := None; errors := None |}.

(** The read loop moves: it reads the next message and forwards it. A send
    on a full channel waits, and so does a read when nothing is left on the
    wire: the state stays as it is. A loop that has returned reads no more:
    nothing is left of the wire. *)
Definition readLoopMoves (wire : list (Result dap.Message)) (ch : Channels)
    : list (Result dap.Message) * Channels :=
  match wire with
  | [] => (wire, ch)
  | Err err :: _ =>
      match err with
      | io_EOF => ([], ch)
      | _ =>
          match errors ch with
          | None =>
              ([], {| responses := responses ch; events := events ch;
                      errors := Some (readError err) |})
          | Some _ => (wire, ch)
          end
      end
  | Ok msg :: rest =>
      if dap.isResponseMessage msg then
        match responses ch with
        | None =>
            (rest, {| responses := Some msg; events := events ch;
                      errors := errors ch |})
        | Some _ => (wire, ch)
        end
      else if dap.isEventMessage msg then
        match events ch with
        | None =>
            (rest, {| responses := responses ch; events := Some msg;
                      errors := errors ch |})
        | Some _ => (wire, ch)
        end
      else (rest, ch)
  end.

(** The cases of the [select] in [Session.Receive]. *)
Inductive Case : Type :=
| FromResponses
| FromEvents
| FromErrors
| FromDone (err : error).

(** The [select] of [Session.Receive] takes a case. A receive is ready only
    when its channel holds a value; [None] is a case that is not ready.
    Whether [actorCtx] is done is for the actor runtime to decide. *)
Definition selectTakes (c : Case) (ch : Channels)
    : option (Selected * Channels) :=
  match c with
  | FromResponses =>
      match responses ch with
      | Some resp =>
          Some (RecvResponse resp,
                {| responses := None; events := events ch;
                   errors := errors ch |})
      | None => None
      end
  | FromEvents =>
      match events ch with
      | Some event =>
          Some (RecvEvent event,
                {| responses := responses ch; events := None;
                   errors := errors ch |})
      | None => None
      end
  | FromErrors =>
      match errors ch with
      | Some err =>
          Some (RecvError err,
                {| responses := responses ch; events := events ch;
                   errors := None |})
      | None => None
      end
  | FromDone err => Some (CtxDone err, ch)
  end.

Inductive Turn : Type :=
| ReadLoop
| Select (c : Case).

(** What the [select]s of the waiting call take, turn by turn; [None] when a
    turn asks a [select] for a case that is not ready. The call stops
    taking when it returns: [Session.Receive] reads the list no further. *)
Fixpoint interleave (turns : list Turn) (wire : list (Result dap.Message))
    (ch : Channels) : option (list Selected) :=
  match turns with
  | [] => Some []
  | ReadLoop :: turns' =>
      let '(wire', ch') := readLoopMoves wire ch in
      interleave turns' wire' ch'
  | Select c :: turns' =>
      match selectTakes c ch with
      | None => None
      | Some (sel, ch') =>
          match interleave turns' wire ch' with
          | None => None
          | Some selected => Some (sel :: selected)
          end
      end
  end.

(** The events the read loop forwards from a wire, given room: the messages
    decoded before the first failed read that go to [events]. *)
Fixpoint eventsOn (wire : list (Result dap.Message)) : list dap.Message :=
  match wire with
  | Ok msg :: rest =>
      if negb (dap.isResponseMessage msg) && dap.isEventMessage msg
      then msg :: eventsOn rest
      else eventsOn rest
  | _ => []
  end.

(** What a buffer holds, as a list. *)
Definition held {A : Type} (buffer : option A) : list A :=
  match buffer with
  | Some a => [a]
  | None => []
  end.

End channels.

(** ** What the read loop saw and what it forwarded *)

(** The messages a script lets [dap.ReadProtocolMessage] decode, in order. *)
Definition decoded (script : list ReadStep) : list dap.Message :=
  omap (fun step => match step with
                    | ReadMessage msg _ => Some msg
                    | _ => None
                    end) script.

(** A message the read loop has a channel for. *)
Definition forwardable (m : dap.Message) : bool :=
  dap.isResponseMessage m || dap.isEventMessage m.

(** The messages among the pushes, in order. *)
Definition pushedMessages (pushes : list Push) : list dap.Message :=
  omap (fun push => match push with
                    | PushResponse m | PushEvent m => Some m
                    | PushError _ => None
                    end) pushes.

(** ** Contexts that are never done *)

(** [context.Background()] is never done: no [select] of the retry helper
    takes its [Done] case. *)
Definition neverDone (env : retry.Script) : Prop :=
  forall k, retry.doneBeforeAttempt env k = false /\
            retry.doneDuringBackoff env k = false.

(** The sum of a list of durations. *)
Definition total (delays : list Z) : Z := foldr Z.add 0 delays.


(** ** The shape every typed helper shares *)

(** [h] hands the session one request with command [command], returns the
    session's error as it is, returns the session's reply when its dynamic
    type is [responseType], and returns an error for a reply of any other
    type. *)
Definition unwraps (h : Call (Result dap.Message)) (command responseType : string)
    : Prop :=
  exists req k,
    h = Ask req k /\
    dap.requestCommand (Request req) = Some command /\
    (forall err, k (Err err) = Err err) /\
    (forall m, dap.typeName m = responseType ->
               k (Ok {| Response := m |}) = Ok m) /\
    (forall m, dap.typeName m <> responseType ->
               exists err, k (Ok {| Response := m |}) = Err err).



(** A plain line breakpoint, as [SetSourceBreakpoints] builds it. *)
Definition lineBreakpoint (line : Z) : dap.SourceBreakpoint :=
  {| dap.Line := line; dap.Column := 0; dap.Condition := "";
     dap.HitCondition := ""; dap.LogMessage := "" |}.

(** A launch configuration with other build flags. *)
Definition withBuildFlags (config : LaunchConfig) (flags : list string)
    : LaunchConfig :=
  {| Name := Name config; Program := Program config; Args := Args config;
     Env := Env config; WorkingDir := WorkingDir config;
     StopOnEntry := StopOnEntry config; BuildFlags := flags |}.

(** The keys a launch payload can have. *)
Definition launchKeys : gset string :=
  list_to_set ["name"; "type"; "request"; "mode"; "program"; "args"; "env";
               "cwd"; "stopOnEntry"; "buildFlags"].

(** ** Starting the backend ([dap.go], [dap_external.go])

    [launchDelveOnceExternal] looks up and starts [dlv dap], reads the
    listen address from its standard output and dials it;
    [launchDelveExternal] retries the whole of it. What the operating system
    answers is scripted; what the code does to it is recorded. *)

(** [strings.HasPrefix(s, prefix)] *)
Definition HasPrefix (s prefix : string) : bool := String.prefix prefix s.

(** [strings.TrimPrefix(s, prefix)]: [s[len(prefix):]] when [s] starts with
    [prefix], else [s]. *)
Definition TrimPrefix (s prefix : string) : string :=
  if HasPrefix s prefix
  then String.substring (String.length prefix)
         (String.length s - String.length prefix) s
  else s.

Module delve.

(** How the output of the process ends for [bufio.Scanner]: [Scan] returns
    false with no error, [Scan] returns false with an error, or no further
    line comes and the output stays open. *)
Inductive StdoutEnd : Type :=
| EndOfOutput
| ScanFails (err : error)
| Silent.

(** What the scanning goroutine ends with: an address on [addrCh], an error
    on [errCh], or nothing (it is blocked in [Scan]). *)
Inductive Scanned : Type :=
| Address (addr : string)
| Failed (err : error)
| Blocked.

Definition prefix : string := "DAP server listening at: ".

(** The goroutine that scans the standard output. *)
Fixpoint scanStdout (lines : list string) (ending : StdoutEnd) : Scanned :=
  match lines with
  | [] =>
      match ending with
      | EndOfOutput => Failed (errorString "unexpected end of stdout")
      | ScanFails err => Failed (Errorf_w "error reading stdout: " (Some err))
      | Silent => Blocked
      end
  | line :: rest =>
      if HasPrefix line prefix then Address (TrimPrefix line prefix)
      else scanStdout rest ending
  end.

(** What the operating system does during one launch attempt. [timedOut]:
    the [select] that waits for the address took [<-ctx.Done()] (the five
    seconds were over first). The last three fields script the dial loop:
    the result of [net.Dial] in each attempt, and which of its [select]s
    found the deadline passed. *)
Record Attempt : Type :=
  { lookPath : Result string;
    stdoutPipe : option error;
    start : option error;
    stdoutLines : list string;
    stdoutEnd : StdoutEnd;
    timedOut : bool;
    dialResult : Z -> option error;
    deadlineBeforeDial : Z -> bool;
    deadlineDuringBackoff : Z -> bool }.

(** What a launch does to the operating system. *)
Inductive Effect : Type :=
| StartProcess (path : string)
| KillProcess
| Dial (addr : string)
| Wait (delay : Z).

(** The connection to the backend: the address it was dialled at. *)
Record Conn : Type := { remote : string }.

(** The retry configuration of the dial. *)
Definition dialConfig : retry.RetryConfig :=
  {| retry.MaxAttempts := 3;
     retry.InitialDelay := 50 * retry.Millisecond;
     retry.MaxDelay := 200 * retry.Millisecond;
     retry.Multiplier := 2.0%float |}.

(** The dial loop runs under the context with the five-second timeout, whose
    error, once it is done, is [context.DeadlineExceeded]. *)
Definition dialScript (a : Attempt) : retry.Script :=
  {| retry.operation := dialResult a;
     retry.doneBeforeAttempt := deadlineBeforeDial a;
     retry.doneDuringBackoff := deadlineDuringBackoff a;
     retry.ctxErr := context_DeadlineExceeded |}.

(** The error [RetryWithBackoff] returned. The loop always returns, so the
    run that is out of fuel does not occur; it is mapped to nil. *)
Definition returned (run : list retry.Effect * option (option error))
    : option error :=
  match run.2 with
  | Some err => err
  | None => None
  end.

(** The effects of a dial loop on the operating system. *)
Definition dialEffects (addr : string) (effects : list retry.Effect)
    : list Effect :=
  map (fun e => match e with
                | retry.Invoke _ => Dial addr
                | retry.Sleep delay => Wait delay
                end) effects.

(** [launchDelveOnceExternal]. The cleanup closure kills the process. *)
Definition launchDelveOnceExternal (a : Attempt) : list Effect * Result Conn :=
  match lookPath a with
  | Err err => ([], Err (Errorf_w "could not find 'dlv' executable: " (Some err)))
  | Ok dlvPath =>
      match stdoutPipe a with
      | Some err => ([], Err (Errorf_w "could not get stdout pipe: " (Some err)))
      | None =>
          match start a with
          | Some err =>
              ([], Err (Errorf_w "could not start dlv process: " (Some err)))
          | None =>
              let timeout :=
                ([StartProcess dlvPath; KillProcess],
                 Err (errorString "timed out waiting for dlv dap address")) in
              match scanStdout (stdoutLines a) (stdoutEnd a) with
              | Blocked => timeout
              | Failed err =>
                  if timedOut a then timeout
                  else ([StartProcess dlvPath; KillProcess], Err err)
              | Address addr =>
                  if timedOut a then timeout
                  else
                    let run := retry.RetryWithBackoff dialConfig (dialScript a) in
                    match returned run with
                    | Some connectErr =>
                        (StartProcess dlvPath :: dialEffects addr run.1 ++
                           [KillProcess],
                         Err (Errorf_w ("could not connect to dlv dap server at "
                                        +:+ addr +:+ ": ") (Some connectErr)))
                    | None =>
                        (StartProcess dlvPath :: dialEffects addr run.1,
                         Ok {| remote := addr |})
                    end
              end
          end
      end
  end.

(** The retry loop of [launchDelveExternal] runs under
    [context.Background()], which is never done; each invocation of its
    operation is one launch attempt. *)
Definition launchScript (attempts : Z -> Attempt) : retry.Script :=
  {| retry.operation := fun k =>
       match (launchDelveOnceExternal (attempts k)).2 with
       | Ok _ => None
       | Err err => Some err
       end;
     retry.doneBeforeAttempt := fun _ => false;
     retry.doneDuringBackoff := fun _ => false;
     retry.ctxErr := context_Canceled |}.

(** The effects of the launch loop on the operating system. *)
Definition launchEffects (attempts : Z -> Attempt) (effects : list retry.Effect)
    : list Effect :=
  flat_map (fun e => match e with
                     | retry.Invoke k => (launchDelveOnceExternal (attempts k)).1
                     | retry.Sleep delay => [Wait delay]
                     end) effects.

(** [launchDelveExternal]. The closure assigns [conn] in every invocation;
    what is returned on success is the value of the last one ([None] is a
    nil connection). *)
Definition launchDelveExternal (attempts : Z -> Attempt)
    : list Effect * Result (option Conn) :=
  let run := retry.RetryWithBackoff retry.DefaultRetryConfig
               (launchScript attempts) in
  match returned run with
  | Some err =>
      (launchEffects attempts run.1,
       Err (Errorf_w "failed to launch Delve after retries: " (Some err)))
  | None =>
      let conn :=
        match last (retry.invocations run.1) with
        | Some k =>
            match (launchDelveOnceExternal (attempts k)).2 with
            | Ok conn => Some conn
            | Err _ => None
            end
        | None => None
        end in
      (launchEffects attempts run.1, Ok conn)
  end.

(** [launchDelve] uses the external process. *)
Definition launchDelve (attempts : Z -> Attempt)
    : list Effect * Result (option Conn) :=
  launchDelveExternal attempts.

(** The processes started and not killed. *)
Fixpoint alive (effects : list Effect) : Z :=
  match effects with
  | [] => 0
  | StartProcess _ :: rest => alive rest + 1
  | KillProcess :: rest => alive rest - 1
  | _ :: rest => alive rest
  end.

(** The processes started. *)
Definition started (effects : list Effect) : list string :=
  omap (fun e => match e with StartProcess path => Some path | _ => None end)
       effects.

(** The addresses dialled. *)
Definition dialled (effects : list Effect) : list string :=
  omap (fun e => match e with Dial addr => Some addr | _ => None end) effects.

(** An attempt succeeds. *)
Definition succeeds (a : Attempt) : Prop :=
  exists conn, (launchDelveOnceExternal a).2 = Ok conn.

End delve.

(** ** A new session ([session.go], [debugger.go]) *)

(** The [Session] struct as [NewSession] fills it: the connection it got
    from [launchDelve]; its quit signal and its three channels are new and
    empty, and its read loop has been started. *)
Record SessionStruct : Type := { conn : option delve.Conn }.

(** [NewSession] *)
Definition NewSession (attempts : Z -> delve.Attempt)
    : list delve.Effect * Result SessionStruct :=
  let launched := delve.launchDelve attempts in
  match launched.2 with
  | Err err => (launched.1, Err err)
  | Ok c => (launched.1, Ok {| conn := c |})
  end.

(** A creation command handled by the factory, with the launch that its call
    of [NewSession] performs. *)
Definition createSessionLaunching (attempts : Z -> delve.Attempt)
    (d : debugger.debugger SessionStruct)
    : list delve.Effect *
      (Result (debugger.DebuggerResp SessionStruct) *
       debugger.debugger SessionStruct) :=
  let created := NewSession attempts in
  (created.1, debugger.createSession created.2 d).

(** ** The tool layer ([mcp/server.go])

    Every tool handler of [MCPDebugServer] looks its session up in the
    [sessions] map, calls one typed helper on it and turns the outcome into
    a text result. The session actors and the factory sit behind actor
    references: [ask] is the session's handler over the state [World] of all
    backends, [askDebugger] the factory's reply to a [CreateSessionCmd] over
    its state [Factory] ([None] stands for a reply that is not a
    [*CreateSessionResp]). [marshal] is [json.Marshal] on what a handler
    prints. *)

Module mcp.

(** [mcp.CallToolResult] with its one text content. *)
Record CallToolResult : Type := { Text : string; IsError : bool }.

Definition failure (text : string) : CallToolResult :=
  {| Text := text; IsError := true |}.

Definition success (text : string) : CallToolResult :=
  {| Text := text; IsError := false |}.

(** [getStringOrDefault] *)
Definition getStringOrDefault (val defaultVal : string) : string :=
  if String.eqb val "" then defaultVal else val.

(** The [%t] verb of [fmt]. *)
Definition fmt_t (b : bool) : string := if b then "true" else "false".

Record LaunchProgramArgs : Type :=
  { LP_SessionID : string; LP_Program : string; LP_Name : string;
    LP_Args : list string; LP_Env : list string; LP_WorkingDir : string;
    LP_StopOnEntry : bool; LP_BuildFlags : list string }.

Section Server.

Context {Ref World Factory : Type}.
Variable ask : Ref -> DAPRequest -> World -> Result DAPResponse * World.
Variable askDebugger : Factory -> Result (option Ref) * Factory.
Variable Stat : string -> option Z.
Variable marshal : dap.Message -> string.

Definition notFound (sessionID : string) : CallToolResult :=
  failure ("Session " +:+ sessionID +:+ " not found").

(** The handler of [create_debug_session]. *)
Definition createDebugSession (sessionID : string)
    (sessions : gmap string Ref) (f : Factory)
    : CallToolResult * gmap string Ref * Factory :=
  match sessions !! sessionID with
  | Some _ =>
      (failure ("Session " +:+ sessionID +:+ " already exists"), sessions, f)
  | None =>
      let '(result, f') := askDebugger f in
      match result with
      | Err err =>
          (failure ("Failed to create session: " +:+ Error err), sessions, f')
      | Ok None => (failure "Invalid response from debugger", sessions, f')
      | Ok (Some session) =>
          (success ("Created debugging session: " +:+ sessionID),
           <[sessionID := session]> sessions, f')
      end
  end.

(** The handler of [initialize_session]. *)
Definition initializeSession (sessionID clientID : string)
    (sessions : gmap string Ref) (w : World) : CallToolResult * World :=
  match sessions !! sessionID with
  | None => (notFound sessionID, w)
  | Some session =>
      let '(res, w') := runCall (ask session) (InitializeSession clientID) w in
      match res with
      | Err err =>
          (failure ("Failed to initialize session: " +:+ Error err), w')
      | Ok resp =>
          (success ("Session initialized successfully. Response: " +:+
                    marshal resp), w')
      end
  end.

(** The launch configuration the handler of [launch_program] builds. *)
Definition launchConfigOf (args : LaunchProgramArgs) : LaunchConfig :=
  {| Name := getStringOrDefault (LP_Name args) "Debug Session";
     Program := LP_Program args;
     Args := LP_Args args;
     Env := LP_Env args;
     WorkingDir := LP_WorkingDir args;
     StopOnEntry := LP_StopOnEntry args;
     BuildFlags := LP_BuildFlags args |}.

(** The handler of [launch_program]. *)
Definition launchProgram (args : LaunchProgramArgs)
    (sessions : gmap string Ref) (w : World) : CallToolResult * World :=
  match sessions !! LP_SessionID args with
  | None => (notFound (LP_SessionID args), w)
  | Some session =>
      let config := launchConfigOf args in
      let '(res, w') := runCall (ask session) (LaunchProgram Stat config) w in
      match res with
      | Err err => (failure ("Failed to launch program: " +:+ Error err), w')
      | Ok resp =>
          (success ("Program launched successfully. Response: " +:+
                    marshal resp), w')
      end
  end.

(** The handler of [configuration_done]. *)
Definition configurationDone (sessionID : string)
    (sessions : gmap string Ref) (w : World) : CallToolResult * World :=
  match sessions !! sessionID with
  | None => (notFound sessionID, w)
  | Some session =>
      let '(res, w') := runCall (ask session) ConfigurationDone w in
      match res with
      | Err err =>
          (failure ("Failed to send configuration done: " +:+ Error err), w')
      | Ok resp =>
          (success ("Configuration done. Response: " +:+ marshal resp), w')
      end
  end.

(** The handler of [set_breakpoints]; it prints the breakpoints of the
    response. *)
Definition setBreakpoints (sessionID file : string) (lines : list Z)
    (sessions : gmap string Ref) (w : World) : CallToolResult * World :=
  match sessions !! sessionID with
  | None => (notFound sessionID, w)
  | Some session =>
      let '(res, w') :=
        runCall (ask session) (SetSourceBreakpoints file lines) w in
      match res with
      | Err err => (failure ("Failed to set breakpoints: " +:+ Error err), w')
      | Ok resp =>
          (success ("Breakpoints set successfully. Breakpoints: " +:+
                    marshal resp), w')
      end
  end.

(** The handler of [continue_execution]. [Continue] returns a
    [*dap.ContinueResponse] or an error, so the last case does not occur. *)
Definition continueExecution (sessionID : string) (threadID : Z)
    (sessions : gmap string Ref) (w : World) : CallToolResult * World :=
  match sessions !! sessionID with
  | None => (notFound sessionID, w)
  | Some session =>
      let '(res, w') := runCall (ask session) (Continue threadID) w in
      match res with
      | Err err =>
          (failure ("Failed to continue execution: " +:+ Error err), w')
      | Ok (dap.ContinueResponse allThreadsContinued) =>
          (success ("Continued execution. All threads continued: " +:+
                    fmt_t allThreadsContinued), w')
      | Ok _ =>
          (success "Continued execution. All threads continued: false", w')
      end
  end.

(** The four step and pause handlers differ in the helper they call and in
    their two texts. *)
Definition executionTool (helper : Z -> Call (Result dap.Message))
    (failed succeeded : string) (sessionID : string) (threadID : Z)
    (sessions : gmap string Ref) (w : World) : CallToolResult * World :=
  match sessions !! sessionID with
  | None => (notFound sessionID, w)
  | Some session =>
      let '(res, w') := runCall (ask session) (helper threadID) w in
      match res with
      | Err err => (failure (failed +:+ Error err), w')
      | Ok _ => (success succeeded, w')
      end
  end.

(** The handlers of [step_next], [step_in], [step_out], [pause_execution]. *)
Definition stepNext := executionTool Next "Failed to step next: "
  "Stepped to next line successfully".
Definition stepIn := executionTool StepIn "Failed to step in: "
  "Stepped into function successfully".
Definition stepOut := executionTool StepOut "Failed to step out: "
  "Stepped out of function successfully".
Definition pauseExecution := executionTool Pause "Failed to pause execution: "
  "Paused execution successfully".

(** [create_debug_session] called for each identifier of a list in turn. *)
Fixpoint createAll (sessionIDs : list string) (sessions : gmap string Ref)
    (f : Factory) : list CallToolResult * gmap string Ref * Factory :=
  match sessionIDs with
  | [] => ([], sessions, f)
  | sessionID :: rest =>
      let '(result, sessions', f') := createDebugSession sessionID sessions f in
      let '(results, sessions'', f'') := createAll rest sessions' f' in
      (result :: results, sessions'', f'')
  end.

End Server.

End mcp.

(** A backend world that records, per session, the requests it was handed,
    and answers each with [reply]. *)
Definition recording (reply : dap.Message -> Result DAPResponse)
    (session : string) (req : DAPRequest)
    (seen : list (string * dap.Message))
    : Result DAPResponse * list (string * dap.Message) :=
  (reply (Request req), seen ++ [(session, Request req)]).

(** A factory that hands out session references by number. *)
Definition numbering (n : nat) : Result (option string) * nat :=
  (Ok (Some ("session-" +:+ fmt_d (Z.of_nat (S n)))), S n).

(** What it means for a tool to report the outcome of one request: with a
    known session it hands the session exactly one request, of the given
    command; the backends end up as that request leaves them; the result is a
    success exactly when the session replied with the response type of the
    command; and an error of the session is printed after [failed]. *)
Definition reportsBackend {Ref World : Type}
    (ask : Ref -> DAPRequest -> World -> Result DAPResponse * World)
    (tool : string -> Z -> gmap string Ref -> World
            -> mcp.CallToolResult * World)
    (command responseType failed : string) : Prop :=
  forall (sessionID : string) (threadID : Z) (sessions : gmap string Ref)
         (session : Ref) (w : World),
    sessions !! sessionID = Some session ->
    exists req,
      dap.requestCommand (Request req) = Some command /\
      (tool sessionID threadID sessions w).2 = (ask session req w).2 /\
      (mcp.IsError (tool sessionID threadID sessions w).1 = false <->
       exists m, (ask session req w).1 = Ok {| Response := m |} /\
                 dap.typeName m = responseType) /\
      (forall err, (ask session req w).1 = Err err ->
         (tool sessionID threadID sessions w).1
           = mcp.failure (failed +:+ Error err)).

(** Launch arguments as a client sends them when it names no session. *)
Definition unnamedLaunch : mcp.LaunchProgramArgs :=
  {| mcp.LP_SessionID := "s1"; mcp.LP_Program := "./cmd/server";
     mcp.LP_Name := EmptyString; mcp.LP_Args := []; mcp.LP_Env := [];
     mcp.LP_WorkingDir := EmptyString; mcp.LP_StopOnEntry := false;
     mcp.LP_BuildFlags := [] |}.

(** A server on which the client has created the session [s1]. *)
Definition oneSession : gmap string string := {[ "s1" := "session-1" ]}.

(** A backend that answers whatever it is handed with a continue response. *)
Definition continued (m : dap.Message) : Result DAPResponse :=
  Ok {| Response := dap.ContinueResponse true |}.

(** The backend reports a stop and then answers the request. *)
Definition stopThenResponse : list (Result dap.Message) :=
  [Ok stoppedAtBreakpoint; Ok (dap.ContinueResponse true)].

(** The read loop forwards both messages before the call looks at its
    channels, and the [select] takes the response. *)
Definition responseFirst : list channels.Turn :=
  [channels.ReadLoop; channels.ReadLoop;
   channels.Select channels.FromResponses].

(** Output, a stop, the response, and the end of the program after it. *)
Definition busyWire : list (Result dap.Message) :=
  [Ok programOutput; Ok stoppedAtBreakpoint; Ok (dap.ContinueResponse true);
   Ok dap.TerminatedEvent].

(** The call takes the output, and finds the response ready together with
    the stop. *)
Definition outputThenResponse : list channels.Turn :=
  [channels.ReadLoop; channels.Select channels.FromEvents;
   channels.ReadLoop; channels.ReadLoop;
   channels.Select channels.FromResponses].

(** A machine on which [dlv] is not installed. *)
Definition noDelve : delve.Attempt :=
  {| delve.lookPath := Err (errorString "executable file not found in $PATH");
     delve.stdoutPipe := None; delve.start := None;
     delve.stdoutLines := []; delve.stdoutEnd := delve.Silent;
     delve.timedOut := false;
     delve.dialResult := fun _ => None;
     delve.deadlineBeforeDial := fun _ => false;
     delve.deadlineDuringBackoff := fun _ => false |}.

(** A backend that logs a line, announces its address and accepts the second
    dial. *)
Definition healthyDelve : delve.Attempt :=
  {| delve.lookPath := Ok "/usr/local/bin/dlv";
     delve.stdoutPipe := None; delve.start := None;
     delve.stdoutLines :=
       ["Type 'help' for list of commands.";
        "DAP server listening at: 127.0.0.1:40001"; "debug layer=dap"];
     delve.stdoutEnd := delve.Silent;
     delve.timedOut := false;
     delve.dialResult := fun attempt =>
       if attempt <? 2 then Some (errorString "connection refused") else None;
     delve.deadlineBeforeDial := fun _ => false;
     delve.deadlineDuringBackoff := fun _ => false |}.

(** A backend that starts but never announces an address. *)
Definition muteDelve : delve.Attempt :=
  {| delve.lookPath := Ok "/usr/local/bin/dlv";
     delve.stdoutPipe := None; delve.start := None;
     delve.stdoutLines := ["Type 'help' for list of commands."];
     delve.stdoutEnd := delve.Silent;
     delve.timedOut := true;
     delve.dialResult := fun _ => None;
     delve.deadlineBeforeDial := fun _ => false;
     delve.deadlineDuringBackoff := fun _ => false |}.

(** Two backends that stay mute, then a healthy one. *)
Definition thirdTimeLucky (attempt : Z) : delve.Attempt :=
  if attempt <? 3 then muteDelve else healthyDelve.
(** * Properties *)

(** ** Breakpoint helpers *)

Lemma sameFile_false_iff sourcePath rest :
  sameFile sourcePath rest = false <->
  exists bp, bp ∈ rest /\ File bp <> sourcePath.
Proof.
  unfold sameFile. induction rest as [|bp rest IH]; simpl.
  - split; [discriminate | intros (bp & Hin & _); inversion Hin].
  - destruct (String.eqb_spec (File bp) sourcePath) as [Heq | Hne]; simpl.
    + rewrite IH. split.
      * intros (bp' & Hin & Hne). exists bp'. split; [by right | done].
      * intros (bp' & Hin & Hne). apply elem_of_cons in Hin as [-> | Hin].
        -- contradiction.
        -- by exists bp'.
    + split; [intros _ | done]. exists bp. split; [by left | done].
Qed.

Lemma sameFile_true_iff sourcePath rest :
  sameFile sourcePath rest = true <->
  forall bp, bp ∈ rest -> File bp = sourcePath.
Proof.
  unfold sameFile. rewrite forallb_forall. split.
  - intros H bp Hin. apply String.eqb_eq, H. by apply list_elem_of_In.
  - intros H bp Hin. apply String.eqb_eq, H. by apply list_elem_of_In.
Qed.

(** Two entries naming different files: one of them differs from the
    first entry. *)
Lemma spans_two_files first rest b1 b2 :
  b1 ∈ first :: rest -> b2 ∈ first :: rest -> File b1 <> File b2 ->
  sameFile (File first) rest = false.
Proof.
  intros H1 H2 Hne. apply sameFile_false_iff.
  apply elem_of_cons in H1 as [-> | H1]; apply elem_of_cons in H2 as [-> | H2].
  - contradiction.
  - exists b2. split; [done | congruence].
  - exists b1. split; [done | congruence].
  - destruct (String.eqb_spec (File b1) (File first)) as [Heq | Hd].
    + exists b2. split; [done | congruence].
    + by exists b1.
Qed.

(** C4. [SetBreakpoints] on an empty list returns an error whose text contains
    "no breakpoints provided"; on a list in which two entries name different
    files it returns an error whose text contains "all breakpoints must be
    for the same file". In both cases it returns without handing a request to
    the session: whatever the session is, its state after the call is its
    state before. *)
Theorem SetBreakpoints_rejects_bad_input
    {S : Type} (receive : DAPRequest -> S -> Result DAPResponse * S) (s : S)
    (breakpoints : list BreakpointLocation) :
  (breakpoints = [] ->
     exists err,
       runCall receive (SetBreakpoints breakpoints) s = (Err err, s) /\
       asked (SetBreakpoints breakpoints) = None /\
       strings.Contains (Error err) "no breakpoints provided" = true) /\
  ((exists b1 b2, b1 ∈ breakpoints /\ b2 ∈ breakpoints /\ File b1 <> File b2) ->
     exists err,
       runCall receive (SetBreakpoints breakpoints) s = (Err err, s) /\
       asked (SetBreakpoints breakpoints) = None /\
       strings.Contains (Error err)
         "all breakpoints must be for the same file" = true).
Proof.
  split.
  - intros ->. exists (errorString "no breakpoints provided"). by repeat split.
  - intros (b1 & b2 & H1 & H2 & Hne).
    destruct breakpoints as [|first rest]; [inversion H1 |].
    exists (errorString "all breakpoints must be for the same file").
    unfold SetBreakpoints.
    rewrite (spans_two_files first rest b1 b2 H1 H2 Hne). by repeat split.
Qed.

Lemma SetBreakpoints_rejects_bad_input_witness :
  (exists err,
     runCall MockSession_Receive (SetBreakpoints []) NewMockSession
       = (Err err, NewMockSession) /\
     asked (SetBreakpoints []) = None /\
     strings.Contains (Error err) "no breakpoints provided" = true) /\
  (exists err,
     runCall MockSession_Receive (SetBreakpoints [bp_main_10; bp_util_20])
       NewMockSession = (Err err, NewMockSession) /\
     asked (SetBreakpoints [bp_main_10; bp_util_20]) = None /\
     strings.Contains (Error err)
       "all breakpoints must be for the same file" = true).
Proof.
  split.
  - apply (SetBreakpoints_rejects_bad_input MockSession_Receive NewMockSession []).
    reflexivity.
  - apply (SetBreakpoints_rejects_bad_input MockSession_Receive NewMockSession
             [bp_main_10; bp_util_20]).
    exists bp_main_10, bp_util_20. split; [| split].
    + apply list_elem_of_here.
    + apply list_elem_of_further, list_elem_of_here.
    + simpl. discriminate.
Defined.

Lemma toSourceBreakpoint_carries breakpoints :
  Forall2 carries breakpoints (map toSourceBreakpoint breakpoints).
Proof.
  induction breakpoints as [|bp rest IH]; simpl; constructor; [| exact IH].
  by repeat split.
Qed.

(** C5. For a non-empty list of breakpoints that all name the file [path],
    the request [SetBreakpoints] builds is a [setBreakpoints] request whose
    source path is the first element's file and whose breakpoints are the
    supplied locations, one per element and in order, each with the
    element's line, column, condition, hit condition and log message. The
    request is a function of the arguments alone: after any earlier call, a
    backend that records what it receives sees exactly this request next, so
    a second call for the same file shows only the new set. *)
Theorem SetBreakpoints_request_is_the_input
    (path : string) (first : BreakpointLocation)
    (rest : list BreakpointLocation) :
  (forall bp, bp ∈ first :: rest -> File bp = path) ->
  exists args,
    asked (SetBreakpoints (first :: rest))
      = Some (dap.SetBreakpointsRequest (request 0 "setBreakpoints") args) /\
    dap.Path (dap.Source_ args) = File first /\
    dap.Path (dap.Source_ args) = path /\
    Forall2 carries (first :: rest) (dap.Breakpoints args) /\
    forall (previous : list BreakpointLocation)
           (reply1 reply2 : Result DAPResponse) (seen : list dap.Message),
      let seen1 :=
        snd (runCall (answering reply1) (SetBreakpoints previous) seen) in
      snd (runCall (answering reply2) (SetBreakpoints (first :: rest)) seen1)
        = seen1 ++ [dap.SetBreakpointsRequest (request 0 "setBreakpoints") args].
Proof.
  intros Hfile.
  assert (Hsame : sameFile (File first) rest = true).
  { apply sameFile_true_iff. intros bp Hin.
    rewrite (Hfile bp) by (by right). symmetry. apply Hfile. by left. }
  exists {| dap.Source_ := {| dap.Path := File first |};
            dap.Breakpoints := map toSourceBreakpoint (first :: rest) |}.
  unfold SetBreakpoints. rewrite Hsame. cbn [negb asked Request].
  split; [reflexivity |]. split; [reflexivity |].
  split; [apply Hfile; by left |].
  split; [apply toSourceBreakpoint_carries |].
  intros previous reply1 reply2 seen. reflexivity.
Qed.

Lemma SetBreakpoints_request_is_the_input_witness :
  exists args,
    asked (SetBreakpoints [bp_main_10])
      = Some (dap.SetBreakpointsRequest (request 0 "setBreakpoints") args) /\
    dap.Path (dap.Source_ args) = File bp_main_10 /\
    dap.Path (dap.Source_ args) = "main.go" /\
    Forall2 carries [bp_main_10] (dap.Breakpoints args) /\
    forall (previous : list BreakpointLocation)
           (reply1 reply2 : Result DAPResponse) (seen : list dap.Message),
      let seen1 :=
        snd (runCall (answering reply1) (SetBreakpoints previous) seen) in
      snd (runCall (answering reply2) (SetBreakpoints [bp_main_10]) seen1)
        = seen1 ++ [dap.SetBreakpointsRequest (request 0 "setBreakpoints") args].
Proof.
  apply (SetBreakpoints_request_is_the_input "main.go" bp_main_10 []).
  intros bp Hin. apply list_elem_of_singleton in Hin. rewrite Hin. reflexivity.
Defined.

(** The spec's scenario: lines 10 and 20 of a file, then line 30 of the same
    file; the second request the backend sees lists line 30 only. *)
Example SetSourceBreakpoints_replace :
  let seen1 :=
    snd (runCall (answering (Ok {| Response := dap.SetBreakpointsResponse [10; 20] |}))
           (SetSourceBreakpoints "main.go" [10; 20]) []) in
  let seen2 :=
    snd (runCall (answering (Ok {| Response := dap.SetBreakpointsResponse [30] |}))
           (SetSourceBreakpoints "main.go" [30]) seen1) in
  (fun args => (dap.Path (dap.Source_ args), map dap.Line (dap.Breakpoints args)))
    <$> omap setBreakpointsArguments seen2
  = [("main.go", [10; 20]); ("main.go", [30])].
Proof. reflexivity. Qed.

Lemma toDapFunctionBreakpoint_carries functionBreakpoints :
  Forall2 carriesFunction functionBreakpoints
    (map toDapFunctionBreakpoint functionBreakpoints).
Proof.
  induction functionBreakpoints as [|bp rest IH]; simpl; constructor;
    [| exact IH].
  by repeat split.
Qed.

(** C10. [SetFunctionBreakpoints] validates nothing: for every list of
    function breakpoints, the empty one included, it builds a
    [setFunctionBreakpoints] request with exactly the supplied entries, one
    per element and in order, and hands it to the session; the empty list
    goes out as an empty array. [SetBreakpoints] hands nothing to the
    session for an empty list. The wrapper over plain names does the same
    with empty conditions. *)
Theorem SetFunctionBreakpoints_sends_every_list
    (functionBreakpoints : list FunctionBreakpoint) :
  (exists args,
     asked (SetFunctionBreakpoints functionBreakpoints)
       = Some (dap.SetFunctionBreakpointsRequest
                 (request 0 "setFunctionBreakpoints") args) /\
     Forall2 carriesFunction functionBreakpoints (dap.FB_Breakpoints args) /\
     forall (reply : Result DAPResponse) (seen : list dap.Message),
       snd (runCall (answering reply)
              (SetFunctionBreakpoints functionBreakpoints) seen)
         = seen ++ [dap.SetFunctionBreakpointsRequest
                      (request 0 "setFunctionBreakpoints") args]) /\
  asked (SetFunctionBreakpoints [])
    = Some (dap.SetFunctionBreakpointsRequest
              (request 0 "setFunctionBreakpoints")
              {| dap.FB_Breakpoints := [] |}) /\
  asked (SetBreakpoints []) = None /\
  forall functionNames : list string,
    asked (SetSimpleFunctionBreakpoints functionNames)
      = Some (dap.SetFunctionBreakpointsRequest
                (request 0 "setFunctionBreakpoints")
                {| dap.FB_Breakpoints :=
                     map (fun name => {| dap.Name := name;
                                         dap.FB_Condition := "";
                                         dap.FB_HitCondition := "" |})
                         functionNames |}).
Proof.
  split; [| split; [reflexivity | split; [reflexivity |]]].
  - exists {| dap.FB_Breakpoints :=
                map toDapFunctionBreakpoint functionBreakpoints |}.
    split; [reflexivity |].
    split; [apply toDapFunctionBreakpoint_carries |].
    intros reply seen. reflexivity.
  - intros functionNames.
    unfold SetSimpleFunctionBreakpoints, SetFunctionBreakpoints. cbn [asked Request].
    rewrite map_map. reflexivity.
Qed.

(** ** Response unwrapping *)

(** C6 (the code at the failing input). When the session answers with the
    backend's error response, [Continue] and [LaunchProgram] report the
    backend's message and identifier, while [Next], [StepIn], [StepOut],
    [Pause], [InitializeSession], [ConfigurationDone], [SetBreakpoints] and
    [SetFunctionBreakpoints] return the same type-mismatch text whatever
    the backend reported. *)
Theorem error_response_unwrapping
    (e : dap.ErrorMessage) (threadID : Z) (Stat : string -> option Z)
    (config : LaunchConfig) (clientID : string) (bp : BreakpointLocation)
    (fbs : list FunctionBreakpoint) :
  let generic := Err (errorString "unexpected response type: *dap.ErrorResponse") in
  returnsOn (Continue threadID) (dap.ErrorResponse e)
    = Err (errorString ("continue failed: " +:+ dap.Format e +:+ " (id: " +:+
                        fmt_d (dap.Id e) +:+ ")")) /\
  returnsOn (LaunchProgram Stat config) (dap.ErrorResponse e)
    = Err (errorString ("launch failed: " +:+ dap.Format e +:+ " (id: " +:+
                        fmt_d (dap.Id e) +:+ ")")) /\
  returnsOn (Next threadID) (dap.ErrorResponse e) = generic /\
  returnsOn (StepIn threadID) (dap.ErrorResponse e) = generic /\
  returnsOn (StepOut threadID) (dap.ErrorResponse e) = generic /\
  returnsOn (Pause threadID) (dap.ErrorResponse e) = generic /\
  returnsOn (InitializeSession clientID) (dap.ErrorResponse e) = generic /\
  returnsOn ConfigurationDone (dap.ErrorResponse e) = generic /\
  returnsOn (SetBreakpoints [bp]) (dap.ErrorResponse e) = generic /\
  returnsOn (SetFunctionBreakpoints fbs) (dap.ErrorResponse e) = generic.
Proof. repeat split. Qed.

Example Next_loses_the_backend_error :
  returnsOn (Next 7) (dap.ErrorResponse backendError)
    = Err (errorString "unexpected response type: *dap.ErrorResponse") /\
  returnsOn (Continue 7) (dap.ErrorResponse backendError)
    = Err (errorString "continue failed: could not find thread 7 (id: 2000)").
Proof. split; reflexivity. Qed.

(** ** Launch mode and build flags *)

Lemma lookup_setIf_ne cond key v (m : gmap string dap.JSON) k :
  key <> k -> setIf cond key v m !! k = m !! k.
Proof.
  intros Hne. unfold setIf. destruct cond; [| reflexivity].
  by apply lookup_insert_ne.
Qed.






(** The same happens for a test file below a directory whose name carries
    the [__debug_bin] marker, whatever the file system says. *)
Example LaunchProgram_marker_beats_test_suffix :
  modeByShape markedTestFile = "test" /\
  launchMode statMissing markedTestFile = "exec".
Proof. split; vm_compute; reflexivity. Qed.



(** ** The session actor *)

Lemma response_is_not_event (m : dap.Message) :
  dap.isResponseMessage m = true -> dap.isEventMessage m = false.
Proof. destruct m; simpl; congruence. Qed.

(** An absorbed event: the wait loop goes round once more. *)
Lemma awaitResponse_event event rest :
  Session.awaitResponse (RecvEvent event :: rest)
    = (event :: (Session.awaitResponse rest).1, (Session.awaitResponse rest).2).
Proof.
  cbn [Session.awaitResponse].
  destruct (Session.awaitResponse rest) as [absorbed res].
  destruct event; reflexivity.
Qed.

Lemma awaitResponse_events events rest :
  Session.awaitResponse (map RecvEvent events ++ rest)
    = (events ++ (Session.awaitResponse rest).1, (Session.awaitResponse rest).2).
Proof.
  induction events as [|event events IH].
  - simpl. by destruct (Session.awaitResponse rest).
  - cbn [map app]. rewrite awaitResponse_event, IH. reflexivity.
Qed.

(** The wait loop returns only on a response, an error or a done context,
    and everything it took before that was an event. *)
Lemma awaitResponse_returns selected absorbed res :
  Session.awaitResponse selected = (absorbed, Some res) ->
  exists last rest,
    selected = map RecvEvent absorbed ++ last :: rest /\
    match last with
    | RecvResponse resp => res = Ok {| Response := resp |}
    | RecvError err | CtxDone err => res = Err err
    | RecvEvent _ => False
    end.
Proof.
  revert absorbed. induction selected as [|sel selected IH]; intros absorbed H.
  - discriminate H.
  - destruct sel as [resp | event | err | err].
    + injection H as <- <-. by exists (RecvResponse resp), selected.
    + rewrite awaitResponse_event in H.
      destruct (Session.awaitResponse selected) as [absorbed' res'] eqn:E.
      injection H as <- ->.
      destruct (IH absorbed' eq_refl) as (last & rest & -> & Hlast).
      by exists last, rest.
    + injection H as <- <-. by exists (RecvError err), selected.
    + injection H as <- <-. by exists (CtxDone err), selected.
Qed.

(** What the read loop pushes is well sorted: responses on [responses],
    events on [events], wrapped decode errors other than end-of-stream on
    [errors]. *)
Lemma readLoop_pushes_sorted script push :
  push ∈ (readLoop script).1 ->
  match push with
  | PushResponse m => dap.isResponseMessage m = true
  | PushEvent m =>
      dap.isResponseMessage m = false /\ dap.isEventMessage m = true
  | PushError e => exists err, err <> io_EOF /\ e = readError err
  end.
Proof.
  induction script as [|step script IH]; [intros H; inversion H |].
  destruct step as [| err quitFirst | msg send]; cbn [readLoop].
  - intros H; inversion H.
  - destruct err; try (intros H; inversion H; fail);
      destruct quitFirst; cbn [fst]; intros H;
      try (inversion H; fail);
      apply list_elem_of_singleton in H; subst push;
      eexists; (split; [| reflexivity]); discriminate.
  - destruct (dap.isResponseMessage msg) eqn:Hr;
      [| destruct (dap.isEventMessage msg) eqn:He]; [| | exact IH];
      (destruct send; [| intros H; inversion H | intros H; inversion H]);
      destruct (readLoop script) as [pushes st]; cbn [fst] in *;
      intros H; (apply elem_of_cons in H as [-> | H]; [| by apply IH]);
      simpl; auto.
Qed.

(** The read loop sends on [errors] at most once, as its last push, and
    returns. *)
Lemma readLoop_pushes_at_most_one_error script e :
  PushError e ∈ (readLoop script).1 ->
  exists pushes,
    readLoop script = (pushes ++ [PushError e], Returned) /\
    forall e', PushError e' ∉ pushes.
Proof.
  induction script as [|step script IH]; [intros H; inversion H |].
  destruct step as [| err quitFirst | msg send]; cbn [readLoop].
  - intros H; inversion H.
  - destruct err; try (intros H; inversion H; fail);
      destruct quitFirst; cbn [fst]; intros H;
      try (inversion H; fail);
      apply list_elem_of_singleton in H; injection H as ->;
      exists []; (split; [reflexivity | intros e' H'; inversion H']).
  - destruct (dap.isResponseMessage msg) eqn:Hr;
      [| destruct (dap.isEventMessage msg) eqn:He]; [| | exact IH];
      (destruct send; [| intros H; inversion H | intros H; inversion H]);
      destruct (readLoop script) as [pushes st]; cbn [fst] in *;
      intros H; apply elem_of_cons in H as [H | H]; try discriminate H;
      destruct (IH H) as (pushes' & Heq & Hno); injection Heq as -> ->;
      eexists (_ :: pushes'); (split; [reflexivity |]);
      intros e' H'; apply elem_of_cons in H' as [H' | H'];
      try discriminate H'; by apply (Hno e').
Qed.

(** A failed write ends the call at once, with the write error wrapped. *)
Lemma Receive_write_failure err selected :
  Session.Receive (Some err) selected
    = ([], Some (Err (wrapError ("error writing DAP message: " +:+ Error err)
                                err))) /\
  mcpdebug_Session.Receive (Some err) selected
    = Some (Err (wrapError ("error writing DAP message: " +:+ Error err) err)).
Proof. split; reflexivity. Qed.

(** C1 as stated fails. The transport delivers a stopped event and then the
    response. The read loop puts the event on [events] and the response on
    [responses]; both channels have room. The [select] of the waiting call
    finds both ready and takes the response: the call returns without
    having absorbed the event that was delivered before the response. *)
Lemma Receive_can_leave_a_delivered_event :
  dap.isEventMessage stoppedAtBreakpoint = true /\
  channels.interleave responseFirst stopThenResponse channels.fresh
    = Some [RecvResponse (dap.ContinueResponse true)] /\
  Session.Receive None [RecvResponse (dap.ContinueResponse true)]
    = ([], Some (Ok {| Response := dap.ContinueResponse true |})) /\
  ~ (forall turns events resp selected absorbed res,
       Forall (fun m => dap.isEventMessage m = true) events ->
       dap.isResponseMessage resp = true ->
       channels.interleave turns (map Ok events ++ [Ok resp]) channels.fresh
         = Some selected ->
       Session.Receive None selected = (absorbed, Some res) ->
       absorbed = events).
Proof.
  split; [reflexivity |]. split; [reflexivity |]. split; [reflexivity |].
  intros H.
  specialize (H responseFirst [stoppedAtBreakpoint] (dap.ContinueResponse true)
                [RecvResponse (dap.ContinueResponse true)] []
                (Ok {| Response := dap.ContinueResponse true |})).
  discriminate H; try reflexivity.
  apply Forall_cons. split; [reflexivity | apply Forall_nil; exact I].
Qed.

(** C1, amended. After a successful write, [Session.Receive] of package
    [debugger] absorbs every event that its [select] takes from the events
    channel, whatever its kind, and goes on waiting: after any list of
    events taken it returns the response it takes (as the result), the
    read-loop error it takes (as the error) or, when the context that the
    actor hands it is done, that context's error; while it takes only
    events it has not returned. It returns only in these three ways. With
    the channels filled by the read loop, a result it returns is
    response-shaped and never an event. *)
Theorem Receive_absorbs_events
    (events : list dap.Message) (rest : list Selected) :
  (forall resp,
     Session.Receive None (map RecvEvent events ++ RecvResponse resp :: rest)
       = (events, Some (Ok {| Response := resp |}))) /\
  (forall err,
     Session.Receive None (map RecvEvent events ++ RecvError err :: rest)
       = (events, Some (Err err))) /\
  (forall err,
     Session.Receive None (map RecvEvent events ++ CtxDone err :: rest)
       = (events, Some (Err err))) /\
  Session.Receive None (map RecvEvent events) = (events, None) /\
  (forall selected absorbed res,
     Session.Receive None selected = (absorbed, Some res) ->
     exists last rest',
       selected = map RecvEvent absorbed ++ last :: rest' /\
       match last with
       | RecvResponse resp => res = Ok {| Response := resp |}
       | RecvError err | CtxDone err => res = Err err
       | RecvEvent _ => False
       end) /\
  (forall script selected absorbed result,
     Forall (fedBy (readLoop script).1) selected ->
     Session.Receive None selected = (absorbed, Some (Ok result)) ->
     dap.isResponseMessage (Response result) = true /\
     dap.isEventMessage (Response result) = false).
Proof.
  unfold Session.Receive.
  split; [| split; [| split; [| split; [| split]]]].
  - intros resp. rewrite awaitResponse_events. cbn. by rewrite app_nil_r.
  - intros err. rewrite awaitResponse_events. cbn. by rewrite app_nil_r.
  - intros err. rewrite awaitResponse_events. cbn. by rewrite app_nil_r.
  - rewrite <- (app_nil_r (map RecvEvent events)), awaitResponse_events.
    cbn. by rewrite app_nil_r.
  - apply awaitResponse_returns.
  - intros script selected absorbed result Hfed H.
    apply awaitResponse_returns in H as (last & rest' & -> & Hlast).
    apply Forall_app in Hfed as [_ Hfed]. apply Forall_cons in Hfed as [Hfed _].
    destruct last as [resp | event | err | err]; try discriminate Hlast;
      [| contradiction].
    injection Hlast as ->. cbn [Response fedBy] in *.
    apply (readLoop_pushes_sorted script (PushResponse resp)) in Hfed.
    split; [exact Hfed | by apply response_is_not_event].
Qed.

Lemma Receive_absorbs_events_witness :
  Session.Receive None
    [RecvEvent programOutput; RecvEvent stoppedAtBreakpoint;
     RecvEvent dap.TerminatedEvent; RecvEvent (dap.ExitedEvent 0);
     RecvResponse (dap.ContinueResponse true)]
  = ([programOutput; stoppedAtBreakpoint; dap.TerminatedEvent;
      dap.ExitedEvent 0],
     Some (Ok {| Response := dap.ContinueResponse true |})) /\
  dap.isResponseMessage (dap.ContinueResponse true) = true /\
  dap.isEventMessage (dap.ContinueResponse true) = false.
Proof.
  pose proof (Receive_absorbs_events
                [programOutput; stoppedAtBreakpoint; dap.TerminatedEvent;
                 dap.ExitedEvent 0] []) as (Hresp & _ & _ & _ & _ & Hfed).
  split; [exact (Hresp (dap.ContinueResponse true)) |].
  apply (Hfed [ReadMessage (dap.ContinueResponse true) Sent]
              [RecvResponse (dap.ContinueResponse true)] []
              {| Response := dap.ContinueResponse true |}).
  - apply Forall_cons. split; [| apply Forall_nil; exact I].
    simpl. apply list_elem_of_here.
  - reflexivity.
Defined.

(** End to end: when the read loop has forwarded events and the one response
    [resp], and neither an error nor a done context intervenes, a handler that
    returns at all returns [resp], in whatever order it drained the
    channels. *)
Lemma Receive_returns_the_response script resp selected absorbed res :
  (forall m, PushResponse m ∈ (readLoop script).1 -> m = resp) ->
  (forall e, PushError e ∉ (readLoop script).1) ->
  Forall (fedBy (readLoop script).1) selected ->
  (forall e, CtxDone e ∉ selected) ->
  Session.Receive None selected = (absorbed, Some res) ->
  res = Ok {| Response := resp |}.
Proof.
  intros Hone Hnoerr Hfed Hlive H.
  apply awaitResponse_returns in H as (last & rest & -> & Hlast).
  apply Forall_app in Hfed as [_ Hfed]. apply Forall_cons in Hfed as [Hfed _].
  destruct last as [m | event | err | err].
  - rewrite Hlast. by rewrite (Hone m Hfed).
  - contradiction.
  - by apply Hnoerr in Hfed.
  - exfalso. apply (Hlive err). apply elem_of_app. right. by left.
Qed.

(** A read loop that has gone through [before] and is about to read again
    carries on with whatever comes next. *)
Lemma readLoop_app before pushes more :
  readLoop before = (pushes, BlockedInRead) ->
  readLoop (before ++ more)
    = (pushes ++ (readLoop more).1, (readLoop more).2).
Proof.
  revert pushes. induction before as [|step before IH]; intros pushes H.
  - injection H as <-. cbn [app]. by destruct (readLoop more).
  - destruct step as [| err quitFirst | msg send]; cbn [readLoop app] in *.
    + discriminate H.
    + destruct err; try discriminate H; destruct quitFirst; discriminate H.
    + destruct (dap.isResponseMessage msg);
        [| destruct (dap.isEventMessage msg)]; [| | by apply IH];
        (destruct send; [| discriminate H | discriminate H]);
        destruct (readLoop before) as [pushes' st]; injection H as <- ->;
        by rewrite (IH pushes' eq_refl).
Qed.

(** C7. Let the read loop have forwarded [pushes] and be about to read. If the
    read fails with end-of-stream, the loop returns and [errors] receives
    nothing: the pushes are those made so far, none of them an error. If the
    read fails with another error, the loop pushes that error, wrapped, onto
    [errors] and returns, unless the [select] takes the quit signal, in which
    case it returns without the push. A handler that takes an error from
    [errors], after any number of events, returns exactly that error. *)
Theorem readLoop_decode_failure
    (before : list ReadStep) (pushes : list Push) (rest : list ReadStep) :
  readLoop before = (pushes, BlockedInRead) ->
  (forall e, PushError e ∉ pushes) /\
  (forall quitFirst,
     readLoop (before ++ ReadFails io_EOF quitFirst :: rest)
       = (pushes, Returned)) /\
  (forall err, err <> io_EOF ->
     readLoop (before ++ ReadFails err false :: rest)
       = (pushes ++
            [PushError (wrapError ("error reading DAP message: " +:+ Error err)
                                  err)],
          Returned) /\
     readLoop (before ++ ReadFails err true :: rest) = (pushes, Returned)) /\
  (forall events err selected,
     Session.Receive None (map RecvEvent events ++ RecvError err :: selected)
       = (events, Some (Err err))) /\
  (forall err selected,
     mcpdebug_Session.Receive None (RecvError err :: selected)
       = Some (Err err)).
Proof.
  intros Hbefore. split; [| split; [| split; [| split]]].
  - intros e Hin.
    assert (Hin' : PushError e ∈ (readLoop before).1) by by rewrite Hbefore.
    apply readLoop_pushes_at_most_one_error in Hin' as (pushes' & Heq & _).
    rewrite Hbefore in Heq. discriminate Heq.
  - intros quitFirst. rewrite (readLoop_app _ _ _ Hbefore).
    cbn. by rewrite app_nil_r.
  - intros err Hne. rewrite !(readLoop_app _ _ _ Hbefore).
    destruct err; try contradiction; cbn; by rewrite app_nil_r.
  - intros events err selected.
    unfold Session.Receive. rewrite awaitResponse_events. cbn.
    by rewrite app_nil_r.
  - reflexivity.
Qed.

Lemma readLoop_decode_failure_witness :
  readLoop [ReadMessage programOutput Sent; ReadFails brokenHeader false]
    = ([PushEvent programOutput;
        PushError
          (wrapError
             ("error reading DAP message: " +:+ Error brokenHeader)
             brokenHeader)],
       Returned) /\
  readLoop [ReadMessage programOutput Sent; ReadFails io_EOF false]
    = ([PushEvent programOutput], Returned).
Proof.
  pose proof (readLoop_decode_failure [ReadMessage programOutput Sent]
                [PushEvent programOutput] [] eq_refl)
    as (_ & Heof & Herr & _).
  split.
  - apply (Herr brokenHeader). discriminate.
  - apply (Heof false).
Defined.

(** C9. [Session.Receive] of the root package does not absorb events: after a
    successful write, when its [select] takes an event it returns that
    event, wrapped as a successful [DAPResponse], whatever would have
    arrived next; the handler of package [debugger] on the same deliveries
    absorbs the event and returns what follows. *)
Theorem legacy_Receive_returns_the_event
    (event : dap.Message) (rest : list Selected) :
  mcpdebug_Session.Receive None (RecvEvent event :: rest)
    = Some (Ok {| Response := event |}) /\
  Session.Receive None (RecvEvent event :: rest)
    = (event :: (Session.Receive None rest).1, (Session.Receive None rest).2).
Proof.
  split; [reflexivity |]. apply awaitResponse_event.
Qed.

(** A stopped event that the read loop forwards ahead of the response to a
    continue request: the root-package handler returns the event, and
    [Continue] on top of it fails on the type assertion. *)
Example legacy_Receive_stopped_before_response :
  (readLoop [ReadMessage stoppedAtBreakpoint Sent;
             ReadMessage (dap.ContinueResponse true) Sent]).1
    = [PushEvent stoppedAtBreakpoint; PushResponse (dap.ContinueResponse true)] /\
  mcpdebug_Session.Receive None
    [RecvEvent stoppedAtBreakpoint; RecvResponse (dap.ContinueResponse true)]
    = Some (Ok {| Response := stoppedAtBreakpoint |}) /\
  returnsOn (Continue 1) stoppedAtBreakpoint
    = Err (errorString "unexpected response type: *dap.StoppedEvent").
Proof. repeat split. Qed.

(** ** The session factory *)

Lemma fmt_d_inj (a b : Z) : fmt_d a = fmt_d b -> a = b.
Proof.
  unfold fmt_d. intros H. apply DecimalZ.to_int_inj.
  assert (Hnn : forall z, Z.to_int z <> Decimal.Pos Decimal.Nil /\
                          Z.to_int z <> Decimal.Neg Decimal.Nil).
  { intros [|p|p]; simpl; split; try discriminate;
      intros Heq; injection Heq; apply DecimalPos.Unsigned.to_uint_nonnil. }
  destruct (Hnn a) as [Ha1 Ha2], (Hnn b) as [Hb1 Hb2].
  pose proof (NilZero.isi _ Ha1 Ha2) as Ea.
  pose proof (NilZero.isi _ Hb1 Hb2) as Eb.
  rewrite H in Ea. rewrite Ea in Eb. by injection Eb.
Qed.

#[local] Instance sessionName_inj : Inj (=) (=) debugger.sessionName.
Proof.
  intros a b H. unfold debugger.sessionName in H. simpl in H.
  apply fmt_d_inj. by simplify_eq.
Qed.

Lemma wrap64_small (z : Z) : - 2 ^ 63 <= z < 2 ^ 63 -> wrap64 z = z.
Proof.
  intros Hz. unfold wrap64. rewrite Z.mod_small; lia.
Qed.

Section Factory.

Context {Session : Type}.

Implicit Types (d : debugger.debugger Session).

Lemma createdIDs_cons (resp : Result (debugger.DebuggerResp Session)) resps :
  debugger.createdIDs (resp :: resps)
    = match resp with
      | Ok (debugger.CreateSessionResp ref) =>
          debugger.ref_id ref :: debugger.createdIDs resps
      | Err _ => debugger.createdIDs resps
      end.
Proof. destruct resp as [[ref] | e]; reflexivity. Qed.

(** One message: either a session is created under the next number, or the
    handler fails and the actor is as it was. *)
Lemma Receive_step cmd (newSession : Result Session) d :
  (exists session,
     debugger.Receive cmd newSession d
       = (Ok (debugger.CreateSessionResp
                {| debugger.ref_id :=
                     debugger.sessionName (wrap64 (debugger.nextSessionID d + 1));
                   debugger.ref_session := session |}),
          {| debugger.nextSessionID := wrap64 (debugger.nextSessionID d + 1);
             debugger.system :=
               <[debugger.sessionName (wrap64 (debugger.nextSessionID d + 1))
                   := session]> (debugger.system d) |})) \/
  (exists e, debugger.Receive cmd newSession d = (Err e, d)).
Proof.
  destruct cmd, newSession as [session | err]; cbn; eauto.
Qed.

(** From any state whose counter has room for the whole mailbox, the
    identifiers handed out are numbered consecutively from the counter. *)
Lemma handleAll_ids mailbox d :
  0 <= debugger.nextSessionID d ->
  debugger.nextSessionID d + Z.of_nat (length mailbox) < 2 ^ 63 ->
  let ids := debugger.createdIDs (debugger.handleAll mailbox d).1 in
  ids = debugger.sessionName
          <$> seqZ (debugger.nextSessionID d + 1) (Z.of_nat (length ids)) /\
  debugger.nextSessionID (debugger.handleAll mailbox d).2
    = debugger.nextSessionID d + Z.of_nat (length ids) /\
  (length ids <= length mailbox)%nat.
Proof.
  revert d. induction mailbox as [|[cmd newSession] mailbox IH]; intros d H0 Hroom.
  - cbn. split; [reflexivity | split; lia].
  - cbn [debugger.handleAll length] in *.
    destruct (Receive_step cmd newSession d) as [(session & ->) | (e & ->)].
    + rewrite wrap64_small by lia.
      set (d' := {| debugger.nextSessionID := debugger.nextSessionID d + 1;
                    debugger.system := _ |}).
      specialize (IH d'). cbn [debugger.nextSessionID d'] in IH.
      destruct (debugger.handleAll mailbox d') as [resps d''].
      cbn [fst snd] in *. rewrite createdIDs_cons. cbn [debugger.ref_id length].
      destruct IH as (Hids & Hnext & Hlen); [lia | lia |].
      split; [| split; lia].
      rewrite seqZ_cons by lia. cbn [fmap list_fmap]. f_equal.
      rewrite Hids at 1. f_equal. f_equal; lia.
    + specialize (IH d).
      destruct (debugger.handleAll mailbox d) as [resps d''].
      cbn [fst snd] in *. rewrite createdIDs_cons.
      destruct IH as (Hids & Hnext & Hlen); [lia | lia |].
      split; [exact Hids | split; [exact Hnext | lia]].
Qed.

End Factory.

(** C8. A creation command whose [NewSession] succeeds, be it
    [StartDebuggerCmd] or [CreateSessionCmd], increments the counter and
    registers the session under ["session-N"], with [N] the new counter; a
    creation command whose [NewSession] fails returns the wrapped error and
    leaves counter and registry as they were. A fresh factory that handles a
    mailbox of fewer than 2^63 messages hands out ["session-1"],
    ["session-2"], ... in this order, one per successful creation:
    strictly increasing numbers and pairwise distinct identifiers. *)
Theorem session_identifiers_are_fresh
    {Session : Type} (d : debugger.debugger Session) (session : Session)
    (err : error) (sys : gmap string Session)
    (mailbox : list (debugger.DebuggerCommand * Result Session)) :
  let next := wrap64 (debugger.nextSessionID d + 1) in
  let created :=
    (Ok (debugger.CreateSessionResp
           {| debugger.ref_id := "session-" +:+ fmt_d next;
              debugger.ref_session := session |}),
     {| debugger.nextSessionID := next;
        debugger.system :=
          <["session-" +:+ fmt_d next := session]> (debugger.system d) |}) in
  let failed :=
    (Err (wrapError ("could not create session: " +:+ Error err) err), d) in
  debugger.Receive debugger.StartDebuggerCmd (Ok session) d = created /\
  debugger.Receive debugger.CreateSessionCmd (Ok session) d = created /\
  debugger.Receive debugger.StartDebuggerCmd (Err err) d = failed /\
  debugger.Receive debugger.CreateSessionCmd (Err err) d = failed /\
  (- 2 ^ 63 <= debugger.nextSessionID d < MaxInt64 ->
   next = debugger.nextSessionID d + 1) /\
  (Z.of_nat (length mailbox) < 2 ^ 63 ->
   let run := debugger.handleAll mailbox (debugger.newDebugger sys) in
   let ids := debugger.createdIDs run.1 in
   ids = (fun n => "session-" +:+ fmt_d n) <$> seqZ 1 (Z.of_nat (length ids)) /\
   debugger.nextSessionID run.2 = Z.of_nat (length ids) /\
   NoDup ids).
Proof.
  cbv zeta. repeat split.
  - intros. apply wrap64_small. unfold MaxInt64 in *. lia.
  - apply (handleAll_ids mailbox (debugger.newDebugger sys)); cbn; lia.
  - apply (handleAll_ids mailbox (debugger.newDebugger sys)); cbn; lia.
  - pose proof (handleAll_ids mailbox (debugger.newDebugger sys)) as Hids.
    cbv zeta in Hids. destruct Hids as (Hids & _); [cbn; lia | cbn; lia |].
    rewrite Hids. apply (NoDup_fmap_2 _), NoDup_seqZ.
Qed.

Lemma session_identifiers_are_fresh_witness :
  debugger.createdIDs
    (debugger.handleAll threeRequests (debugger.newDebugger ∅)).1
    = ["session-1"; "session-2"] /\
  debugger.nextSessionID
    (debugger.handleAll threeRequests (debugger.newDebugger ∅)).2 = 2.
Proof.
  pose proof (session_identifiers_are_fresh
                (debugger.newDebugger ∅) 40001 io_EOF ∅ threeRequests)
    as (_ & _ & _ & _ & _ & Hrun).
  cbv zeta in Hrun. destruct Hrun as (Hids & Hnext & _); [simpl; lia |].
  split; [exact Hids | exact Hnext].
Defined.

(** ** The retry helper *)

Section Retry.

Import retry.

Variables (config : RetryConfig) (env : Script).

(** One pass through the loop body while attempts remain. *)
Lemma retryLoop_attempt fuel attempt delay lastErr :
  attempt <= MaxAttempts config ->
  retryLoop config env (S fuel) attempt delay lastErr
    = if doneBeforeAttempt env attempt then ([], Some (Some (ctxErr env)))
      else
        match operation env attempt with
        | None => ([Invoke attempt], Some None)
        | Some err =>
            if attempt =? MaxAttempts config then
              ([Invoke attempt], Some (Some (exhausted config (Some err))))
            else if doneDuringBackoff env attempt then
              ([Invoke attempt], Some (Some (ctxErr env)))
            else
              (Invoke attempt :: Sleep delay ::
                 (retryLoop config env fuel (attempt + 1)
                    (nextDelay config delay) (Some err)).1,
               (retryLoop config env fuel (attempt + 1)
                  (nextDelay config delay) (Some err)).2)
        end.
Proof.
  intros Hle. cbn [retryLoop].
  destruct (Z.leb_spec attempt (MaxAttempts config)); [| lia].
  destruct (doneBeforeAttempt env attempt); [reflexivity |].
  destruct (operation env attempt) as [err |]; [| reflexivity].
  destruct (attempt =? MaxAttempts config); [reflexivity |].
  destruct (doneDuringBackoff env attempt); [reflexivity |].
  by destruct (retryLoop config env fuel (attempt + 1) _ _).
Qed.

(** [n] quiet failures in a row below [MaxAttempts] unfold into their
    effects, and the loop carries on at attempt [attempt + n]. *)
Lemma retryLoop_failed_attempts n :
  forall fuel attempt delay lastErr,
    (forall j, attempt <= j < attempt + Z.of_nat n ->
               j < MaxAttempts config /\ failsQuietly env j) ->
    exists delay' lastErr',
      retryLoop config env (n + fuel) attempt delay lastErr
        = (failedAttempts config n attempt delay ++
             (retryLoop config env fuel (attempt + Z.of_nat n) delay' lastErr').1,
           (retryLoop config env fuel (attempt + Z.of_nat n) delay' lastErr').2).
Proof.
  induction n as [|n IH]; intros fuel attempt delay lastErr Hquiet.
  - exists delay, lastErr. rewrite Z.add_0_r. cbn [Nat.add failedAttempts app].
    by destruct (retryLoop config env fuel attempt delay lastErr).
  - destruct (Hquiet attempt) as (Hlt & Hb & [err Hop] & Hd); [lia |].
    cbn [Nat.add]. rewrite retryLoop_attempt by lia.
    rewrite Hb, Hop, Hd.
    destruct (Z.eqb_spec attempt (MaxAttempts config)); [lia |].
    destruct (IH fuel (attempt + 1) (nextDelay config delay) (Some err))
      as (delay' & lastErr' & ->).
    { intros j Hj. apply Hquiet. lia. }
    exists delay', lastErr'. cbn [fst snd failedAttempts app].
    replace (attempt + 1 + Z.of_nat n) with (attempt + Z.of_nat (S n)) by lia.
    reflexivity.
Qed.

(** The loop returns once the fuel exceeds the attempts that remain. *)
Lemma retryLoop_returns fuel :
  forall attempt delay lastErr,
    (Z.to_nat (MaxAttempts config - attempt + 1) < fuel)%nat ->
    is_Some (retryLoop config env fuel attempt delay lastErr).2.
Proof.
  induction fuel as [|fuel IH]; intros attempt delay lastErr Hfuel; [lia |].
  destruct (Z.leb_spec attempt (MaxAttempts config)) as [Hle | Hgt].
  - rewrite retryLoop_attempt by done.
    destruct (doneBeforeAttempt env attempt); [by eexists |].
    destruct (operation env attempt) as [err |]; [| by eexists].
    destruct (attempt =? MaxAttempts config); [by eexists |].
    destruct (doneDuringBackoff env attempt); [by eexists |].
    cbn [snd]. apply IH. lia.
  - cbn [retryLoop]. destruct (Z.leb_spec attempt (MaxAttempts config)); [lia |].
    by eexists.
Qed.

(** No more invocations than attempts remain. *)
Lemma retryLoop_invocations fuel :
  forall attempt delay lastErr,
    (length (invocations (retryLoop config env fuel attempt delay lastErr).1)
     <= Z.to_nat (MaxAttempts config - attempt + 1))%nat.
Proof.
  induction fuel as [|fuel IH]; intros attempt delay lastErr; [cbn; lia |].
  destruct (Z.leb_spec attempt (MaxAttempts config)) as [Hle | Hgt].
  - rewrite retryLoop_attempt by done.
    destruct (doneBeforeAttempt env attempt); [cbn; lia |].
    destruct (operation env attempt) as [err |]; [| cbn; lia].
    destruct (attempt =? MaxAttempts config); [cbn; lia |].
    destruct (doneDuringBackoff env attempt); [cbn; lia |].
    cbn [fst]. unfold invocations. cbn [omap list_omap length].
    fold (invocations (retryLoop config env fuel (attempt + 1)
                         (nextDelay config delay) (Some err)).1).
    specialize (IH (attempt + 1) (nextDelay config delay) (Some err)). lia.
  - cbn [retryLoop]. destruct (Z.leb_spec attempt (MaxAttempts config)); [lia |].
    cbn. lia.
Qed.

(** The completed waits follow the delay recurrence. *)
Lemma retryLoop_sleeps fuel :
  forall attempt delay lastErr,
    let waits := sleeps (retryLoop config env fuel attempt delay lastErr).1 in
    waits = backoffDelays config (length waits) delay.
Proof.
  induction fuel as [|fuel IH]; intros attempt delay lastErr; [reflexivity |].
  destruct (Z.leb_spec attempt (MaxAttempts config)) as [Hle | Hgt].
  - cbv zeta. rewrite retryLoop_attempt by done.
    destruct (doneBeforeAttempt env attempt); [reflexivity |].
    destruct (operation env attempt) as [err |]; [| reflexivity].
    destruct (attempt =? MaxAttempts config); [reflexivity |].
    destruct (doneDuringBackoff env attempt); [reflexivity |].
    cbn [fst]. unfold sleeps. cbn [omap list_omap length backoffDelays].
    f_equal. apply IH.
  - cbv zeta. cbn [retryLoop].
    destruct (Z.leb_spec attempt (MaxAttempts config)); [lia |]. reflexivity.
Qed.

Lemma nextDelay_capped delay : nextDelay config delay <= MaxDelay config.
Proof.
  unfold nextDelay. cbv zeta.
  destruct (Z.ltb_spec (MaxDelay config)
              (int64_of_float64 (float64_of_int64 delay * Multiplier config)));
    lia.
Qed.

Lemma invocations_failedAttempts n attempt delay more :
  invocations (failedAttempts config n attempt delay ++ more)
    = seqZ attempt (Z.of_nat n) ++ invocations more.
Proof.
  revert attempt delay. induction n as [|n IH]; intros attempt delay.
  - reflexivity.
  - rewrite seqZ_cons by lia.
    replace (Z.succ attempt) with (attempt + 1) by lia.
    replace (Z.pred (Z.of_nat (S n))) with (Z.of_nat n) by lia.
    cbn [failedAttempts app].
    unfold invocations at 1. cbn [omap list_omap].
    fold (invocations (failedAttempts config n (attempt + 1)
                         (nextDelay config delay) ++ more)).
    by rewrite IH.
Qed.

Lemma sleeps_failedAttempts n attempt delay more :
  sleeps (failedAttempts config n attempt delay ++ more)
    = backoffDelays config n delay ++ sleeps more.
Proof.
  revert attempt delay. induction n as [|n IH]; intros attempt delay.
  - reflexivity.
  - cbn [failedAttempts app backoffDelays].
    unfold sleeps at 1. cbn [omap list_omap].
    fold (sleeps (failedAttempts config n (attempt + 1)
                    (nextDelay config delay) ++ more)).
    by rewrite IH.
Qed.

(** The error after the last attempt wraps the last failure. *)
Lemma exhausted_wraps_last_failure err :
  Unwrap (exhausted config (Some err)) = Some err /\
  Error (exhausted config (Some err))
    = ("operation failed after " +:+ fmt_d (MaxAttempts config) +:+
       " attempts, last error: ") +:+ Error err.
Proof. split; reflexivity. Qed.

(** The run up to attempt [K], when every earlier attempt failed quietly. *)
Lemma RetryWithBackoff_reaches K :
  1 <= K <= MaxAttempts config ->
  (forall j, 1 <= j < K -> failsQuietly env j) ->
  exists fuel delay lastErr,
    RetryWithBackoff config env
      = (failedAttempts config (Z.to_nat (K - 1)) 1 (InitialDelay config) ++
           (retryLoop config env (S fuel) K delay lastErr).1,
         (retryLoop config env (S fuel) K delay lastErr).2).
Proof.
  intros HK Hquiet. unfold RetryWithBackoff.
  set (n := Z.to_nat (K - 1)).
  replace (S (Z.to_nat (MaxAttempts config)))
    with (n + S (Z.to_nat (MaxAttempts config) - n))%nat by lia.
  destruct (retryLoop_failed_attempts n
              (S (Z.to_nat (MaxAttempts config) - n)) 1
              (InitialDelay config) None) as (delay & lastErr & ->).
  { intros j Hj. split; [lia | apply Hquiet; lia]. }
  replace (1 + Z.of_nat n) with K by lia.
  by exists (Z.to_nat (MaxAttempts config) - n)%nat, delay, lastErr.
Qed.

End Retry.

(** C2. [RetryWithBackoff] always returns, invokes its operation at most
    [MaxAttempts] times, waits for the delays of the backoff recurrence (the
    initial delay first, then each time the previous delay times
    [Multiplier], cut to [MaxDelay]), and, when every attempt before
    attempt [K] failed with the context live:
    - if the context is done before attempt [K], it returns the context's
      error without invoking the operation again;
    - if attempt [K] succeeds, it returns nil and that invocation is its
      last effect;
    - if attempt [K] fails and [K] is [MaxAttempts], it has invoked the
      operation exactly [MaxAttempts] times and returns an error that wraps
      the last failure and whose text gives [MaxAttempts] as the number of
      attempts;
    - if attempt [K] fails before [MaxAttempts] and the context is done
      during the backoff wait, it returns the context's error at once. *)
Theorem RetryWithBackoff_contract
    (config : retry.RetryConfig) (env : retry.Script) :
  let run := retry.RetryWithBackoff config env in
  is_Some run.2 /\
  (length (retry.invocations run.1) <= Z.to_nat (retry.MaxAttempts config))%nat /\
  retry.sleeps run.1
    = retry.backoffDelays config (length (retry.sleeps run.1))
        (retry.InitialDelay config) /\
  (forall delay,
     retry.nextDelay config delay
       = Z.min (retry.MaxDelay config)
           (retry.int64_of_float64
              (retry.float64_of_int64 delay * retry.Multiplier config)) /\
     retry.nextDelay config delay <= retry.MaxDelay config) /\
  forall K,
    1 <= K <= retry.MaxAttempts config ->
    (forall j, 1 <= j < K -> retry.failsQuietly env j) ->
    let before :=
      retry.failedAttempts config (Z.to_nat (K - 1)) 1
        (retry.InitialDelay config) in
    retry.invocations (before ++ [retry.Invoke K]) = seqZ 1 K /\
    retry.sleeps (before ++ [retry.Invoke K])
      = retry.backoffDelays config (Z.to_nat (K - 1))
          (retry.InitialDelay config) /\
    (retry.doneBeforeAttempt env K = true ->
     run = (before, Some (Some (retry.ctxErr env)))) /\
    (retry.doneBeforeAttempt env K = false ->
     retry.operation env K = None ->
     run = (before ++ [retry.Invoke K], Some None)) /\
    (forall err,
       retry.doneBeforeAttempt env K = false ->
       retry.operation env K = Some err ->
       (K = retry.MaxAttempts config ->
        run = (before ++ [retry.Invoke K],
               Some (Some (wrapError
                             (("operation failed after " +:+
                               fmt_d (retry.MaxAttempts config) +:+
                               " attempts, last error: ") +:+ Error err)
                             err)))) /\
       (K < retry.MaxAttempts config ->
        retry.doneDuringBackoff env K = true ->
        run = (before ++ [retry.Invoke K], Some (Some (retry.ctxErr env))))).
Proof.
  cbv zeta. split; [| split; [| split; [| split]]].
  - apply retryLoop_returns. lia.
  - pose proof (retryLoop_invocations config env
                  (S (Z.to_nat (retry.MaxAttempts config))) 1
                  (retry.InitialDelay config) None) as H.
    unfold retry.RetryWithBackoff.
    replace (retry.MaxAttempts config - 1 + 1)
      with (retry.MaxAttempts config) in H by lia. exact H.
  - apply retryLoop_sleeps.
  - intros delay. split; [| apply nextDelay_capped].
    unfold retry.nextDelay. cbv zeta.
    destruct (Z.ltb_spec (retry.MaxDelay config)
                (retry.int64_of_float64
                   (retry.float64_of_int64 delay * retry.Multiplier config)));
      lia.
  - intros K HK Hquiet.
    destruct (RetryWithBackoff_reaches config env K HK Hquiet)
      as (fuel & delay & lastErr & Hrun).
    rewrite retryLoop_attempt in Hrun by lia.
    split; [| split; [| split; [| split]]].
    + rewrite invocations_failedAttempts.
      change (retry.invocations [retry.Invoke K]) with [K].
      replace (Z.of_nat (Z.to_nat (K - 1))) with (K - 1) by lia.
      replace (seqZ 1 K) with (seqZ 1 (K - 1 + 1)) by (f_equal; lia).
      rewrite seqZ_app by lia. f_equal.
      replace (1 + (K - 1)) with K by lia. reflexivity.
    + rewrite sleeps_failedAttempts. cbn. by rewrite app_nil_r.
    + intros Hdone. rewrite Hrun, Hdone. cbn. by rewrite app_nil_r.
    + intros Hlive Hok. rewrite Hrun, Hlive, Hok. reflexivity.
    + intros err Hlive Hfail. split.
      * intros Hlast. rewrite Hrun, Hlive, Hfail.
        destruct (Z.eqb_spec K (retry.MaxAttempts config)); [| lia].
        reflexivity.
      * intros Hlt Hdone. rewrite Hrun, Hlive, Hfail, Hdone.
        destruct (Z.eqb_spec K (retry.MaxAttempts config)); [lia |].
        reflexivity.
Qed.

Lemma RetryWithBackoff_contract_witness :
  retry.RetryWithBackoff retry.DefaultRetryConfig refusedTwice
    = ([retry.Invoke 1; retry.Sleep 10000000; retry.Invoke 2;
        retry.Sleep 20000000; retry.Invoke 3],
       Some None) /\
  retry.RetryWithBackoff retry.DefaultRetryConfig alwaysRefused
    = ([retry.Invoke 1; retry.Sleep 10000000; retry.Invoke 2;
        retry.Sleep 20000000; retry.Invoke 3; retry.Sleep 40000000;
        retry.Invoke 4; retry.Sleep 80000000; retry.Invoke 5],
       Some (Some (wrapError
                     "operation failed after 5 attempts, last error: connection refused"
                     (errorString "connection refused")))) /\
  retry.RetryWithBackoff retry.DefaultRetryConfig cancelledBeforeThird
    = ([retry.Invoke 1; retry.Sleep 10000000; retry.Invoke 2;
        retry.Sleep 20000000],
       Some (Some context_Canceled)) /\
  retry.RetryWithBackoff retry.DefaultRetryConfig deadlineInSecondBackoff
    = ([retry.Invoke 1; retry.Sleep 10000000; retry.Invoke 2],
       Some (Some context_DeadlineExceeded)).
Proof.
  split; [| split; [| split]].
  - pose proof (RetryWithBackoff_contract retry.DefaultRetryConfig refusedTwice)
      as H.
    cbv zeta in H. destruct H as (_ & _ & _ & _ & H).
    destruct (H 3) as (_ & _ & _ & Hok & _).
    + simpl. lia.
    + intros j Hj. assert (j = 1 \/ j = 2) as [-> | ->] by lia;
        (split; [reflexivity | split; [by eexists | reflexivity]]).
    + exact (Hok eq_refl eq_refl).
  - pose proof (RetryWithBackoff_contract retry.DefaultRetryConfig alwaysRefused)
      as H.
    cbv zeta in H. destruct H as (_ & _ & _ & _ & H).
    destruct (H 5) as (_ & _ & _ & _ & Hfail).
    + simpl. lia.
    + intros j Hj. split; [reflexivity | split; [by eexists | reflexivity]].
    + destruct (Hfail (errorString "connection refused") eq_refl eq_refl)
        as [Hlast _].
      exact (Hlast eq_refl).
  - pose proof (RetryWithBackoff_contract retry.DefaultRetryConfig
                  cancelledBeforeThird) as H.
    cbv zeta in H. destruct H as (_ & _ & _ & _ & H).
    destruct (H 3) as (_ & _ & Hdone & _).
    + simpl. lia.
    + intros j Hj. assert (j = 1 \/ j = 2) as [-> | ->] by lia;
        (split; [reflexivity | split; [by eexists | reflexivity]]).
    + exact (Hdone eq_refl).
  - pose proof (RetryWithBackoff_contract retry.DefaultRetryConfig
                  deadlineInSecondBackoff) as H.
    cbv zeta in H. destruct H as (_ & _ & _ & _ & H).
    destruct (H 2) as (_ & _ & _ & _ & Hfail).
    + simpl. lia.
    + intros j Hj. assert (j = 1) as -> by lia.
      split; [reflexivity | split; [by eexists | reflexivity]].
    + destruct (Hfail (errorString "connection refused") eq_refl eq_refl)
        as [_ Hdone].
      apply Hdone; [simpl; lia | reflexivity].
Defined.

(** The default configuration doubles from 10ms and stops growing at 500ms. *)
Example DefaultRetryConfig_delays :
  retry.backoffDelays retry.DefaultRetryConfig 8
    (retry.InitialDelay retry.DefaultRetryConfig)
  = [10000000; 20000000; 40000000; 80000000; 160000000; 320000000;
     500000000; 500000000].
Proof. vm_compute. reflexivity. Qed.

(** With no attempts allowed the operation is never invoked and the error
    wraps nothing. *)
Example RetryWithBackoff_no_attempts (env : retry.Script) :
  retry.RetryWithBackoff
    {| retry.MaxAttempts := 0; retry.InitialDelay := 10;
       retry.MaxDelay := 20; retry.Multiplier := 2%float |} env
  = ([], Some (Some (errorString
                       "operation failed after 0 attempts, last error: %!w(<nil>)"))).
Proof. reflexivity. Qed.

(** * Further properties *)

(** ** The read loop and a waiting call, side by side *)

Lemma held_length {A : Type} (buffer : option A) :
  (length (channels.held buffer) <= 1)%nat.
Proof. destruct buffer; cbn; lia. Qed.

Lemma events_then_response_head sel selected absorbed r rest :
  sel :: selected = map RecvEvent absorbed ++ RecvResponse r :: rest ->
  (absorbed = [] /\ sel = RecvResponse r /\ selected = rest) \/
  (exists event absorbed',
     absorbed = event :: absorbed' /\ sel = RecvEvent event /\
     selected = map RecvEvent absorbed' ++ RecvResponse r :: rest).
Proof.
  destruct absorbed as [|event absorbed']; cbn [map app]; intros [= -> ->].
  - left. done.
  - right. by exists event, absorbed'.
Qed.

(** The invariant of a run that ends in a response: the events taken are the
    first of those in the buffer and on the wire, and the response is the
    one in the buffer or the first on the wire, which the read loop reaches
    only after it has forwarded every event before it. *)
Lemma interleave_first_response (turns : list channels.Turn) :
  forall wire ch selected absorbed r rest,
    channels.interleave turns wire ch = Some selected ->
    selected = map RecvEvent absorbed ++ RecvResponse r :: rest ->
    absorbed `prefix_of`
      (channels.held (channels.events ch) ++ channels.eventsOn wire) /\
    match channels.responses ch with
    | Some stale => r = stale
    | None =>
        exists before after,
          wire = map Ok before ++ Ok r :: after /\
          dap.isResponseMessage r = true /\
          Forall (fun m => dap.isResponseMessage m = false) before /\
          (length (channels.held (channels.events ch) ++
                   channels.eventsOn (map Ok before))
           <= S (length absorbed))%nat
    end.
Proof.
  induction turns as [|turn turns IH]; intros wire ch selected absorbed r rest.
  - cbn. intros [= <-] Hsel. destruct absorbed; discriminate Hsel.
  - destruct turn as [|c]; cbn [channels.interleave].
    + (* the read loop moves *)
      destruct wire as [|[msg|err] wire'].
      * cbn [channels.readLoopMoves]. apply IH.
      * cbn [channels.readLoopMoves channels.eventsOn].
        destruct (dap.isResponseMessage msg) eqn:Hresp; cbn [negb andb].
        -- destruct (channels.responses ch) as [stale|] eqn:Hbuf.
           ++ intros Hrun Hsel.
              destruct (IH _ _ _ _ _ _ Hrun Hsel) as [Hpre Hfirst].
              rewrite Hbuf in Hfirst. cbn [channels.eventsOn] in Hpre.
              rewrite Hresp in Hpre. cbn [negb andb] in Hpre. done.
           ++ intros Hrun Hsel.
              destruct (IH _ _ _ _ _ _ Hrun Hsel) as [Hpre Hfirst].
              cbn [channels.responses channels.events] in Hpre, Hfirst.
              subst r. split; [exact Hpre |].
              exists [], wire'. split; [reflexivity |]. split; [exact Hresp |].
              split; [apply Forall_nil; exact I |].
              cbn [map channels.eventsOn]. rewrite app_nil_r.
              pose proof (held_length (channels.events ch)). lia.
        -- destruct (dap.isEventMessage msg) eqn:Hevent.
           ++ destruct (channels.events ch) as [waiting|] eqn:Hbuf.
              ** intros Hrun Hsel.
                 destruct (IH _ _ _ _ _ _ Hrun Hsel) as [Hpre Hfirst].
                 rewrite Hbuf in Hpre. cbn [channels.eventsOn] in Hpre.
                 rewrite Hresp, Hevent in Hpre. cbn [negb andb] in Hpre.
                 rewrite Hbuf in Hfirst. done.
              ** intros Hrun Hsel.
                 destruct (IH _ _ _ _ _ _ Hrun Hsel) as [Hpre Hfirst].
                 cbn [channels.responses channels.events channels.held app]
                   in Hpre, Hfirst.
                 split; [exact Hpre |].
                 destruct (channels.responses ch) as [stale|]; [exact Hfirst |].
                 destruct Hfirst as (before & after & -> & Hr & Hnone & Hlen).
                 exists (msg :: before), after.
                 split; [reflexivity |]. split; [exact Hr |].
                 split; [by apply Forall_cons |].
                 cbn [map channels.eventsOn app]. rewrite Hresp, Hevent.
                 cbn [negb andb]. exact Hlen.
           ++ intros Hrun Hsel.
              destruct (IH _ _ _ _ _ _ Hrun Hsel) as [Hpre Hfirst].
              split; [exact Hpre |].
              destruct (channels.responses ch) as [stale|]; [exact Hfirst |].
              destruct Hfirst as (before & after & -> & Hr & Hnone & Hlen).
              exists (msg :: before), after.
              split; [reflexivity |]. split; [exact Hr |].
              split; [by apply Forall_cons |].
              cbn [map channels.eventsOn]. rewrite Hresp, Hevent.
              cbn [negb andb]. exact Hlen.
      * (* a failed read: nothing more is forwarded to the two channels *)
        assert (Hover : forall ch',
                  channels.responses ch' = channels.responses ch ->
                  channels.events ch' = channels.events ch ->
                  channels.interleave turns [] ch' = Some selected ->
                  selected = map RecvEvent absorbed ++ RecvResponse r :: rest ->
                  absorbed `prefix_of`
                    (channels.held (channels.events ch) ++
                     channels.eventsOn (Err err :: wire')) /\
                  match channels.responses ch with
                  | Some stale => r = stale
                  | None =>
                      exists before after,
                        Err err :: wire' = map Ok before ++ Ok r :: after /\
                        dap.isResponseMessage r = true /\
                        Forall (fun m => dap.isResponseMessage m = false)
                               before /\
                        (length (channels.held (channels.events ch) ++
                                 channels.eventsOn (map Ok before))
                         <= S (length absorbed))%nat
                  end).
        { intros ch' Hr He Hrun Hsel.
          destruct (IH _ _ _ _ _ _ Hrun Hsel) as [Hpre Hfirst].
          rewrite He in Hpre. rewrite Hr in Hfirst.
          split; [exact Hpre |].
          destruct (channels.responses ch) as [stale|]; [exact Hfirst |].
          destruct Hfirst as (before & after & Hwire & _).
          destruct before; discriminate Hwire. }
        cbn [channels.readLoopMoves].
        destruct err; try (apply Hover; reflexivity);
          (destruct (channels.errors ch) as [full|] eqn:Herr;
           [| apply Hover; reflexivity]);
          intros Hrun Hsel;
          destruct (IH _ _ _ _ _ _ Hrun Hsel) as [Hpre Hfirst];
          (split; [exact Hpre | exact Hfirst]).
    + (* the select takes a case *)
      destruct (channels.selectTakes c ch) as [[sel ch']|] eqn:Htake;
        [| discriminate].
      destruct (channels.interleave turns wire ch') as [selected'|] eqn:Hrun;
        [| discriminate].
      intros [= <-] Hsel.
      apply events_then_response_head in Hsel
        as [(-> & -> & ->) | (event & absorbed' & -> & -> & Hsel)].
      * destruct c; cbn [channels.selectTakes] in Htake.
        -- destruct (channels.responses ch) as [resp|]; [| discriminate].
           injection Htake as <- _. split; [apply prefix_nil | reflexivity].
        -- destruct (channels.events ch); discriminate Htake.
        -- destruct (channels.errors ch); discriminate Htake.
        -- discriminate Htake.
      * destruct c; cbn [channels.selectTakes] in Htake.
        -- destruct (channels.responses ch); discriminate Htake.
        -- destruct (channels.events ch) as [waiting|] eqn:Hbuf;
             [| discriminate].
           injection Htake as -> <-.
           destruct (IH _ _ _ _ _ _ Hrun Hsel) as [Hpre Hfirst].
           cbn [channels.responses channels.events channels.held app]
             in Hpre, Hfirst.
           split; [cbn [channels.held app]; by apply prefix_cons |].
           destruct (channels.responses ch) as [stale|]; [exact Hfirst |].
           destruct Hfirst as (before & after & -> & Hr & Hnone & Hlen).
           exists before, after. split; [reflexivity |]. split; [exact Hr |].
           split; [exact Hnone |].
           cbn [channels.held app length] in *. lia.
        -- destruct (channels.errors ch); discriminate Htake.
        -- discriminate Htake.
Qed.

(** X1. The read loop and a waiting call on the three channels, whatever the
    order in which the two move and whichever ready case each [select]
    takes. A call that returns a response has absorbed, in the order of the
    wire, the first of the events that were in its channel or that the
    transport delivers (it may absorb events that come after the response),
    and the response is the one that was left in the channel before the
    call or, on an empty channel, the first response on the wire. Every
    event delivered before that response has then been absorbed, except
    that the last one may still be in its channel. *)
Theorem Receive_over_the_channels
    (turns : list channels.Turn) (wire : list (Result dap.Message))
    (ch : channels.Channels) (selected : list Selected)
    (absorbed : list dap.Message) (result : DAPResponse) :
  channels.interleave turns wire ch = Some selected ->
  Session.Receive None selected = (absorbed, Some (Ok result)) ->
  absorbed `prefix_of`
    (channels.held (channels.events ch) ++ channels.eventsOn wire) /\
  match channels.responses ch with
  | Some stale => Response result = stale
  | None =>
      exists before after,
        wire = map Ok before ++ Ok (Response result) :: after /\
        dap.isResponseMessage (Response result) = true /\
        Forall (fun m => dap.isResponseMessage m = false) before /\
        (length (channels.held (channels.events ch) ++
                 channels.eventsOn (map Ok before))
         <= S (length absorbed))%nat
  end.
Proof.
  intros Hrun Hreturn. unfold Session.Receive in Hreturn.
  apply awaitResponse_returns in Hreturn as (last & rest & Hsel & Hlast).
  destruct last as [resp | event | err | err]; try discriminate Hlast;
    [| contradiction].
  injection Hlast as ->. cbn [Response].
  exact (interleave_first_response turns wire ch selected absorbed resp rest
           Hrun Hsel).
Qed.

Lemma Receive_over_the_channels_witness :
  [programOutput] `prefix_of`
    channels.held None ++ channels.eventsOn busyWire /\
  exists before after,
    busyWire = map Ok before ++ Ok (dap.ContinueResponse true) :: after /\
    dap.isResponseMessage (dap.ContinueResponse true) = true /\
    Forall (fun m => dap.isResponseMessage m = false) before /\
    (length (channels.held None ++ channels.eventsOn (map Ok before))
     <= 2)%nat.
Proof.
  apply (Receive_over_the_channels outputThenResponse busyWire channels.fresh
           [RecvEvent programOutput; RecvResponse (dap.ContinueResponse true)]
           [programOutput] {| Response := dap.ContinueResponse true |}).
  - reflexivity.
  - reflexivity.
Defined.

(** ** The read loop keeps the wire order *)

Lemma decoded_cons_message msg send script :
  decoded (ReadMessage msg send :: script) = msg :: decoded script.
Proof. reflexivity. Qed.

(** X2. The read loop neither reorders, repeats nor skips: the messages it has
    put on its channels are, in order, a prefix of the response- and
    event-shaped messages it was given to decode, and the whole of them once
    it has gone through all its input and waits for more. *)
Theorem readLoop_keeps_wire_order (script : list ReadStep) :
  pushedMessages (readLoop script).1
    `prefix_of` filter (fun m => forwardable m = true) (decoded script) /\
  ((readLoop script).2 = BlockedInRead ->
   pushedMessages (readLoop script).1
     = filter (fun m => forwardable m = true) (decoded script)).
Proof.
  induction script as [|step script [IHp IHe]].
  - split; [apply prefix_nil | reflexivity].
  - destruct step as [| err quitFirst | msg send].
    + split; [apply prefix_nil | discriminate].
    + cbn [readLoop]. destruct err, quitFirst; cbn;
        (split; [apply prefix_nil | discriminate]).
    + rewrite decoded_cons_message. cbn [readLoop].
      destruct (dap.isResponseMessage msg) eqn:Hr;
        [| destruct (dap.isEventMessage msg) eqn:He].
      * rewrite filter_cons_True by (unfold forwardable; by rewrite Hr).
        destruct send; try (split; [apply prefix_nil | discriminate]).
        destruct (readLoop script) as [pushes st]. cbn [fst snd] in *.
        split; [by apply prefix_cons |].
        intros H. cbn. f_equal. by apply IHe.
      * rewrite filter_cons_True by (unfold forwardable; by rewrite Hr, He).
        destruct send; try (split; [apply prefix_nil | discriminate]).
        destruct (readLoop script) as [pushes st]. cbn [fst snd] in *.
        split; [by apply prefix_cons |].
        intros H. cbn. f_equal. by apply IHe.
      * rewrite filter_cons_False by (unfold forwardable; by rewrite Hr, He).
        by split.
Qed.

Lemma readLoop_keeps_wire_order_witness :
  pushedMessages
    (readLoop [ReadMessage programOutput Sent;
               ReadMessage (dap.ContinueRequest (request 0 "continue") 1) Sent;
               ReadMessage (dap.ContinueResponse true) Sent]).1
  = [programOutput; dap.ContinueResponse true].
Proof.
  apply (readLoop_keeps_wire_order
           [ReadMessage programOutput Sent;
            ReadMessage (dap.ContinueRequest (request 0 "continue") 1) Sent;
            ReadMessage (dap.ContinueResponse true) Sent]).
  reflexivity.
Defined.

(** X3. A read loop that has returned, or is stuck in a send, is over: nothing
    that the connection delivers later is read or forwarded. *)
Theorem readLoop_is_over (script more : list ReadStep) :
  (readLoop script).2 <> BlockedInRead ->
  readLoop (script ++ more) = readLoop script.
Proof.
  induction script as [|step script IH]; intros Hst.
  - contradiction.
  - destruct step as [| err quitFirst | msg send]; cbn [readLoop app] in *.
    + reflexivity.
    + reflexivity.
    + destruct (dap.isResponseMessage msg);
        [| destruct (dap.isEventMessage msg)]; [| | by apply IH];
        (destruct send; [| reflexivity | reflexivity]);
        destruct (readLoop script) as [pushes st] eqn:E; cbn [snd] in *;
        by rewrite IH.
Qed.

Lemma readLoop_is_over_witness :
  readLoop ([ReadMessage programOutput Sent; ReadFails io_EOF false] ++
            [ReadMessage (dap.ContinueResponse true) Sent])
  = ([PushEvent programOutput], Returned).
Proof.
  rewrite (readLoop_is_over
             [ReadMessage programOutput Sent; ReadFails io_EOF false]
             [ReadMessage (dap.ContinueResponse true) Sent]).
  - reflexivity.
  - simpl. discriminate.
Defined.

(** ** More on the retry helper *)

Section RetryMore.

Import retry.

Variables (config : RetryConfig) (env : Script).

Lemma invocations_cons_invoke k effects :
  invocations (Invoke k :: effects) = k :: invocations effects.
Proof. reflexivity. Qed.

Lemma invocations_cons_sleep d effects :
  invocations (Sleep d :: effects) = invocations effects.
Proof. reflexivity. Qed.

(** How a run of the loop can end, from any attempt on. *)
Lemma retryLoop_outcomes fuel :
  forall attempt delay lastErr,
    (Z.to_nat (MaxAttempts config - attempt + 1) < fuel)%nat ->
    let r := retryLoop config env fuel attempt delay lastErr in
    (exists n, invocations r.1 = seqZ attempt (Z.of_nat n)) /\
    ((r.2 = Some None /\
      exists K, last (invocations r.1) = Some K /\ operation env K = None) \/
     r.2 = Some (Some (ctxErr env)) \/
     (exists err,
        attempt <= MaxAttempts config /\
        operation env (MaxAttempts config) = Some err /\
        invocations r.1 = seqZ attempt (MaxAttempts config - attempt + 1) /\
        r.2 = Some (Some (exhausted config (Some err)))) \/
     (MaxAttempts config < attempt /\
      r = ([], Some (Some (exhausted config lastErr))))).
Proof.
  induction fuel as [|fuel IH]; intros attempt delay lastErr Hfuel; [lia |].
  cbv zeta.
  destruct (Z.leb_spec attempt (MaxAttempts config)) as [Hle | Hgt].
  - rewrite retryLoop_attempt by done.
    destruct (doneBeforeAttempt env attempt).
    { split; [by exists 0%nat | right; by left]. }
    destruct (operation env attempt) as [err |] eqn:Hop.
    2:{ split; [by exists 1%nat |]. left. split; [reflexivity |].
        by exists attempt. }
    destruct (Z.eqb_spec attempt (MaxAttempts config)) as [Heq | Hne].
    { split; [by exists 1%nat |]. right; right; left. exists err.
      rewrite <- Heq. repeat split; [lia | done |].
      replace (attempt - attempt + 1) with 1 by lia. reflexivity. }
    destruct (doneDuringBackoff env attempt).
    { split; [by exists 1%nat | right; by left]. }
    cbn [fst snd]. rewrite invocations_cons_invoke, invocations_cons_sleep.
    specialize (IH (attempt + 1) (nextDelay config delay) (Some err)).
    cbv zeta in IH. destruct IH as [[n Hn] Hend]; [lia |].
    split.
    + exists (S n). rewrite Hn. rewrite (seqZ_cons attempt) by lia.
      do 2 f_equal; lia.
    + destruct Hend as [[Hnil (K & Hlast & HK)] | [Hctx | [Hex | [Hlt _]]]].
      * left. split; [exact Hnil |]. exists K. split; [| exact HK].
        destruct (invocations _) as [|k ks]; [discriminate Hlast |].
        exact Hlast.
      * right; by left.
      * right; right; left. destruct Hex as (e & _ & He & Hinv & Hres).
        exists e. repeat split; [lia | exact He | | exact Hres].
        rewrite Hinv. rewrite (seqZ_cons attempt) by lia.
        do 2 f_equal; lia.
      * lia.
  - cbn [retryLoop]. destruct (Z.leb_spec attempt (MaxAttempts config)); [lia |].
    split; [by exists 0%nat |]. right; right; right. by split.
Qed.

(** With a context that is never done, one success among the attempts that
    remain makes the loop return nil. *)
Lemma retryLoop_succeeds fuel :
  forall attempt delay lastErr K,
    neverDone env ->
    (Z.to_nat (MaxAttempts config - attempt + 1) < fuel)%nat ->
    attempt <= K <= MaxAttempts config ->
    operation env K = None ->
    (retryLoop config env fuel attempt delay lastErr).2 = Some None.
Proof.
  induction fuel as [|fuel IH]; intros attempt delay lastErr K Hlive Hfuel HK Hop;
    [lia |].
  rewrite retryLoop_attempt by lia.
  destruct (Hlive attempt) as [-> Hd].
  destruct (operation env attempt) as [err |] eqn:Ha; [| reflexivity].
  assert (attempt <> K) by congruence.
  destruct (Z.eqb_spec attempt (MaxAttempts config)); [lia |].
  rewrite Hd. cbn [snd]. apply (IH _ _ _ K); [done | lia | lia | done].
Qed.

(** With a context that is never done the loop ends in nil or in the
    exhaustion error. *)
Lemma retryLoop_background fuel :
  forall attempt delay lastErr,
    neverDone env ->
    (Z.to_nat (MaxAttempts config - attempt + 1) < fuel)%nat ->
    (retryLoop config env fuel attempt delay lastErr).2 = Some None \/
    exists lastErr',
      (retryLoop config env fuel attempt delay lastErr).2
        = Some (Some (exhausted config lastErr')).
Proof.
  induction fuel as [|fuel IH]; intros attempt delay lastErr Hlive Hfuel; [lia |].
  destruct (Z.leb_spec attempt (MaxAttempts config)) as [Hle | Hgt].
  - rewrite retryLoop_attempt by done.
    destruct (Hlive attempt) as [-> ->].
    destruct (operation env attempt) as [err |]; [| by left].
    destruct (Z.eqb_spec attempt (MaxAttempts config)); [right; by eexists |].
    cbn [snd]. apply IH; [done | lia].
  - cbn [retryLoop]. destruct (Z.leb_spec attempt (MaxAttempts config)); [lia |].
    right. by eexists.
Qed.

(** The waits of the recurrence add up to at most the first delay and the
    cap for each later one. *)
Lemma total_backoffDelays n delay :
  0 <= MaxDelay config ->
  total (backoffDelays config n delay)
    <= Z.max 0 delay + Z.max 0 (Z.of_nat n - 1) * MaxDelay config.
Proof.
  intros Hcap. destruct n as [|n]; [cbn; lia |].
  cbn [backoffDelays total foldr]. fold (total (backoffDelays config n (nextDelay config delay))).
  assert (Hrest : forall m d, d <= MaxDelay config ->
            total (backoffDelays config m d) <= Z.of_nat m * MaxDelay config).
  { induction m as [|m IHm]; intros d Hd; [cbn; lia |].
    cbn [backoffDelays total foldr].
    fold (total (backoffDelays config m (nextDelay config d))).
    specialize (IHm (nextDelay config d) (nextDelay_capped config d)). nia. }
  specialize (Hrest n (nextDelay config delay) (nextDelay_capped config delay)).
  nia.
Qed.



End RetryMore.

(** X4. [RetryWithBackoff] returns nil, the context's error, or the error
    that reports exhaustion, and nothing else: a failure of an attempt is never
    returned as it is. It invokes the operation for attempts 1, 2, ... without
    a gap. When it returns nil the last invocation succeeded; when it reports
    exhaustion with [MaxAttempts] at least one, it has made exactly
    [MaxAttempts] invocations and wraps the failure of the last. *)
Theorem RetryWithBackoff_outcomes
    (config : retry.RetryConfig) (env : retry.Script) :
  let run := retry.RetryWithBackoff config env in
  (exists n, retry.invocations run.1 = seqZ 1 (Z.of_nat n)) /\
  ((run.2 = Some None /\
    exists K, last (retry.invocations run.1) = Some K /\
              retry.operation env K = None) \/
   run.2 = Some (Some (retry.ctxErr env)) \/
   (exists err,
      1 <= retry.MaxAttempts config /\
      retry.operation env (retry.MaxAttempts config) = Some err /\
      retry.invocations run.1 = seqZ 1 (retry.MaxAttempts config) /\
      run.2 = Some (Some (wrapError
                            (("operation failed after " +:+
                              fmt_d (retry.MaxAttempts config) +:+
                              " attempts, last error: ") +:+ Error err)
                            err))) \/
   (retry.MaxAttempts config < 1 /\
    run = ([], Some (Some (errorString
                             (("operation failed after " +:+
                               fmt_d (retry.MaxAttempts config) +:+
                               " attempts, last error: ") +:+ "%!w(<nil>)")))))).
Proof.
  cbv zeta.
  pose proof (retryLoop_outcomes config env
                (S (Z.to_nat (retry.MaxAttempts config))) 1
                (retry.InitialDelay config) None) as H.
  cbv zeta in H. destruct H as [Hseq Hend]; [lia |].
  split; [exact Hseq |].
  destruct Hend as [Hnil | [Hctx | [(err & H1 & H2 & H3 & H4) | H]]].
  - by left.
  - right; by left.
  - right; right; left. exists err.
    split; [exact H1 |]. split; [exact H2 |]. split; [| exact H4].
    unfold retry.RetryWithBackoff. rewrite H3. f_equal. lia.
  - right; right; right. exact H.
Qed.

(** X5. Under a context that is never done, such as [context.Background()],
    [RetryWithBackoff] returns nil exactly when one of the attempts 1 to
    [MaxAttempts] succeeds; it never returns a context error. *)
Theorem RetryWithBackoff_background
    (config : retry.RetryConfig) (env : retry.Script) :
  neverDone env ->
  ((retry.RetryWithBackoff config env).2 = Some None <->
   exists K, 1 <= K <= retry.MaxAttempts config /\
             retry.operation env K = None) /\
  ((retry.RetryWithBackoff config env).2 = Some None \/
   exists lastErr,
     (retry.RetryWithBackoff config env).2
       = Some (Some (retry.exhausted config lastErr))).
Proof.
  intros Hlive.
  pose proof (retryLoop_outcomes config env
                (S (Z.to_nat (retry.MaxAttempts config))) 1
                (retry.InitialDelay config) None) as H.
  cbv zeta in H. destruct H as [[n Hseq] Hend]; [lia |].
  fold (retry.RetryWithBackoff config env) in *.
  pose proof (retryLoop_invocations config env
                (S (Z.to_nat (retry.MaxAttempts config))) 1
                (retry.InitialDelay config) None) as Hcount.
  fold (retry.RetryWithBackoff config env) in Hcount.
  split.
  - split.
    + intros Hnil.
      destruct Hend as [[_ (K & Hlast & HK)] | [Hctx | [(e & _ & _ & _ & He) | [_ He]]]].
      * exists K. split; [| exact HK].
        rewrite Hseq in Hlast, Hcount. rewrite length_seqZ in Hcount.
        apply last_Some_elem_of in Hlast. apply elem_of_seqZ in Hlast. lia.
      * rewrite Hctx in Hnil. discriminate Hnil.
      * rewrite He in Hnil. discriminate Hnil.
      * rewrite He in Hnil. discriminate Hnil.
    + intros (K & HK & Hop).
      apply (retryLoop_succeeds config env _ _ _ _ K); [done | lia | lia | done].
  - apply retryLoop_background; [done | lia].
Qed.

Lemma RetryWithBackoff_background_witness :
  (retry.RetryWithBackoff retry.DefaultRetryConfig refusedTwice).2 = Some None.
Proof.
  assert (Hlive : neverDone refusedTwice) by (intros k; split; reflexivity).
  apply (RetryWithBackoff_background retry.DefaultRetryConfig refusedTwice Hlive).
  exists 3. split; [simpl; lia | reflexivity].
Defined.



(** ** More on the typed helpers *)


Ltac unwraps_by_cases :=
  eexists _, _; split; [reflexivity |]; split; [reflexivity |];
  split; [reflexivity |]; split;
  [ intros m Hm; destruct m; (discriminate Hm || reflexivity)
  | intros m Hm; destruct m; first [by contradiction Hm | by eexists] ].


(** X8. [SetSourceBreakpoints] with no lines sends nothing and fails with "no
    breakpoints provided", so it cannot clear the breakpoints of a file; with
    at least one line it never fails validation and sends one plain
    breakpoint per line, in order, for the given path. *)
Theorem SetSourceBreakpoints_lines
    (sourcePath : string) (line : Z) (lines : list Z) :
  SetSourceBreakpoints sourcePath []
    = Return (Err (errorString "no breakpoints provided")) /\
  asked (SetSourceBreakpoints sourcePath (line :: lines))
    = Some (dap.SetBreakpointsRequest (request 0 "setBreakpoints")
              {| dap.Source_ := {| dap.Path := sourcePath |};
                 dap.Breakpoints := map lineBreakpoint (line :: lines) |}).
Proof.
  split; [reflexivity |].
  assert (Hsame : sameFile sourcePath
            (map (fun l => {| File := sourcePath; Line := l; Column := 0;
                              Condition := ""; HitCondition := "";
                              LogMessage := "" |}) lines) = true).
  { apply sameFile_true_iff. intros bp Hin.
    apply list_elem_of_fmap in Hin as (l & -> & _). reflexivity. }
  unfold SetSourceBreakpoints, SetBreakpoints. cbn [map File].
  rewrite Hsame. cbn [negb asked Request]. do 3 f_equal.
  cbn [map]. f_equal. rewrite map_map. reflexivity.
Qed.

Lemma lookup_setIf_eq cond key v (m : gmap string dap.JSON) :
  setIf cond key v m !! key = if cond then Some v else m !! key.
Proof. unfold setIf. destruct cond; [apply lookup_insert_eq | reflexivity]. Qed.

Lemma dom_insert_within key v (m : gmap string dap.JSON) (keys : gset string) :
  key ∈ keys -> dom m ⊆ keys -> dom (<[key := v]> m) ⊆ keys.
Proof.
  intros Hk Hm. rewrite dom_insert_L.
  apply union_least; [by apply singleton_subseteq_l | exact Hm].
Qed.

Lemma dom_setIf_within cond key v (m : gmap string dap.JSON)
    (keys : gset string) :
  key ∈ keys -> dom m ⊆ keys -> dom (setIf cond key v m) ⊆ keys.
Proof.
  intros Hk Hm. unfold setIf. destruct cond; [| exact Hm].
  by apply dom_insert_within.
Qed.

(** X9. The launch payload always carries the name, the type ["go"], the
    request ["launch"] and the program path; it carries the arguments, the
    environment and the working directory only when they are not empty, and
    [stopOnEntry] only when it is set (and then as [true]); it has no other
    keys than these, the mode and the build flags. *)
Theorem launchArgs_contents (Stat : string -> option Z) (config : LaunchConfig) :
  let payload := launchArgs Stat config in
  payload !! "name" = Some (dap.JString (Name config)) /\
  payload !! "type" = Some (dap.JString "go") /\
  payload !! "request" = Some (dap.JString "launch") /\
  payload !! "program" = Some (dap.JString (Program config)) /\
  payload !! "args"
    = match Args config with
      | [] => None
      | _ => Some (dap.JStrings (Args config))
      end /\
  payload !! "env"
    = match Env config with
      | [] => None
      | _ => Some (dap.JStrings (Env config))
      end /\
  payload !! "cwd"
    = (if String.eqb (WorkingDir config) "" then None
       else Some (dap.JString (WorkingDir config))) /\
  payload !! "stopOnEntry"
    = (if StopOnEntry config then Some (dap.JBool true) else None) /\
  dom payload ⊆ launchKeys.
Proof.
  cbv zeta. unfold launchArgs. cbv zeta.
  repeat split.
  - rewrite !lookup_setIf_ne by discriminate.
    rewrite !lookup_insert_ne by discriminate. apply lookup_insert_eq.
  - rewrite !lookup_setIf_ne by discriminate.
    rewrite !lookup_insert_ne by discriminate. apply lookup_insert_eq.
  - rewrite !lookup_setIf_ne by discriminate.
    rewrite !lookup_insert_ne by discriminate. apply lookup_insert_eq.
  - rewrite !lookup_setIf_ne by discriminate. apply lookup_insert_eq.
  - rewrite !lookup_setIf_ne by discriminate. rewrite lookup_setIf_eq.
    destruct (Args config); [| reflexivity]. cbn.
    rewrite !lookup_insert_ne by discriminate. apply lookup_empty.
  - rewrite !lookup_setIf_ne by discriminate. rewrite lookup_setIf_eq.
    destruct (Env config); [| reflexivity]. cbn.
    rewrite !lookup_setIf_ne by discriminate.
    rewrite !lookup_insert_ne by discriminate. apply lookup_empty.
  - rewrite !lookup_setIf_ne by discriminate. rewrite lookup_setIf_eq.
    destruct (String.eqb (WorkingDir config) ""); [| reflexivity]. cbn.
    rewrite !lookup_setIf_ne by discriminate.
    rewrite !lookup_insert_ne by discriminate. apply lookup_empty.
  - rewrite !lookup_setIf_ne by discriminate. rewrite lookup_setIf_eq.
    destruct (StopOnEntry config); [reflexivity |].
    rewrite !lookup_setIf_ne by discriminate.
    rewrite !lookup_insert_ne by discriminate. apply lookup_empty.
  - assert (Hkey : forall key, key ∈ (["name"; "type"; "request"; "mode";
                      "program"; "args"; "env"; "cwd"; "stopOnEntry";
                      "buildFlags"] : list string) -> key ∈ launchKeys).
    { intros key Hin. unfold launchKeys. by apply elem_of_list_to_set. }
    do 5 (apply dom_setIf_within;
          [apply Hkey;
           repeat first [apply list_elem_of_here | apply list_elem_of_further] |]).
    do 5 (apply dom_insert_within;
          [apply Hkey;
           repeat first [apply list_elem_of_here | apply list_elem_of_further] |]).
    rewrite dom_empty_L. apply empty_subseteq.
Qed.

Lemma isDebugFlag_gcflags : isDebugFlag "-gcflags" = true.
Proof. reflexivity. Qed.

(** X10. The build flags of a launch: in exec mode they are the supplied
    flags, untouched; in any other mode the result always has a flag that
    mentions [-gcflags] or [-N -l]; the supplied flags are always kept, in
    order, at the end; and applying the rule to its own result changes
    nothing, so the debug flags are never added twice. *)
Theorem launchBuildFlags_rule (mode : string) (config : LaunchConfig) :
  let flags := launchBuildFlags mode config in
  (mode = "exec" -> flags = BuildFlags config) /\
  (mode <> "exec" -> existsb isDebugFlag flags = true) /\
  BuildFlags config `suffix_of` flags /\
  launchBuildFlags mode (withBuildFlags config flags) = flags.
Proof.
  cbv zeta. unfold launchBuildFlags. cbn [BuildFlags withBuildFlags].
  fold isDebugFlag.
  change (fun flag : string =>
            strings.Contains flag "-gcflags" || strings.Contains flag "-N -l")
    with isDebugFlag.
  destruct (String.eqb_spec mode "exec") as [Hexec | Hne]; cbn [negb].
  - split; [reflexivity |]. split; [intros Hn; contradiction |].
    split; [reflexivity | reflexivity].
  - destruct (existsb isDebugFlag (BuildFlags config)) eqn:Hhas; cbn [negb].
    + rewrite Hhas. cbn [negb].
      split; [intros He; contradiction |]. split; [reflexivity |].
      split; [reflexivity | reflexivity].
    + cbn [app existsb]. rewrite isDebugFlag_gcflags. cbn [orb negb].
      split; [intros He; contradiction |]. split; [reflexivity |].
      split; [by exists ["-gcflags"; "all=-N -l"] | reflexivity].
Qed.

Lemma launchBuildFlags_rule_witness :
  launchBuildFlags "exec" testBinary = [] /\
  existsb isDebugFlag (launchBuildFlags "debug" mainPackage) = true.
Proof.
  split.
  - exact (proj1 (launchBuildFlags_rule "exec" testBinary) eq_refl).
  - apply (proj1 (proj2 (launchBuildFlags_rule "debug" mainPackage))).
    discriminate.
Defined.

(** X11. For a path that ends in [.go] the file system is never consulted:
    the whole launch payload is the same whatever [os.Stat] would report. The
    same holds for a path with the [.test] suffix or the [__debug_bin]
    marker, and for a launch whose first argument carries a test flag. *)
Theorem launchArgs_without_stat
    (Stat1 Stat2 : string -> option Z) (config : LaunchConfig) :
  strings.HasSuffix (Program config) ".go" = true \/
  strings.HasSuffix (Program config) ".test" = true \/
  strings.Contains (Program config) "__debug_bin" = true \/
  (exists arg0 args, Args config = arg0 :: args /\
                     strings.Contains arg0 "-test." = true) ->
  launchArgs Stat1 config = launchArgs Stat2 config.
Proof.
  intros H.
  assert (Hmode : launchMode Stat1 config = launchMode Stat2 config).
  { unfold launchMode.
    destruct (strings.HasSuffix (Program config) ".test") eqn:Ht;
      destruct (strings.Contains (Program config) "__debug_bin") eqn:Hm;
      cbn [orb]; try reflexivity.
    destruct (strings.HasSuffix (Program config) "_test.go") eqn:Htg;
      cbn [orb]; [reflexivity |].
    destruct H as [Hgo | [Hx | [Hx | (arg0 & args & Hargs & Hflag)]]];
      try discriminate Hx.
    - rewrite Hgo. cbn [negb].
      by destruct (match Args config with [] => false | _ => _ end).
    - rewrite Hargs, Hflag. reflexivity. }
  unfold launchArgs. cbv zeta. by rewrite Hmode.
Qed.

Lemma launchArgs_without_stat_witness :
  launchArgs statExecutable mainPackage = launchArgs statMissing mainPackage.
Proof.
  apply (launchArgs_without_stat statExecutable statMissing mainPackage).
  left. reflexivity.
Defined.

(** ** The factory's registry *)

Section Registry.

Context {Session : Type}.

Lemma handleAll_registry
    (mailbox : list (debugger.DebuggerCommand * Result Session))
    (d : debugger.debugger Session) :
  0 <= debugger.nextSessionID d ->
  debugger.nextSessionID d + Z.of_nat (length mailbox) < 2 ^ 63 ->
  (forall n, debugger.nextSessionID d < n ->
             debugger.system d !! debugger.sessionName n = None) ->
  let run := debugger.handleAll mailbox d in
  (forall key v, debugger.system d !! key = Some v ->
                 debugger.system run.2 !! key = Some v) /\
  (forall ref, Ok (debugger.CreateSessionResp ref) ∈ run.1 ->
               debugger.system run.2 !! debugger.ref_id ref
                 = Some (debugger.ref_session ref)) /\
  size (debugger.system run.2)
    = (size (debugger.system d) + length (debugger.createdIDs run.1))%nat.
Proof.
  revert d. induction mailbox as [|[cmd newSession] mailbox IH];
    intros d H0 Hroom Hfree.
  - cbn. split; [done |]. split; [intros ref Hin; inversion Hin | lia].
  - cbn [debugger.handleAll length] in *.
    destruct (Receive_step cmd newSession d) as [(session & ->) | (e & ->)].
    + rewrite wrap64_small by lia.
      set (name := debugger.sessionName (debugger.nextSessionID d + 1)).
      set (d' := {| debugger.nextSessionID := debugger.nextSessionID d + 1;
                    debugger.system := <[name := session]> (debugger.system d) |}).
      specialize (IH d'). cbn [debugger.nextSessionID debugger.system d'] in IH.
      destruct (debugger.handleAll mailbox d') as [resps d''].
      cbn [fst snd] in *.
      destruct IH as (Hkeep & Hnew & Hsize); [lia | lia | |].
      { intros n Hn. rewrite lookup_insert_ne.
        - apply Hfree. lia.
        - unfold name. intros Heq. apply sessionName_inj in Heq. lia. }
      assert (Hname : debugger.system d !! name = None) by (apply Hfree; lia).
      split; [| split].
      * intros key v Hkey. apply Hkeep. rewrite lookup_insert_ne; [done |].
        intros <-. congruence.
      * intros ref Hin. apply elem_of_cons in Hin as [Heq | Hin].
        -- injection Heq as ->. cbn [debugger.ref_id debugger.ref_session].
           apply Hkeep. apply lookup_insert_eq.
        -- by apply Hnew.
      * rewrite createdIDs_cons. cbn [length]. rewrite Hsize.
        rewrite map_size_insert_None by done. lia.
    + specialize (IH d).
      destruct (debugger.handleAll mailbox d) as [resps d''].
      cbn [fst snd] in *.
      destruct IH as (Hkeep & Hnew & Hsize); [lia | lia | done |].
      split; [done |]. split.
      * intros ref Hin. apply elem_of_cons in Hin as [Heq | Hin];
          [discriminate Heq | by apply Hnew].
      * rewrite createdIDs_cons. exact Hsize.
Qed.

End Registry.

(** X12. A factory that starts over a registry holding no ["session-N"]
    entry, and handles fewer than 2^63 messages, keeps its registry in step
    with its replies: every session reference it handed out is found in the
    registry under its identifier, every entry that was there before is still
    there, and the registry has grown by exactly one entry per successful
    creation. Failed creations and other commands add nothing. *)
Theorem sessions_are_registered
    {Session : Type} (sys : gmap string Session)
    (mailbox : list (debugger.DebuggerCommand * Result Session)) :
  Z.of_nat (length mailbox) < 2 ^ 63 ->
  (forall n, sys !! debugger.sessionName n = None) ->
  let run := debugger.handleAll mailbox (debugger.newDebugger sys) in
  (forall ref, Ok (debugger.CreateSessionResp ref) ∈ run.1 ->
               debugger.system run.2 !! debugger.ref_id ref
                 = Some (debugger.ref_session ref)) /\
  (forall key v, sys !! key = Some v ->
                 debugger.system run.2 !! key = Some v) /\
  size (debugger.system run.2)
    = (size sys + length (debugger.createdIDs run.1))%nat.
Proof.
  intros Hlen Hfree.
  pose proof (handleAll_registry mailbox (debugger.newDebugger sys)) as H.
  cbn [debugger.newDebugger debugger.nextSessionID debugger.system] in H.
  destruct H as (Hkeep & Hnew & Hsize); [lia | lia | by intros |].
  cbv zeta. split; [exact Hnew |]. split; [exact Hkeep | exact Hsize].
Qed.

Lemma sessions_are_registered_witness :
  debugger.system
    (debugger.handleAll threeRequests (debugger.newDebugger ∅)).2
    !! "session-2" = Some 40002 /\
  size (debugger.system
          (debugger.handleAll threeRequests (debugger.newDebugger ∅)).2) = 2%nat.
Proof.
  pose proof (sessions_are_registered ∅ threeRequests) as H.
  cbv zeta in H. destruct H as (Hnew & _ & Hsize).
  - simpl. lia.
  - intros n. apply lookup_empty.
  - split.
    + apply (Hnew {| debugger.ref_id := "session-2";
                     debugger.ref_session := 40002 |}).
      apply list_elem_of_further, list_elem_of_further, list_elem_of_here.
    + exact Hsize.
Defined.

(** ** Starting the backend *)

Lemma HasPrefix_append (p s : string) : HasPrefix (p +:+ s) p = true.
Proof.
  unfold HasPrefix. induction p as [|c p IH]; simpl.
  - by destruct s.
  - destruct (Ascii.ascii_dec c c); [exact IH | contradiction].
Qed.

Lemma substring_all (s : string) : String.substring 0 (String.length s) s = s.
Proof. induction s as [|c s IH]; simpl; [reflexivity | by rewrite IH]. Qed.

Lemma TrimPrefix_append (p s : string) : TrimPrefix (p +:+ s) p = s.
Proof.
  unfold TrimPrefix. rewrite HasPrefix_append.
  induction p as [|c p IH]; simpl.
  - rewrite Nat.sub_0_r. apply substring_all.
  - exact IH.
Qed.

(** X13. The scan of the backend's standard output yields the address of the
    first line that starts with the marker, with the marker cut off, whatever
    comes after that line. If no line starts with the marker, it yields
    "unexpected end of stdout" at the end of the output, the scanner's error
    (wrapped) if the scanner fails, and nothing as long as the output stays
    open. *)
Theorem scanStdout_first_address
    (before : list string) (ending : delve.StdoutEnd) :
  (forall line, line ∈ before -> HasPrefix line delve.prefix = false) ->
  (forall addr after,
     delve.scanStdout (before ++ (delve.prefix +:+ addr) :: after) ending
       = delve.Address addr) /\
  delve.scanStdout before ending
    = match ending with
      | delve.EndOfOutput =>
          delve.Failed (errorString "unexpected end of stdout")
      | delve.ScanFails err =>
          delve.Failed (wrapError ("error reading stdout: " +:+ Error err) err)
      | delve.Silent => delve.Blocked
      end.
Proof.
  induction before as [|line before IH]; intros Hno.
  - split; [| by destruct ending].
    intros addr after. cbn [app delve.scanStdout].
    by rewrite HasPrefix_append, TrimPrefix_append.
  - cbn [app delve.scanStdout]. rewrite (Hno line) by by left.
    apply IH. intros l Hl. apply Hno. by right.
Qed.

Lemma scanStdout_first_address_witness :
  delve.scanStdout
    (["Type 'help' for list of commands."] ++
     (delve.prefix +:+ "127.0.0.1:40001") ::
     ["DAP server listening at: 127.0.0.1:1"]) delve.EndOfOutput
  = delve.Address "127.0.0.1:40001".
Proof.
  apply (scanStdout_first_address ["Type 'help' for list of commands."]
           delve.EndOfOutput).
  intros line Hin. apply list_elem_of_singleton in Hin. rewrite Hin.
  reflexivity.
Defined.

Lemma alive_app (l1 l2 : list delve.Effect) :
  delve.alive (l1 ++ l2) = delve.alive l1 + delve.alive l2.
Proof.
  induction l1 as [|e l1 IH]; [reflexivity |].
  destruct e; cbn [app delve.alive]; lia.
Qed.

Lemma alive_dialEffects addr effects :
  delve.alive (delve.dialEffects addr effects) = 0.
Proof.
  induction effects as [|e effects IH]; [reflexivity |].
  destruct e; exact IH.
Qed.

Lemma started_app (l1 l2 : list delve.Effect) :
  delve.started (l1 ++ l2) = delve.started l1 ++ delve.started l2.
Proof. unfold delve.started. apply omap_app. Qed.

Lemma dialled_app (l1 l2 : list delve.Effect) :
  delve.dialled (l1 ++ l2) = delve.dialled l1 ++ delve.dialled l2.
Proof. unfold delve.dialled. apply omap_app. Qed.

Lemma started_dialEffects addr effects :
  delve.started (delve.dialEffects addr effects) = [].
Proof.
  induction effects as [|e effects IH]; [reflexivity |].
  destruct e; exact IH.
Qed.

Lemma dialled_dialEffects addr effects :
  delve.dialled (delve.dialEffects addr effects)
    = map (fun _ => addr) (retry.invocations effects).
Proof.
  induction effects as [|e effects IH]; [reflexivity |].
  destruct e as [k | d].
  - change (addr :: delve.dialled (delve.dialEffects addr effects)
            = addr :: map (fun _ => addr) (retry.invocations effects)).
    by rewrite IH.
  - exact IH.
Qed.

(** The dial loop makes at least one and at most three dials when it
    returns nil. *)
Lemma dial_run (a : delve.Attempt) :
  let run := retry.RetryWithBackoff delve.dialConfig (delve.dialScript a) in
  (length (retry.invocations run.1) <= 3)%nat /\
  (delve.returned run = None -> retry.invocations run.1 <> []).
Proof.
  cbv zeta. split.
  - apply (retryLoop_invocations delve.dialConfig (delve.dialScript a)
             (S (Z.to_nat (retry.MaxAttempts delve.dialConfig))) 1).
  - unfold delve.returned.
    pose proof (retryLoop_outcomes delve.dialConfig (delve.dialScript a)
                  (S (Z.to_nat (retry.MaxAttempts delve.dialConfig))) 1
                  (retry.InitialDelay delve.dialConfig) None) as H.
    cbv zeta in H. destruct H as [_ Hend]; [simpl; lia |].
    fold (retry.RetryWithBackoff delve.dialConfig (delve.dialScript a)) in Hend.
    destruct Hend as [[_ (K & Hlast & _)] | [Hctx | [(e & _ & _ & _ & He) | [Hlt _]]]].
    + intros _ Hnil. rewrite Hnil in Hlast. discriminate Hlast.
    + rewrite Hctx. discriminate.
    + rewrite He. discriminate.
    + simpl in Hlt. lia.
Qed.

(** What one launch attempt does to the operating system. *)
Lemma launchOnce_facts (a : delve.Attempt) :
  let run := delve.launchDelveOnceExternal a in
  (length (delve.started run.1) <= 1)%nat /\
  (length (delve.dialled run.1) <= 3)%nat /\
  match run.2 with
  | Ok conn =>
      delve.alive run.1 = 1 /\
      delve.scanStdout (delve.stdoutLines a) (delve.stdoutEnd a)
        = delve.Address (delve.remote conn) /\
      delve.dialled run.1 <> [] /\
      Forall (fun addr => addr = delve.remote conn) (delve.dialled run.1)
  | Err _ => delve.alive run.1 = 0
  end.
Proof.
  cbv zeta. unfold delve.launchDelveOnceExternal.
  destruct (delve.lookPath a) as [dlvPath | err]; [| cbn; repeat split; lia].
  destruct (delve.stdoutPipe a); [cbn; repeat split; lia |].
  destruct (delve.start a); [cbn; repeat split; lia |].
  destruct (delve.scanStdout (delve.stdoutLines a) (delve.stdoutEnd a))
    as [addr | err |] eqn:Hscan;
    [| destruct (delve.timedOut a); cbn; repeat split; lia
     | cbn; repeat split; lia].
  destruct (delve.timedOut a); [cbn; repeat split; lia |].
  destruct (dial_run a) as [Hcount Hsome]. cbv zeta in Hsome.
  destruct (delve.returned _) as [connectErr |] eqn:Hret; cbn [fst snd].
  - rewrite app_comm_cons, started_app, dialled_app, alive_app.
    cbn [delve.started delve.dialled omap list_omap delve.alive].
    fold (delve.started (delve.dialEffects addr
            (retry.RetryWithBackoff delve.dialConfig (delve.dialScript a)).1)).
    fold (delve.dialled (delve.dialEffects addr
            (retry.RetryWithBackoff delve.dialConfig (delve.dialScript a)).1)).
    rewrite started_dialEffects, dialled_dialEffects, alive_dialEffects.
    rewrite !app_nil_r, length_map. cbn [length]. repeat split; lia.
  - cbn [delve.started delve.dialled omap list_omap delve.alive delve.remote].
    fold (delve.started (delve.dialEffects addr
            (retry.RetryWithBackoff delve.dialConfig (delve.dialScript a)).1)).
    fold (delve.dialled (delve.dialEffects addr
            (retry.RetryWithBackoff delve.dialConfig (delve.dialScript a)).1)).
    rewrite started_dialEffects, dialled_dialEffects, alive_dialEffects.
    rewrite length_map. cbn [length]. split; [lia |]. split; [exact Hcount |].
    split; [reflexivity |]. split; [reflexivity |]. split.
    + intros Hnil. apply Hsome; [reflexivity |].
      by apply fmap_nil_inv in Hnil.
    + apply Forall_fmap. by apply Forall_true.
Qed.

(** X14. One launch attempt never leaves a process behind: it starts at most
    one process and dials at most three times; when it fails, every process
    it started has been killed; when it succeeds, the one process is alive
    and the connection is to the address the process announced, the only
    address that was dialled. *)
Theorem launchDelveOnceExternal_cleans_up (a : delve.Attempt) :
  let run := delve.launchDelveOnceExternal a in
  (length (delve.started run.1) <= 1)%nat /\
  (length (delve.dialled run.1) <= 3)%nat /\
  match run.2 with
  | Ok conn =>
      delve.alive run.1 = 1 /\
      delve.scanStdout (delve.stdoutLines a) (delve.stdoutEnd a)
        = delve.Address (delve.remote conn) /\
      delve.dialled run.1 <> [] /\
      Forall (fun addr => addr = delve.remote conn) (delve.dialled run.1)
  | Err _ => delve.alive run.1 = 0
  end.
Proof. exact (launchOnce_facts a). Qed.

Section LaunchLoop.

Variable attempts : Z -> delve.Attempt.

Let script := delve.launchScript attempts.
Let config := retry.DefaultRetryConfig.

Lemma launchScript_neverDone : neverDone (delve.launchScript attempts).
Proof. intros k. by split. Qed.

Lemma launchEffects_invoke k effects :
  delve.launchEffects attempts (retry.Invoke k :: effects)
    = (delve.launchDelveOnceExternal (attempts k)).1 ++
      delve.launchEffects attempts effects.
Proof. reflexivity. Qed.

Lemma launchEffects_sleep d effects :
  delve.launchEffects attempts (retry.Sleep d :: effects)
    = delve.Wait d :: delve.launchEffects attempts effects.
Proof. reflexivity. Qed.

Lemma launchOnce_failed_alive k err :
  (delve.launchDelveOnceExternal (attempts k)).2 = Err err ->
  delve.alive (delve.launchDelveOnceExternal (attempts k)).1 = 0.
Proof.
  intros H. pose proof (launchOnce_facts (attempts k)) as (_ & _ & Hres).
  by rewrite H in Hres.
Qed.

Lemma launchOnce_ok_alive k conn :
  (delve.launchDelveOnceExternal (attempts k)).2 = Ok conn ->
  delve.alive (delve.launchDelveOnceExternal (attempts k)).1 = 1.
Proof.
  intros H. pose proof (launchOnce_facts (attempts k)) as (_ & _ & Hres).
  rewrite H in Hres. apply Hres.
Qed.

(** The launch loop, from any attempt on: processes alive at the end, and
    processes started. *)
Lemma launch_loop fuel :
  forall attempt delay lastErr,
    let r := retry.retryLoop config script fuel attempt delay lastErr in
    delve.alive (delve.launchEffects attempts r.1)
      = match r.2 with Some None => 1 | _ => 0 end /\
    (length (delve.started (delve.launchEffects attempts r.1))
     <= length (retry.invocations r.1))%nat /\
    (r.2 = Some None ->
     exists K conn,
       last (retry.invocations r.1) = Some K /\
       attempt <= K <= retry.MaxAttempts config /\
       (delve.launchDelveOnceExternal (attempts K)).2 = Ok conn /\
       forall j, attempt <= j < K ->
         exists err, (delve.launchDelveOnceExternal (attempts j)).2 = Err err).
Proof.
  induction fuel as [|fuel IH]; intros attempt delay lastErr.
  { cbn. split; [reflexivity |]. split; [lia | discriminate]. }
  cbv zeta.
  destruct (Z.leb_spec attempt (retry.MaxAttempts config)) as [Hle | Hgt].
  2:{ cbn [retry.retryLoop].
      destruct (Z.leb_spec attempt (retry.MaxAttempts config)); [lia |].
      cbn. split; [reflexivity |]. split; [lia | discriminate]. }
  rewrite retryLoop_attempt by done.
  change (retry.doneBeforeAttempt script attempt) with false.
  change (retry.doneDuringBackoff script attempt) with false.
  cbn iota.
  pose proof (launchOnce_facts (attempts attempt)) as (Hstart & _ & _).
  cbv zeta in Hstart.
  assert (Hop : retry.operation script attempt
                = match (delve.launchDelveOnceExternal (attempts attempt)).2 with
                  | Ok _ => None
                  | Err err => Some err
                  end) by reflexivity.
  rewrite Hop. clear Hop.
  destruct (delve.launchDelveOnceExternal (attempts attempt)).2
    as [conn | err] eqn:Hres.
  - cbn [fst snd]. rewrite launchEffects_invoke. cbn [delve.launchEffects flat_map].
    rewrite app_nil_r. rewrite (launchOnce_ok_alive _ _ Hres).
    split; [reflexivity |]. split; [cbn; lia |].
    intros _. exists attempt, conn.
    split; [reflexivity |]. split; [lia |]. split; [exact Hres |].
    intros j Hj. lia.
  - destruct (Z.eqb_spec attempt (retry.MaxAttempts config)) as [Heq | Hne].
    + cbn [fst snd]. rewrite launchEffects_invoke.
      cbn [delve.launchEffects flat_map]. rewrite app_nil_r.
      rewrite (launchOnce_failed_alive _ _ Hres).
      split; [reflexivity |]. split; [cbn; lia | discriminate].
    + cbn [fst snd]. rewrite launchEffects_invoke, launchEffects_sleep.
      rewrite alive_app, started_app, length_app.
      rewrite (launchOnce_failed_alive _ _ Hres).
      specialize (IH (attempt + 1) (retry.nextDelay config delay) (Some err)).
      cbv zeta in IH. destruct IH as (Halive & Hcount & Hlast).
      cbn [delve.alive delve.started omap list_omap].
      fold (delve.started (delve.launchEffects attempts
              (retry.retryLoop config script fuel (attempt + 1)
                 (retry.nextDelay config delay) (Some err)).1)).
      rewrite invocations_cons_invoke, invocations_cons_sleep.
      split; [lia |]. split; [cbn [length]; lia |].
      intros Hnil. destruct (Hlast Hnil) as (K & conn & HK & Hrange & Hok & Hfail).
      exists K, conn. split.
      * destruct (retry.invocations _) as [|k ks]; [discriminate HK | exact HK].
      * split; [lia |]. split; [exact Hok |].
        intros j Hj. destruct (Z.eq_dec j attempt) as [-> | Hjne];
          [by exists err | apply Hfail; lia].
Qed.

End LaunchLoop.

(** What the launch loop does to the operating system. *)
Lemma launchDelveExternal_facts (attempts : Z -> delve.Attempt) :
  let run := delve.launchDelveExternal attempts in
  (length (delve.started run.1) <= 5)%nat /\
  match run.2 with
  | Ok conn =>
      delve.alive run.1 = 1 /\
      exists K c,
        conn = Some c /\ 1 <= K <= 5 /\
        (delve.launchDelveOnceExternal (attempts K)).2 = Ok c /\
        forall j, 1 <= j < K -> ~ delve.succeeds (attempts j)
  | Err e =>
      delve.alive run.1 = 0 /\
      (forall K, 1 <= K <= 5 -> ~ delve.succeeds (attempts K)) /\
      exists inner,
        e = wrapError ("failed to launch Delve after retries: " +:+ Error inner)
              inner
  end.
Proof.
  cbv zeta. unfold delve.launchDelveExternal. cbv zeta.
  set (script := delve.launchScript attempts).
  set (run := retry.RetryWithBackoff retry.DefaultRetryConfig script).
  pose proof (launch_loop attempts 6 1
                (retry.InitialDelay retry.DefaultRetryConfig) None) as H.
  cbv zeta in H. fold script in H.
  change (retry.retryLoop retry.DefaultRetryConfig script 6 1
            (retry.InitialDelay retry.DefaultRetryConfig) None) with run in H.
  destruct H as (Halive & Hcount & Hlast).
  pose proof (retryLoop_invocations retry.DefaultRetryConfig script 6 1
                (retry.InitialDelay retry.DefaultRetryConfig) None) as Hinv.
  change (retry.retryLoop retry.DefaultRetryConfig script 6 1
            (retry.InitialDelay retry.DefaultRetryConfig) None) with run in Hinv.
  change (Z.to_nat (retry.MaxAttempts retry.DefaultRetryConfig - 1 + 1))
    with 5%nat in Hinv.
  pose proof (retryLoop_returns retry.DefaultRetryConfig script 6 1
                (retry.InitialDelay retry.DefaultRetryConfig) None) as Hret.
  change (retry.retryLoop retry.DefaultRetryConfig script 6 1
            (retry.InitialDelay retry.DefaultRetryConfig) None) with run in Hret.
  destruct Hret as [res Hres]; [simpl; lia |].
  unfold delve.returned. rewrite Hres in *.
  destruct res as [err |]; cbn [fst snd].
  - split; [lia |]. split; [exact Halive |]. split; [| by exists err].
    intros K HK [conn Hok].
    assert (Hnil : run.2 = Some None).
    { apply (retryLoop_succeeds retry.DefaultRetryConfig script 6 1 _ _ K);
        [apply launchScript_neverDone | simpl; lia | simpl; lia |].
      unfold script. cbn [retry.operation delve.launchScript]. by rewrite Hok. }
    rewrite Hres in Hnil. discriminate Hnil.
  - split; [lia |]. split; [exact Halive |].
    destruct (Hlast eq_refl) as (K & conn & HK & Hrange & Hok & Hfail).
    exists K, conn. rewrite HK, Hok.
    split; [reflexivity |]. split; [simpl in Hrange; lia |].
    split; [reflexivity |].
    intros j Hj [c Hc]. destruct (Hfail j Hj) as [e He]. congruence.
Qed.

(** X15. [launchDelveExternal] starts at most five processes and leaves none
    behind: after a failure every process it started has been killed, after a
    success exactly one is alive. It succeeds exactly when one of the first
    five attempts succeeds, and then returns the connection of the first
    such attempt (never a nil connection); it fails only when all five
    attempts failed, and its error wraps what the retry helper reports. *)
Theorem launchDelveExternal_contract (attempts : Z -> delve.Attempt) :
  let run := delve.launchDelveExternal attempts in
  (length (delve.started run.1) <= 5)%nat /\
  match run.2 with
  | Ok conn =>
      delve.alive run.1 = 1 /\
      exists K c,
        conn = Some c /\ 1 <= K <= 5 /\
        (delve.launchDelveOnceExternal (attempts K)).2 = Ok c /\
        forall j, 1 <= j < K -> ~ delve.succeeds (attempts j)
  | Err e =>
      delve.alive run.1 = 0 /\
      (forall K, 1 <= K <= 5 -> ~ delve.succeeds (attempts K)) /\
      exists inner,
        e = wrapError ("failed to launch Delve after retries: " +:+ Error inner)
              inner
  end.
Proof. exact (launchDelveExternal_facts attempts). Qed.

Lemma launchDelveExternal_contract_witness :
  delve.launchDelveExternal thirdTimeLucky
  = ([delve.StartProcess "/usr/local/bin/dlv"; delve.KillProcess;
      delve.Wait 10000000;
      delve.StartProcess "/usr/local/bin/dlv"; delve.KillProcess;
      delve.Wait 20000000;
      delve.StartProcess "/usr/local/bin/dlv";
      delve.Dial "127.0.0.1:40001"; delve.Wait 50000000;
      delve.Dial "127.0.0.1:40001"],
     Ok (Some {| delve.remote := "127.0.0.1:40001" |})) /\
  ~ delve.succeeds (thirdTimeLucky 1).
Proof.
  pose proof (launchDelveExternal_contract thirdTimeLucky) as H.
  cbv zeta in H. split; [vm_compute; reflexivity |].
  destruct H as [_ H].
  replace (delve.launchDelveExternal thirdTimeLucky).2
    with (@Ok (option delve.Conn) (Some {| delve.remote := "127.0.0.1:40001" |}))
    in H by (vm_compute; reflexivity).
  destruct H as (_ & K & c & _ & HK & Hok & Hfirst).
  assert (K = 3) as ->.
  { assert (K = 1 \/ K = 2 \/ K = 3 \/ K = 4 \/ K = 5) as Hc by lia.
    destruct Hc as [-> | [-> | [-> | [-> | ->]]]];
      first [reflexivity | exfalso; vm_compute in Hok; discriminate Hok
            | exfalso; apply (Hfirst 3); [lia | eexists; vm_compute; reflexivity]]. }
  apply Hfirst. lia.
Defined.

(** X16. A backend executable that is missing is looked up again and again:
    when [exec.LookPath] fails in each of the five attempts,
    [launchDelveExternal] starts no process, still waits out the four
    backoff delays of the default configuration (150ms in all), and returns
    the last lookup error wrapped three times. *)
Theorem launchDelveExternal_retries_missing_executable
    (attempts : Z -> delve.Attempt) :
  (forall k, 1 <= k <= 5 ->
             exists e, delve.lookPath (attempts k) = Err e) ->
  exists e,
    delve.lookPath (attempts 5) = Err e /\
    delve.launchDelveExternal attempts
    = ([delve.Wait 10000000; delve.Wait 20000000; delve.Wait 40000000;
        delve.Wait 80000000],
       Err (wrapError
              ("failed to launch Delve after retries: " +:+
               "operation failed after 5 attempts, last error: " +:+
               "could not find 'dlv' executable: " +:+ Error e)
              (wrapError
                 ("operation failed after 5 attempts, last error: " +:+
                  "could not find 'dlv' executable: " +:+ Error e)
                 (wrapError ("could not find 'dlv' executable: " +:+ Error e)
                            e)))).
Proof.
  intros Hmissing.
  assert (Honce : forall k, 1 <= k <= 5 ->
            exists e, delve.lookPath (attempts k) = Err e /\
              delve.launchDelveOnceExternal (attempts k)
                = ([], Err (wrapError
                              ("could not find 'dlv' executable: " +:+ Error e)
                              e))).
  { intros k Hk. destruct (Hmissing k Hk) as [e He]. exists e.
    split; [exact He |]. unfold delve.launchDelveOnceExternal. by rewrite He. }
  set (script := delve.launchScript attempts).
  assert (Hop : forall k, 1 <= k <= 5 ->
            exists e, delve.lookPath (attempts k) = Err e /\
              retry.operation script k
                = Some (wrapError
                          ("could not find 'dlv' executable: " +:+ Error e) e)).
  { intros k Hk. destruct (Honce k Hk) as (e & He & Hrun). exists e.
    split; [exact He |]. unfold script. cbn [retry.operation delve.launchScript].
    by rewrite Hrun. }
  destruct (RetryWithBackoff_reaches retry.DefaultRetryConfig script 5)
    as (fuel & delay & lastErr & Hrun).
  { simpl. lia. }
  { intros j Hj. destruct (Hop j) as (e & _ & He); [lia |].
    split; [reflexivity |]. split; [by eexists | reflexivity]. }
  rewrite retryLoop_attempt in Hrun by (simpl; lia).
  destruct (Hop 5) as (e & He & Hop5); [lia |].
  rewrite Hop5 in Hrun.
  change (retry.doneBeforeAttempt script 5) with false in Hrun.
  change (5 =? retry.MaxAttempts retry.DefaultRetryConfig) with true in Hrun.
  cbn iota in Hrun. cbn [fst snd] in Hrun.
  change (retry.failedAttempts retry.DefaultRetryConfig (Z.to_nat (5 - 1)) 1
            (retry.InitialDelay retry.DefaultRetryConfig))
    with [retry.Invoke 1; retry.Sleep 10000000; retry.Invoke 2;
          retry.Sleep 20000000; retry.Invoke 3; retry.Sleep 40000000;
          retry.Invoke 4; retry.Sleep 80000000] in Hrun.
  exists e. split; [exact He |].
  unfold delve.launchDelveExternal. cbv zeta. fold script. rewrite Hrun.
  unfold delve.returned. cbn [fst snd app].
  unfold delve.launchEffects. cbn [flat_map].
  destruct (Honce 1) as (e1 & _ & ->); [lia |].
  destruct (Honce 2) as (e2 & _ & ->); [lia |].
  destruct (Honce 3) as (e3 & _ & ->); [lia |].
  destruct (Honce 4) as (e4 & _ & ->); [lia |].
  destruct (Honce 5) as (e5 & He5 & ->); [lia |].
  reflexivity.
Qed.

Lemma launchDelveExternal_retries_missing_executable_witness :
  delve.started (delve.launchDelveExternal (fun _ => noDelve)).1 = [] /\
  total (omap (fun e => match e with delve.Wait d => Some d | _ => None end)
              (delve.launchDelveExternal (fun _ => noDelve)).1) = 150000000.
Proof.
  destruct (launchDelveExternal_retries_missing_executable (fun _ => noDelve))
    as (e & _ & ->).
  - intros k _. eexists. reflexivity.
  - split; reflexivity.
Defined.

(** X17. A creation command end to end, for a factory whose next identifier
    is not yet registered. When the launch succeeds, the factory answers
    with a reference to a session that holds the connection of the first
    successful launch attempt, registers that session under the identifier
    of the reference beside the sessions already registered and moves its
    counter on; one backend process is alive. When the launch fails, the factory's counter and registry are as
    before, no backend process is left alive, and the error reads "could
    not create session: failed to launch Delve after retries: ..." around
    what the retry helper reported. *)
Theorem createSession_launches
    (attempts : Z -> delve.Attempt) (d : debugger.debugger SessionStruct) :
  let run := createSessionLaunching attempts d in
  let next := wrap64 (debugger.nextSessionID d + 1) in
  debugger.system d !! debugger.sessionName next = None ->
  match run.2.1 with
  | Ok (debugger.CreateSessionResp ref) =>
      delve.alive run.1 = 1 /\
      debugger.ref_id ref = "session-" +:+ fmt_d next /\
      debugger.nextSessionID run.2.2 = next /\
      debugger.system run.2.2 !! debugger.ref_id ref
        = Some (debugger.ref_session ref) /\
      (forall key, key <> debugger.ref_id ref ->
                   debugger.system run.2.2 !! key = debugger.system d !! key) /\
      size (debugger.system run.2.2) = S (size (debugger.system d)) /\
      exists K c,
        1 <= K <= 5 /\
        (delve.launchDelveOnceExternal (attempts K)).2 = Ok c /\
        (forall j, 1 <= j < K -> ~ delve.succeeds (attempts j)) /\
        debugger.ref_session ref = {| conn := Some c |}
  | Err e =>
      delve.alive run.1 = 0 /\
      run.2.2 = d /\
      (forall K, 1 <= K <= 5 -> ~ delve.succeeds (attempts K)) /\
      exists inner,
        e = wrapError
              ("could not create session: " +:+
               "failed to launch Delve after retries: " +:+ Error inner)
              (wrapError
                 ("failed to launch Delve after retries: " +:+ Error inner)
                 inner)
  end.
Proof.
  cbv zeta. intros Hfree.
  unfold createSessionLaunching, NewSession, delve.launchDelve.
  pose proof (launchDelveExternal_facts attempts) as [_ H]. cbv zeta in H.
  destruct (delve.launchDelveExternal attempts).2 as [c | e]; cbn [fst snd].
  - destruct H as (Halive & K & c' & -> & HK & Hok & Hfirst).
    cbn [debugger.createSession fst snd debugger.ref_id debugger.ref_session
         debugger.nextSessionID debugger.system].
    split; [exact Halive |]. split; [reflexivity |]. split; [reflexivity |].
    split; [apply lookup_insert_eq |].
    split; [intros key Hkey; apply lookup_insert_ne; congruence |].
    split; [by apply map_size_insert_None |].
    by exists K, c'.
  - destruct H as (Halive & Hnone & inner & ->).
    cbn [debugger.createSession fst snd].
    split; [exact Halive |]. split; [reflexivity |]. split; [exact Hnone |].
    by exists inner.
Qed.

Lemma createSession_launches_witness :
  (createSessionLaunching thirdTimeLucky (debugger.newDebugger ∅)).2.1
    = Ok (debugger.CreateSessionResp
            {| debugger.ref_id := "session-1";
               debugger.ref_session :=
                 {| conn := Some {| delve.remote := "127.0.0.1:40001" |} |} |}) /\
  delve.alive (createSessionLaunching thirdTimeLucky (debugger.newDebugger ∅)).1
    = 1.
Proof.
  pose proof (createSession_launches thirdTimeLucky (debugger.newDebugger ∅))
    as H.
  cbv zeta in H. specialize (H (lookup_empty _)).
  assert (Hreply :
    (createSessionLaunching thirdTimeLucky (debugger.newDebugger ∅)).2.1
      = Ok (debugger.CreateSessionResp
              {| debugger.ref_id := "session-1";
                 debugger.ref_session :=
                   {| conn := Some {| delve.remote := "127.0.0.1:40001" |} |} |}))
    by (vm_compute; reflexivity).
  rewrite Hreply in H. split; [exact Hreply | apply H].
Defined.

(** ** The tool layer *)

Lemma launchArgs_name_program (Stat : string -> option Z) (config : LaunchConfig) :
  launchArgs Stat config !! "name" = Some (dap.JString (Name config)) /\
  launchArgs Stat config !! "program" = Some (dap.JString (Program config)).
Proof.
  unfold launchArgs. cbv zeta. split.
  - rewrite !lookup_setIf_ne by discriminate.
    rewrite !lookup_insert_ne by discriminate. apply lookup_insert_eq.
  - rewrite !lookup_setIf_ne by discriminate. apply lookup_insert_eq.
Qed.

Section Tools.

Context {Ref World Factory : Type}.
Variable ask : Ref -> DAPRequest -> World -> Result DAPResponse * World.
Variable askDebugger : Factory -> Result (option Ref) * Factory.
Variable Stat : string -> option Z.
Variable marshal : dap.Message -> string.

Lemma createDebugSession_keeps (sessionID other : string)
    (sessions : gmap string Ref) (f : Factory) (ref : Ref) :
  sessions !! other = Some ref ->
  (mcp.createDebugSession askDebugger sessionID sessions f).1.2 !! other
    = Some ref.
Proof.
  intros Hother. unfold mcp.createDebugSession.
  destruct (sessions !! sessionID) as [bound|] eqn:Hid; [exact Hother |].
  destruct (askDebugger f) as [[[session|]|err] f']; cbn; try exact Hother.
  rewrite lookup_insert_ne; [exact Hother |]. congruence.
Qed.

Lemma createAll_keeps (sessionIDs : list string) :
  forall (sessions : gmap string Ref) (f : Factory) (other : string) (ref : Ref),
    sessions !! other = Some ref ->
    (mcp.createAll askDebugger sessionIDs sessions f).1.2 !! other = Some ref.
Proof.
  induction sessionIDs as [|sessionID rest IH]; intros sessions f other ref Hother;
    [exact Hother |].
  cbn [mcp.createAll].
  pose proof (createDebugSession_keeps sessionID other sessions f ref Hother)
    as Hkept.
  destruct (mcp.createDebugSession askDebugger sessionID sessions f)
    as [[result sessions'] f'].
  specialize (IH sessions' f' other ref Hkept).
  destruct (mcp.createAll askDebugger rest sessions' f')
    as [[results sessions''] f''].
  exact IH.
Qed.

Lemma executionTool_reports
    (helper : Z -> Call (Result dap.Message))
    (command responseType failed succeeded : string) :
  (forall threadID, unwraps (helper threadID) command responseType) ->
  reportsBackend ask (mcp.executionTool ask helper failed succeeded)
    command responseType failed.
Proof.
  intros Hhelper sessionID threadID sessions session w Hsession.
  destruct (Hhelper threadID) as (req & k & Hask & Hcommand & Herr & Hok & Hother).
  exists req. split; [exact Hcommand |].
  unfold mcp.executionTool. rewrite Hsession, Hask. cbn [runCall].
  destruct (ask session req w) as [[[m]|err] w'] eqn:Hreply; cbn [fst snd].
  - destruct (decide (dap.typeName m = responseType)) as [Hm|Hm].
    + rewrite (Hok m Hm). cbn. split; [reflexivity |]. split.
      * split; [intros _; by exists m | reflexivity].
      * discriminate.
    + destruct (Hother m Hm) as (err & ->). cbn. split; [reflexivity |]. split.
      * split; [discriminate |]. intros (m' & [= <-] & Hm'). contradiction.
      * discriminate.
  - rewrite Herr. cbn. split; [reflexivity |]. split.
    + split; [discriminate |]. intros (m & [=] & _).
    + intros err' [= <-]. reflexivity.
Qed.

Lemma Next_unwraps (threadID : Z) :
  unwraps (Next threadID) "next" "*dap.NextResponse".
Proof. unwraps_by_cases. Qed.

Lemma StepIn_unwraps (threadID : Z) :
  unwraps (StepIn threadID) "stepIn" "*dap.StepInResponse".
Proof. unwraps_by_cases. Qed.

Lemma StepOut_unwraps (threadID : Z) :
  unwraps (StepOut threadID) "stepOut" "*dap.StepOutResponse".
Proof. unwraps_by_cases. Qed.

Lemma Pause_unwraps (threadID : Z) :
  unwraps (Pause threadID) "pause" "*dap.PauseResponse".
Proof. unwraps_by_cases. Qed.

(** X18. The [create_debug_session] tool never rebinds an identifier: a call
    with an identifier that is already bound returns the already-exists error
    without asking the factory for a session, and whatever sequence of
    creations follows, the identifier stays bound to the session it had. *)
Theorem create_debug_session_never_rebinds
    (sessionID : string) (later : list string)
    (sessions : gmap string Ref) (f : Factory) (ref : Ref) :
  sessions !! sessionID = Some ref ->
  mcp.createDebugSession askDebugger sessionID sessions f
    = (mcp.failure ("Session " +:+ sessionID +:+ " already exists"),
       sessions, f) /\
  (mcp.createAll askDebugger later sessions f).1.2 !! sessionID = Some ref.
Proof.
  intros Hbound. split.
  - unfold mcp.createDebugSession. rewrite Hbound. reflexivity.
  - apply createAll_keeps. exact Hbound.
Qed.

(** X19. A new identifier is bound only by a session of the factory: when the
    factory fails, or replies with something that is not a session, the tool
    reports an error and the identifier stays unbound; when it replies with a
    session, the identifier is bound to that session and every other binding
    is kept. *)
Theorem create_debug_session_binds_the_reply
    (sessionID : string) (sessions : gmap string Ref) (f : Factory) :
  sessions !! sessionID = None ->
  let '(result, sessions', f') :=
    mcp.createDebugSession askDebugger sessionID sessions f in
  f' = (askDebugger f).2 /\
  match (askDebugger f).1 with
  | Ok (Some session) =>
      result = mcp.success ("Created debugging session: " +:+ sessionID) /\
      sessions' !! sessionID = Some session /\
      (forall other, other <> sessionID ->
                     sessions' !! other = sessions !! other)
  | Ok None =>
      result = mcp.failure "Invalid response from debugger" /\
      sessions' = sessions
  | Err err =>
      result = mcp.failure ("Failed to create session: " +:+ Error err) /\
      sessions' = sessions
  end.
Proof.
  intros Hfree. unfold mcp.createDebugSession. rewrite Hfree.
  destruct (askDebugger f) as [[[session|]|err] f']; cbn [fst snd];
    split; try reflexivity; try (split; reflexivity).
  split; [reflexivity |]. split; [apply lookup_insert_eq |].
  intros other Hother. apply lookup_insert_ne. congruence.
Qed.

(** X20. No session tool touches a backend for an identifier that is not
    bound: each of them returns the not-found error and leaves every backend
    as it was. *)
Theorem tools_reject_unknown_sessions
    (sessionID clientID file : string) (lines : list Z) (threadID : Z)
    (args : mcp.LaunchProgramArgs) (sessions : gmap string Ref) (w : World) :
  sessions !! sessionID = None ->
  mcp.LP_SessionID args = sessionID ->
  let rejected := (mcp.notFound sessionID, w) in
  mcp.initializeSession ask marshal sessionID clientID sessions w = rejected /\
  mcp.launchProgram ask Stat marshal args sessions w = rejected /\
  mcp.configurationDone ask marshal sessionID sessions w = rejected /\
  mcp.setBreakpoints ask marshal sessionID file lines sessions w = rejected /\
  mcp.continueExecution ask sessionID threadID sessions w = rejected /\
  mcp.stepNext ask sessionID threadID sessions w = rejected /\
  mcp.stepIn ask sessionID threadID sessions w = rejected /\
  mcp.stepOut ask sessionID threadID sessions w = rejected /\
  mcp.pauseExecution ask sessionID threadID sessions w = rejected.
Proof.
  intros Hfree <-.
  unfold mcp.initializeSession, mcp.launchProgram, mcp.configurationDone,
    mcp.setBreakpoints, mcp.continueExecution, mcp.stepNext, mcp.stepIn,
    mcp.stepOut, mcp.pauseExecution, mcp.executionTool.
  rewrite Hfree. repeat split.
Qed.

(** X21. The [set_breakpoints] tool called with no line fails with the text
    of the helper's validation error and sends nothing to the session, and
    called with lines it hands the session one request that carries the file
    and one plain breakpoint per line. *)
Theorem set_breakpoints_tool_lines
    (sessionID file : string) (line : Z) (lines : list Z)
    (sessions : gmap string Ref) (session : Ref) (w : World) :
  sessions !! sessionID = Some session ->
  mcp.setBreakpoints ask marshal sessionID file [] sessions w
    = (mcp.failure "Failed to set breakpoints: no breakpoints provided", w) /\
  (mcp.setBreakpoints ask marshal sessionID file (line :: lines) sessions w).2
    = (ask session
         {| Request :=
              dap.SetBreakpointsRequest (request 0 "setBreakpoints")
                {| dap.Source_ := {| dap.Path := file |};
                   dap.Breakpoints := map lineBreakpoint (line :: lines) |} |}
         w).2.
Proof.
  intros Hsession. unfold mcp.setBreakpoints. rewrite Hsession. split;
    [reflexivity |].
  assert (Hsame : sameFile file
            (map (fun l => {| File := file; Line := l; Column := 0;
                              Condition := ""; HitCondition := "";
                              LogMessage := "" |}) lines) = true).
  { apply sameFile_true_iff. intros bp Hin.
    apply list_elem_of_fmap in Hin as (l & -> & _). reflexivity. }
  unfold SetSourceBreakpoints, SetBreakpoints. cbn [map File].
  rewrite Hsame. cbn [negb runCall map]. rewrite map_map.
  match goal with
  | |- (let '(_, _) := let '(_, _) := ask session ?r w in _ in _).2 = _ =>
      change r with
        {| Request :=
             dap.SetBreakpointsRequest (request 0 "setBreakpoints")
               {| dap.Source_ := {| dap.Path := file |};
                  dap.Breakpoints := map lineBreakpoint (line :: lines) |} |}
  end.
  destruct (ask session _ w) as [[[m]|err] w']; cbn [fst snd Response];
    [destruct m |]; reflexivity.
Qed.

(** X22. The [launch_program] tool names the session for the client that
    does not: the request it hands the session carries the client's name, or
    [Debug Session] when the client left the name empty, and the program path
    as the client gave it. *)
Theorem launch_program_tool_names_the_session
    (args : mcp.LaunchProgramArgs) (sessions : gmap string Ref)
    (session : Ref) (w : World) :
  sessions !! mcp.LP_SessionID args = Some session ->
  exists req payload,
    (mcp.launchProgram ask Stat marshal args sessions w).2
      = (ask session {| Request := dap.LaunchRequest req payload |} w).2 /\
    payload !! "name"
      = Some (dap.JString (if String.eqb (mcp.LP_Name args) ""
                           then "Debug Session" else mcp.LP_Name args)) /\
    payload !! "program" = Some (dap.JString (mcp.LP_Program args)).
Proof.
  intros Hsession.
  exists (request 2 "launch"), (launchArgs Stat (mcp.launchConfigOf args)).
  split.
  - unfold mcp.launchProgram. rewrite Hsession.
    unfold LaunchProgram. cbn [runCall].
    destruct (ask session _ w) as [[[m]|err] w']; cbn [fst snd Response];
      [destruct m |]; reflexivity.
  - pose proof (launchArgs_name_program Stat (mcp.launchConfigOf args))
      as [Hname Hprogram].
    split; [exact Hname | exact Hprogram].
Qed.

(** X23. The step and pause tools report what the backend did: each hands
    the bound session one request of its own command, succeeds exactly when
    the session replied with the response type of that command, and prints
    an error of the session after its own failure text. *)
Theorem execution_tools_report_the_backend :
  reportsBackend ask (mcp.stepNext ask) "next" "*dap.NextResponse"
    "Failed to step next: " /\
  reportsBackend ask (mcp.stepIn ask) "stepIn" "*dap.StepInResponse"
    "Failed to step in: " /\
  reportsBackend ask (mcp.stepOut ask) "stepOut" "*dap.StepOutResponse"
    "Failed to step out: " /\
  reportsBackend ask (mcp.pauseExecution ask) "pause" "*dap.PauseResponse"
    "Failed to pause execution: ".
Proof.
  repeat split; apply executionTool_reports;
    auto using Next_unwraps, StepIn_unwraps, StepOut_unwraps, Pause_unwraps.
Qed.


End Tools.

Lemma create_debug_session_never_rebinds_witness :
  mcp.createDebugSession numbering "s1" oneSession 1%nat
    = (mcp.failure "Session s1 already exists", oneSession, 1%nat) /\
  (mcp.createAll numbering ["s2"; "s1"; "s3"] oneSession 1%nat).1.2 !! "s1"
    = Some "session-1".
Proof.
  apply (create_debug_session_never_rebinds numbering "s1" ["s2"; "s1"; "s3"]
           oneSession 1%nat "session-1").
  vm_compute. reflexivity.
Defined.

Lemma create_debug_session_binds_the_reply_witness :
  (mcp.createDebugSession numbering "s2" oneSession 1%nat).1.2 !! "s2"
    = Some "session-2" /\
  (mcp.createDebugSession numbering "s2" oneSession 1%nat).1.2 !! "s1"
    = Some "session-1".
Proof.
  assert (Hfree : oneSession !! "s2" = None) by (vm_compute; reflexivity).
  pose proof (create_debug_session_binds_the_reply numbering "s2" oneSession
                1%nat Hfree) as H.
  destruct (mcp.createDebugSession numbering "s2" oneSession 1%nat)
    as [[result sessions'] f'].
  change ((numbering 1%nat).1) with (Ok (Some "session-2") : Result (option string))
    in H.
  destruct H as (_ & _ & Hbound & Hkept). split; [exact Hbound |].
  rewrite Hkept by discriminate. vm_compute. reflexivity.
Defined.

Lemma tools_reject_unknown_sessions_witness :
  mcp.launchProgram (recording continued) statMissing dap.typeName
    unnamedLaunch ∅ [] = (mcp.failure "Session s1 not found", []) /\
  mcp.stepNext (recording continued) "s1" 1 ∅ []
    = (mcp.failure "Session s1 not found", []).
Proof.
  pose proof (tools_reject_unknown_sessions (recording continued) statMissing
                dap.typeName "s1" "client" "main.go" [10] 1 unnamedLaunch
                ∅ []) as H.
  cbv zeta in H.
  destruct H as (_ & Hlaunch & _ & _ & _ & Hnext & _).
  - apply lookup_empty.
  - reflexivity.
  - split; [exact Hlaunch | exact Hnext].
Defined.

Lemma set_breakpoints_tool_lines_witness :
  mcp.setBreakpoints (recording continued) dap.typeName "s1" "main.go" []
    oneSession []
    = (mcp.failure "Failed to set breakpoints: no breakpoints provided", []) /\
  (mcp.setBreakpoints (recording continued) dap.typeName "s1" "main.go"
     [10; 20] oneSession []).2
    = [("session-1",
        dap.SetBreakpointsRequest (request 0 "setBreakpoints")
          {| dap.Source_ := {| dap.Path := "main.go" |};
             dap.Breakpoints := [lineBreakpoint 10; lineBreakpoint 20] |})].
Proof.
  apply (set_breakpoints_tool_lines (recording continued) dap.typeName
           "s1" "main.go" 10 [20] oneSession "session-1" []).
  vm_compute. reflexivity.
Defined.

Lemma launch_program_tool_names_the_session_witness :
  exists req payload,
    (mcp.launchProgram (recording continued) statMissing dap.typeName
       unnamedLaunch oneSession []).2
      = [("session-1", dap.LaunchRequest req payload)] /\
    payload !! "name" = Some (dap.JString "Debug Session") /\
    payload !! "program" = Some (dap.JString "./cmd/server").
Proof.
  apply (launch_program_tool_names_the_session (recording continued)
           statMissing dap.typeName unnamedLaunch oneSession "session-1" []).
  vm_compute. reflexivity.
Defined.


(** ** Helpers against the mock session *)

(** X25. A typed helper run against the mock session: the mock records the
    helper's one request after those it already holds and keeps its canned
    responses; the helper returns the canned response of its command when
    that response has the command's response type, fails when it has
    another type, and returns the mock's no-mock-response error when the
    command has no canned response. *)
Theorem helpers_against_the_mock
    (h : Call (Result dap.Message)) (command responseType : string)
    (m : MockSession) :
  unwraps h command responseType ->
  exists req,
    asked h = Some req /\
    mock_requests (runCall MockSession_Receive h m).2
      = mock_requests m ++ [req] /\
    mock_responses (runCall MockSession_Receive h m).2 = mock_responses m /\
    match mock_responses m !! command with
    | None =>
        (runCall MockSession_Receive h m).1
          = Err (errorString ("no mock response for command: " +:+ command))
    | Some response =>
        (dap.typeName response = responseType ->
         (runCall MockSession_Receive h m).1 = Ok response) /\
        (dap.typeName response <> responseType ->
         exists err, (runCall MockSession_Receive h m).1 = Err err)
    end.
Proof.
  intros (req & k & -> & Hcommand & Herr & Hok & Hother).
  exists (Request req). split; [reflexivity |].
  unfold runCall, MockSession_Receive. rewrite Hcommand.
  destruct (mock_responses m !! command) as [response|]; cbn [fst snd];
    (split; [reflexivity |]); (split; [reflexivity |]).
  - split; [apply Hok | apply Hother].
  - apply Herr.
Qed.

Lemma helpers_against_the_mock_witness :
  (runCall MockSession_Receive (Next 1)
     (SetResponse "next" dap.NextResponse NewMockSession)).1
    = Ok dap.NextResponse /\
  (runCall MockSession_Receive (Next 1) NewMockSession).1
    = Err (errorString "no mock response for command: next").
Proof.
  split.
  - destruct (helpers_against_the_mock (Next 1) "next" "*dap.NextResponse"
                (SetResponse "next" dap.NextResponse NewMockSession)
                (Next_unwraps 1)) as (req & _ & _ & _ & Hreply).
    change (mock_responses (SetResponse "next" dap.NextResponse NewMockSession)
              !! "next") with (Some dap.NextResponse) in Hreply.
    apply Hreply. reflexivity.
  - destruct (helpers_against_the_mock (Next 1) "next" "*dap.NextResponse"
                NewMockSession (Next_unwraps 1)) as (req & _ & _ & _ & Hreply).
    exact Hreply.
Defined.
